(** * TestFlow platform: the asynchronous execution engine

    A shallow embedding of [app/tasks/execution_tasks.py] and of the parts of
    [app/models/execution.py], [app/db/redis.py], [app/db/mongodb.py] and
    [app/db/postgresql.py] it relies on, followed by the properties of the
    engine that the design document states.

    Conventions of the embedding.
    - Python [int] is [Z]; [datetime] is an instant on a discrete clock ([Z]);
      a [timedelta.total_seconds()] is the difference of two instants.
    - Python [float] is IEEE 754 binary64.  The pass rate is computed as
      the code computes it: the quotient and the product are each rounded
      to the nearest double, ties to even ([to_double], on the exact
      rational value of a double), and [round(x, 2)] takes the nearest
      hundredth of the exact value of the double [x], ties to even; its
      result is written as that decimal, which is how Python prints and
      serialises the double nearest to it.  The progress percentages, of
      which no rounding is observed here, are kept as exact rationals.
    - A Python [dict] literal is an association list of JSON values.
    - The relational store has a committed state, shared by all workers, and
      every task works through a session of its own: rows flushed by a
      session reach the committed state when the session commits.
    - What the code cannot decide by itself (the outcome of a unit of work,
      the availability of Redis and MongoDB, a cancellation task scheduled on
      another worker) is read from an environment [Env].  Statements of the
      relational store itself are taken to succeed in the tasks and routes;
      the session of the failure callback, which is opened in a second
      event loop on the engine the task body has used, may fail. *)

From Stdlib Require Import ZArith QArith Qround Qabs Lia Lqa.
From Stdlib Require Import Qpower.
From stdpp Require Import base option list gmap strings pretty.
From stdpp Require Import sorting.

Set Warnings "-register-all".

Local Open Scope Z_scope.

(** ** Enumerations ([app/models/execution.py], [app/models/test_case.py]) *)

Module ExecutionStatus.

Inductive t := PENDING | QUEUED | RUNNING | PAUSED | COMPLETED | FAILED | CANCELLED | TIMEOUT.

#[global] Instance eq_dec : EqDecision t.
Proof. solve_decision. Defined.

Definition value (s : t) : string :=
  match s with
  | PENDING => "pending" | QUEUED => "queued" | RUNNING => "running"
  | PAUSED => "paused" | COMPLETED => "completed" | FAILED => "failed"
  | CANCELLED => "cancelled" | TIMEOUT => "timeout"
  end.

End ExecutionStatus.

Module TestResultStatus.

Inductive t := PASSED | FAILED | SKIPPED | BLOCKED | ERROR | PENDING.

#[global] Instance eq_dec : EqDecision t.
Proof. solve_decision. Defined.

Definition value (s : t) : string :=
  match s with
  | PASSED => "passed" | FAILED => "failed" | SKIPPED => "skipped"
  | BLOCKED => "blocked" | ERROR => "error" | PENDING => "pending"
  end.

End TestResultStatus.

Module TestCaseStatus.

Inductive t := DRAFT | ACTIVE | DEPRECATED | REVIEW.

#[global] Instance eq_dec : EqDecision t.
Proof. solve_decision. Defined.

End TestCaseStatus.

(** ** Rows of the relational store *)

Module TestExecution.

Record t := mk {
  id : Z;
  project_id : Z;
  test_suite_id : option Z;
  status : ExecutionStatus.t;
  environment : option string;
  started_at : option Z;
  completed_at : option Z;
  duration_seconds : option Z;
  total_tests : Z;
  passed_tests : Z;
  failed_tests : Z;
  skipped_tests : Z;
  blocked_tests : Z;
  error_tests : Z;
  error_message : option string;
  celery_task_id : option string
}.

Definition with_status (v : ExecutionStatus.t) (e : t) : t :=
  mk (id e) (project_id e) (test_suite_id e) v (environment e) (started_at e)
     (completed_at e) (duration_seconds e) (total_tests e) (passed_tests e)
     (failed_tests e) (skipped_tests e) (blocked_tests e) (error_tests e)
     (error_message e) (celery_task_id e).

Definition with_started_at (v : option Z) (e : t) : t :=
  mk (id e) (project_id e) (test_suite_id e) (status e) (environment e) v
     (completed_at e) (duration_seconds e) (total_tests e) (passed_tests e)
     (failed_tests e) (skipped_tests e) (blocked_tests e) (error_tests e)
     (error_message e) (celery_task_id e).

Definition with_completed_at (v : option Z) (e : t) : t :=
  mk (id e) (project_id e) (test_suite_id e) (status e) (environment e)
     (started_at e) v (duration_seconds e) (total_tests e) (passed_tests e)
     (failed_tests e) (skipped_tests e) (blocked_tests e) (error_tests e)
     (error_message e) (celery_task_id e).

Definition with_duration_seconds (v : option Z) (e : t) : t :=
  mk (id e) (project_id e) (test_suite_id e) (status e) (environment e)
     (started_at e) (completed_at e) v (total_tests e) (passed_tests e)
     (failed_tests e) (skipped_tests e) (blocked_tests e) (error_tests e)
     (error_message e) (celery_task_id e).

Definition with_total_tests (v : Z) (e : t) : t :=
  mk (id e) (project_id e) (test_suite_id e) (status e) (environment e)
     (started_at e) (completed_at e) (duration_seconds e) v (passed_tests e)
     (failed_tests e) (skipped_tests e) (blocked_tests e) (error_tests e)
     (error_message e) (celery_task_id e).

Definition with_counts (p f s b x : Z) (e : t) : t :=
  mk (id e) (project_id e) (test_suite_id e) (status e) (environment e)
     (started_at e) (completed_at e) (duration_seconds e) (total_tests e)
     p f s b x (error_message e) (celery_task_id e).

Definition with_error_message (v : option string) (e : t) : t :=
  mk (id e) (project_id e) (test_suite_id e) (status e) (environment e)
     (started_at e) (completed_at e) (duration_seconds e) (total_tests e)
     (passed_tests e) (failed_tests e) (skipped_tests e) (blocked_tests e)
     (error_tests e) v (celery_task_id e).

Definition with_celery_task_id (v : option string) (e : t) : t :=
  mk (id e) (project_id e) (test_suite_id e) (status e) (environment e)
     (started_at e) (completed_at e) (duration_seconds e) (total_tests e)
     (passed_tests e) (failed_tests e) (skipped_tests e) (blocked_tests e)
     (error_tests e) (error_message e) v.

(** Rounding to the nearest integer, a tie goes to the even neighbour. *)
Definition round_half_even (x : Q) : Z :=
  let f := Qfloor x in
  match (x - inject_Z f ?= 1 # 2)%Q with
  | Lt => f
  | Gt => f + 1
  | Eq => if Z.even f then f else f + 1
  end.

(** Python's [round(x, 2)] of a double [x]: the decimal with two places
    nearest to the exact value of [x], a tie going to the even neighbour
    (the result is the double nearest to that decimal). *)
Definition round2 (x : Q) : Q := (round_half_even (x * 100) # 100)%Q.

(** Binary64.  [binade x] is the exponent of the largest power of two that
    is at most [|x|], for [x] other than 0. *)
Definition binade (x : Q) : Z :=
  let e := Z.log2 (Z.abs (Qnum x)) - Z.log2 (Z.pos (Qden x)) in
  if Qle_bool (2 ^ e) (Qabs x) then e else e - 1.

(** The double nearest to the real number [x], a tie going to the even
    significand: 53 significant bits from exponent -1022 upwards, and the
    fixed spacing [2^-1074] below.  Nothing here reaches [2^1024], where a
    double overflows. *)
Definition to_double (x : Q) : Q :=
  let x := Qred x in
  let e := Z.max (binade x) (-1022) in
  Qred (inject_Z (round_half_even (x * 2 ^ (52 - e))) * 2 ^ (e - 52))%Q.

(** [TestExecution.pass_rate] (property): [int / int] is the quotient
    rounded to a double, [* 100] the product rounded to a double. *)
Definition pass_rate (self : t) : Q :=
  let executed := passed_tests self + failed_tests self in
  if executed =? 0 then 0%Q
  else round2 (to_double (to_double (inject_Z (passed_tests self) / inject_Z executed)
                          * 100))%Q.

(** [TestExecution.is_running], [TestExecution.is_complete] (properties). *)
Definition is_running (self : t) : bool :=
  bool_decide (status self ∈ [ExecutionStatus.RUNNING; ExecutionStatus.QUEUED]).

Definition is_complete (self : t) : bool :=
  bool_decide (status self ∈ [ExecutionStatus.COMPLETED; ExecutionStatus.FAILED;
                               ExecutionStatus.CANCELLED; ExecutionStatus.TIMEOUT]).

End TestExecution.

Module TestCaseResult.

(** The columns the engine reads or writes.  The primary key is left out:
    a row is identified by its place in the table. *)
Record t := mk {
  execution_id : Z;
  test_case_id : Z;
  status : TestResultStatus.t;
  started_at : option Z;
  completed_at : option Z;
  duration_seconds : option Z;
  actual_result : option string;
  error_message : option string;
  environment : option string
}.

Definition is_passed (self : t) : bool :=
  bool_decide (status self = TestResultStatus.PASSED).

Definition is_failed (self : t) : bool :=
  bool_decide (status self ∈ [TestResultStatus.FAILED; TestResultStatus.ERROR]).

End TestCaseResult.

Module TestCase.

Record t := mk {
  id : Z;
  project_id : Z;
  status : TestCaseStatus.t
}.

End TestCase.

(** ** JSON values: cache entries, log documents, task results *)

Inductive Json :=
| JNull
| JBool (b : bool)
| JInt (n : Z)
| JNum (q : Q)
| JStr (s : string)
| JTime (instant : Z)
| JList (items : list Json)
| JDict (fields : list (string * Json)).

Definition json_opt_int (o : option Z) : Json :=
  match o with Some n => JInt n | None => JNull end.

Definition json_opt_str (o : option string) : Json :=
  match o with Some s => JStr s | None => JNull end.

(** ** The three stores and the observable trace *)

(** Committed state of PostgreSQL.  [suite_test_cases] is the association
    table, one pair (suite id, test case id) per membership. *)
Record Store := mkStore {
  executions : gmap Z TestExecution.t;
  results : list TestCaseResult.t;
  test_cases : list TestCase.t;
  suite_test_cases : list (Z * Z)
}.

(** What happened, in order: every version of an execution row that some
    session committed, every result row added to a session, every unit of
    work started, every line printed. *)
Inductive Event :=
| EvCommit (row : TestExecution.t)
| EvResultAdded (execution_id test_case_id : Z)
| EvRunner (test_case_id : Z)
| EvPrint (line : string).

Record World := mkWorld {
  db : Store;
  cache : gmap string Json;
  execution_logs : list Json;
  clock : Z;
  trace : list Event
}.

Definition with_db (st : Store) (w : World) : World :=
  mkWorld st (cache w) (execution_logs w) (clock w) (trace w).

Definition with_cache (c : gmap string Json) (w : World) : World :=
  mkWorld (db w) c (execution_logs w) (clock w) (trace w).

Definition with_execution_logs (l : list Json) (w : World) : World :=
  mkWorld (db w) (cache w) l (clock w) (trace w).

Definition emit (ev : Event) (w : World) : World :=
  mkWorld (db w) (cache w) (execution_logs w) (clock w) (trace w ++ [ev]).

(** [datetime.utcnow()]: the clock is read and moves on. *)
Definition utcnow (w : World) : Z * World :=
  (clock w, mkWorld (db w) (cache w) (execution_logs w) (clock w + 1) (trace w)).

(** [print(...)] *)
Definition print (line : string) (w : World) : World := emit (EvPrint line) w.

(** ** Results of calls that may raise *)

Inductive Outcome (A : Type) :=
| Returned (a : A)
| Raised (msg : string).
Arguments Returned {A} a.
Arguments Raised {A} msg.

(** ** The environment of one task invocation *)

(** What the body of the [try] in [_execute_single_test] does: the simulated
    run ends with a verdict, or an exception (one that [except Exception]
    catches) is raised while it runs, before the row is touched. *)
Inductive RunnerOutcome :=
| Verdict (passed : bool)
| Raises (msg : string).

(** The places where the tasks talk to Redis. *)
Inductive CacheSite :=
| AtStart
| AtProgress (idx : nat)
| AtCompleted
| AtFailed
| AtCancel.

#[global] Instance CacheSite_eq_dec : EqDecision CacheSite.
Proof. solve_decision. Defined.

Record Env := mkEnv {
  runner : nat -> RunnerOutcome;
  redis_error : CacheSite -> option string;
  mongo_error : option string;
  cancel_before : nat -> bool
}.

(** ** Redis ([app/db/redis.py]) *)

Module CacheKeys.

Definition execution_status (execution_id : string) : string :=
  "execution:status:" +:+ execution_id.

End CacheKeys.

(** Python's [str] on an [int]. *)
Definition str (n : Z) : string := pretty n.

Module RedisCache.

(** [RedisCache.set_json(key, value, expire=3600)]: raises when Redis is
    not reachable, stores the value otherwise.  Expiry is not modelled. *)
Definition set_json (env : Env) (site : CacheSite) (key : string) (value : Json)
    (w : World) : Outcome unit * World :=
  match redis_error env site with
  | Some msg => (Raised msg, w)
  | None => (Returned tt, with_cache (<[key := value]> (cache w)) w)
  end.

(** [RedisCache.delete(key)] *)
Definition delete (env : Env) (site : CacheSite) (key : string)
    (w : World) : Outcome unit * World :=
  match redis_error env site with
  | Some msg => (Raised msg, w)
  | None => (Returned tt, with_cache (base.delete key (cache w)) w)
  end.

End RedisCache.

(** ** Sessions on the relational store ([app/db/postgresql.py])

    A session of the orchestrator holds the execution row it loaded, which
    the code mutates in place, and the result rows it has added and flushed.
    [commit] writes the loaded row over the committed one and appends the
    flushed rows.  At every point where a task returns or lets an exception
    escape, its session has just committed, so the commit (or rollback)
    that [get_db_context] performs on leaving the block writes nothing and
    is not repeated here. *)

Record Session := mkSession {
  execution : TestExecution.t;
  added : list TestCaseResult.t
}.

Definition update (f : TestExecution.t -> TestExecution.t) (s : Session) : Session :=
  mkSession (f (execution s)) (added s).

Definition add_result (r : TestCaseResult.t) (s : Session) : Session :=
  mkSession (execution s) (added s ++ [r]).

Definition commit_store (s : Session) (st : Store) : Store :=
  mkStore (<[TestExecution.id (execution s) := execution s]> (executions st))
          (results st ++ added s) (test_cases st) (suite_test_cases st).

Definition commit (s : Session) (w : World) : Session * World :=
  (mkSession (execution s) [],
   emit (EvCommit (execution s)) (with_db (commit_store s (db w)) w)).

(** ** Cancellation task *)

Definition not_found : Json :=
  JDict [("success", JBool false); ("error", JStr "Execution not found")].

Definition not_running : Json :=
  JDict [("success", JBool false); ("error", JStr "Execution is not running")].

(** [_cancel_execution_async] *)
Definition _cancel_execution_async (env : Env) (execution_id : Z) (w : World)
    : Outcome Json * World :=
  match executions (db w) !! execution_id with
  | None => (Returned not_found, w)
  | Some execution =>
      if negb (bool_decide (TestExecution.status execution
                 ∈ [ExecutionStatus.RUNNING; ExecutionStatus.QUEUED]))
      then (Returned not_running, w)
      else
        let s := mkSession execution [] in
        let s := update (TestExecution.with_status ExecutionStatus.CANCELLED) s in
        let '(now, w) := utcnow w in
        let s := update (TestExecution.with_completed_at (Some now)) s in
        let '(s, w) := commit s w in
        match RedisCache.delete env AtCancel
                (CacheKeys.execution_status (str execution_id)) w with
        | (Raised msg, w) => (Raised msg, w)
        | (Returned _, w) =>
            (Returned (JDict [("success", JBool true);
                              ("execution_id", JInt execution_id)]), w)
        end
  end.

(** What another worker does to the shared stores just before test case
    [idx] of this run is started: it runs the cancellation task for the same
    execution when the environment schedules one there. *)
Definition other_workers (env : Env) (execution_id : Z) (idx : nat) (w : World) : World :=
  if cancel_before env idx then snd (_cancel_execution_async env execution_id w) else w.

(** ** Target-set resolution *)

(** [_get_test_cases_for_execution].  The suite branch is the join of the
    test cases with the association table, kept where the test case belongs
    to the suite; the project branch keeps the active test cases of the
    project.  [if execution.test_suite_id:] is Python truthiness. *)
Definition _get_test_cases_for_execution (st : Store) (execution : TestExecution.t)
    : list TestCase.t :=
  match TestExecution.test_suite_id execution with
  | Some suite =>
      if suite =? 0 then
        filter (fun tc => TestCase.project_id tc = TestExecution.project_id execution
                          ∧ TestCase.status tc = TestCaseStatus.ACTIVE) (test_cases st)
      else
        tc ← test_cases st;
        _ ← filter (fun a => a.2 = TestCase.id tc) (suite_test_cases st);
        if bool_decide ((suite, TestCase.id tc) ∈ suite_test_cases st) then [tc] else []
  | None =>
      filter (fun tc => TestCase.project_id tc = TestExecution.project_id execution
                        ∧ TestCase.status tc = TestCaseStatus.ACTIVE) (test_cases st)
  end.

(** ** One test case *)

(** [_execute_single_test].  The row is created PENDING, added and flushed,
    and then brought to its final state in place; [idx] selects what the
    unit of work does in this environment. *)
Definition _execute_single_test (env : Env) (idx : nat) (test_case : TestCase.t)
    (s : Session) (w : World) : TestCaseResult.t * Session * World :=
  let '(start_time, w) := utcnow w in
  let result :=
    TestCaseResult.mk (TestExecution.id (execution s)) (TestCase.id test_case)
      TestResultStatus.PENDING (Some start_time) None None None None
      (TestExecution.environment (execution s)) in
  let w := emit (EvResultAdded (TestCaseResult.execution_id result)
                               (TestCaseResult.test_case_id result)) w in
  let w := emit (EvRunner (TestCase.id test_case)) w in
  match runner env idx with
  | Verdict passed =>
      let '(now, w) := utcnow w in
      let result :=
        TestCaseResult.mk (TestCaseResult.execution_id result)
          (TestCaseResult.test_case_id result)
          (if passed then TestResultStatus.PASSED else TestResultStatus.FAILED)
          (TestCaseResult.started_at result) (Some now) (Some (now - start_time))
          (Some (if passed then "All assertions passed"
                 else "Expected value did not match actual value"))
          (if passed then None else Some "Test assertion failed")
          (TestCaseResult.environment result) in
      (result, add_result result s, w)
  | Raises msg =>
      let '(now, w) := utcnow w in
      let result :=
        TestCaseResult.mk (TestCaseResult.execution_id result)
          (TestCaseResult.test_case_id result) TestResultStatus.ERROR
          (TestCaseResult.started_at result) (Some now) (Some (now - start_time))
          None (Some msg) (TestCaseResult.environment result) in
      (result, add_result result s, w)
  end.

(** ** Recount, log entry, loop and entry point *)

(** [sum(1 for r in results if r.status == st)] *)
Definition count_status (st : TestResultStatus.t) (rows : list TestCaseResult.t) : Z :=
  Z.of_nat (length (filter (fun r => TestCaseResult.status r = st) rows)).

(** The rows a session sees for one execution: the committed ones and the
    ones it has flushed itself. *)
Definition select_results (execution_id : Z) (s : Session) (w : World)
    : list TestCaseResult.t :=
  filter (fun r => TestCaseResult.execution_id r = execution_id)
         (results (db w) ++ added s).

(** [_update_execution_summary] *)
Definition _update_execution_summary (s : Session) (w : World) : Session :=
  let results := select_results (TestExecution.id (execution s)) s w in
  update (TestExecution.with_counts
            (count_status TestResultStatus.PASSED results)
            (count_status TestResultStatus.FAILED results)
            (count_status TestResultStatus.SKIPPED results)
            (count_status TestResultStatus.BLOCKED results)
            (count_status TestResultStatus.ERROR results)) s.

Definition log_result (r : TestCaseResult.t) : Json :=
  JDict [("test_case_id", JInt (TestCaseResult.test_case_id r));
         ("status", JStr (TestResultStatus.value (TestCaseResult.status r)));
         ("duration", json_opt_int (TestCaseResult.duration_seconds r));
         ("error", json_opt_str (TestCaseResult.error_message r))].

(** [_store_execution_logs]: whatever MongoDB raises is printed and
    dropped. *)
Definition _store_execution_logs (env : Env) (execution_id : Z)
    (results : list TestCaseResult.t) (w : World) : World :=
  let '(now, w) := utcnow w in
  let log_entry :=
    JDict [("execution_id", JInt execution_id);
           ("timestamp", JTime now);
           ("results_count", JInt (Z.of_nat (length results)));
           ("results", JList (log_result <$> results))] in
  match mongo_error env with
  | Some e => print ("Failed to store execution logs: " +:+ e) w
  | None => with_execution_logs (execution_logs w ++ [log_entry]) w
  end.

(** The [for idx, test_case in enumerate(test_cases)] loop, from index
    [idx] on; [total] is [len(test_cases)] and [results] the list built so
    far.  Other workers get their turn before each test case. *)
Fixpoint run_loop (env : Env) (execution_id : Z) (total : nat) (idx : nat)
    (todo : list TestCase.t) (results : list TestCaseResult.t)
    (s : Session) (w : World) : Outcome (list TestCaseResult.t) * Session * World :=
  match todo with
  | [] => (Returned results, s, w)
  | test_case :: todo =>
      let w := other_workers env execution_id idx w in
      let '(result, s, w) := _execute_single_test env idx test_case s w in
      let results := results ++ [result] in
      let progress :=
        ((inject_Z (Z.of_nat idx + 1) / inject_Z (Z.of_nat total)) * 100)%Q in
      match RedisCache.set_json env (AtProgress idx)
              (CacheKeys.execution_status (str execution_id))
              (JDict [("status", JStr (ExecutionStatus.value ExecutionStatus.RUNNING));
                      ("progress", JNum progress);
                      ("completed", JInt (Z.of_nat idx + 1));
                      ("total", JInt (Z.of_nat total))]) w with
      | (Raised msg, w) => (Raised msg, s, w)
      | (Returned _, w) => run_loop env execution_id total (S idx) todo results s w
      end
  end.

(** The end of the [try] of [_execute_test_suite_async], from the recount
    to the [return] (after the loop).  [started_at] was set on entry, so the
    duration is always defined. *)
Definition finish_run (env : Env) (execution_id : Z) (results : list TestCaseResult.t)
    (s : Session) (w : World) : Outcome Json * Session * World :=
  let s := _update_execution_summary s w in
  let s := update (TestExecution.with_status ExecutionStatus.COMPLETED) s in
  let '(now, w) := utcnow w in
  let s := update (TestExecution.with_completed_at (Some now)) s in
  let s := update (TestExecution.with_duration_seconds
                     ((fun t0 => now - t0) <$> TestExecution.started_at (execution s))) s in
  let '(s, w) := commit s w in
  match RedisCache.set_json env AtCompleted
          (CacheKeys.execution_status (str execution_id))
          (JDict [("status", JStr (ExecutionStatus.value ExecutionStatus.COMPLETED));
                  ("completed_at", JTime now);
                  ("duration", json_opt_int (TestExecution.duration_seconds (execution s)));
                  ("pass_rate", JNum (TestExecution.pass_rate (execution s)))]) w with
  | (Raised msg, w) => (Raised msg, s, w)
  | (Returned _, w) =>
      let w := _store_execution_logs env execution_id results w in
      (Returned
         (JDict [("success", JBool true);
                 ("execution_id", JInt execution_id);
                 ("total_tests", JInt (TestExecution.total_tests (execution s)));
                 ("passed", JInt (TestExecution.passed_tests (execution s)));
                 ("failed", JInt (TestExecution.failed_tests (execution s)));
                 ("duration", json_opt_int (TestExecution.duration_seconds (execution s)))]),
       s, w)
  end.

(** The body of the [try] of [_execute_test_suite_async]. *)
Definition try_body (env : Env) (execution_id : Z) (s : Session) (w : World)
    : Outcome Json * Session * World :=
  let test_cases := _get_test_cases_for_execution (db w) (execution s) in
  match test_cases with
  | [] =>
      let s := update (TestExecution.with_status ExecutionStatus.COMPLETED) s in
      let '(now, w) := utcnow w in
      let s := update (TestExecution.with_completed_at (Some now)) s in
      let s := update (TestExecution.with_total_tests 0) s in
      let '(s, w) := commit s w in
      (Returned (JDict [("success", JBool true); ("total_tests", JInt 0)]), s, w)
  | _ :: _ =>
      let s := update (TestExecution.with_total_tests (Z.of_nat (length test_cases))) s in
      let '(s, w) := commit s w in
      match run_loop env execution_id (length test_cases) 0 test_cases [] s w with
      | (Raised msg, s, w) => (Raised msg, s, w)
      | (Returned results, s, w) => finish_run env execution_id results s w
      end
  end.

(** The [except Exception as e] handler of [_execute_test_suite_async]:
    the row is marked FAILED and committed together with whatever the
    session has flushed, the cache is told, and the exception is raised
    again (or replaced by the one the cache raises). *)
Definition except_handler (env : Env) (execution_id : Z) (e : string)
    (s : Session) (w : World) : Outcome Json * World :=
  let s := update (TestExecution.with_status ExecutionStatus.FAILED) s in
  let s := update (TestExecution.with_error_message (Some e)) s in
  let '(now, w) := utcnow w in
  let s := update (TestExecution.with_completed_at (Some now)) s in
  let '(s, w) := commit s w in
  match RedisCache.set_json env AtFailed
          (CacheKeys.execution_status (str execution_id))
          (JDict [("status", JStr (ExecutionStatus.value ExecutionStatus.FAILED));
                  ("error", JStr e)]) w with
  | (Raised msg, w) => (Raised msg, w)
  | (Returned _, w) => (Raised e, w)
  end.

(** [_execute_test_suite_async] *)
Definition _execute_test_suite_async (env : Env) (execution_id : Z) (task_id : string)
    (w : World) : Outcome Json * World :=
  match executions (db w) !! execution_id with
  | None => (Returned not_found, w)
  | Some execution =>
      let s := mkSession execution [] in
      let s := update (TestExecution.with_status ExecutionStatus.RUNNING) s in
      let '(now, w) := utcnow w in
      let s := update (TestExecution.with_started_at (Some now)) s in
      let s := update (TestExecution.with_celery_task_id (Some task_id)) s in
      let '(s, w) := commit s w in
      match RedisCache.set_json env AtStart
              (CacheKeys.execution_status (str execution_id))
              (JDict [("status", JStr (ExecutionStatus.value ExecutionStatus.RUNNING));
                      ("started_at", JTime now);
                      ("progress", JInt 0)]) w with
      | (Raised msg, w) => (Raised msg, w)
      | (Returned _, w) =>
          match try_body env execution_id s w with
          | (Returned r, _, w) => (Returned r, w)
          | (Raised e, s, w) => except_handler env execution_id e s w
          end
      end
  end.

(** [CallbackTask._mark_execution_failed].  The callback runs it in an
    [asyncio.run] of its own, after the [asyncio.run] of the task body has
    closed its event loop, and [get_db_context] opens the session on the
    same module-level engine, whose pool keeps the connections of the task
    body.  Whether that session can be used is not decided by this code:
    [callback_db] is the error it raises, if any (a pooled connection that
    belongs to the closed loop raises a [RuntimeError]).  A session that
    fails does so at its first statement, before anything is written. *)
Definition _mark_execution_failed (callback_db : option string) (execution_id : Z)
    (error : string) (w : World) : Outcome unit * World :=
  match callback_db with
  | Some msg => (Raised msg, w)
  | None =>
      match executions (db w) !! execution_id with
      | None => (Returned tt, w)
      | Some execution =>
          let s := mkSession execution [] in
          let s := update (TestExecution.with_status ExecutionStatus.FAILED) s in
          let s := update (TestExecution.with_error_message (Some error)) s in
          let '(now, w) := utcnow w in
          let s := update (TestExecution.with_completed_at (Some now)) s in
          (Returned tt, snd (commit s w))
      end
  end.

(** [CallbackTask.on_failure] with [args = (execution_id,)] *)
Definition on_failure (callback_db : option string) (exc : string) (task_id : string)
    (execution_id : Z) (w : World) : Outcome unit * World :=
  let w := print ("Task " +:+ task_id +:+ " failed: " +:+ exc) w in
  _mark_execution_failed callback_db execution_id exc w.

(** The Celery task [execute_test_suite]: the coroutine is run, and the
    failure callback of the base class when it raises.  [request_id] is
    [self.request.id].  The task fails with the exception of the coroutine
    whether or not the callback raises in turn. *)
Definition execute_test_suite (env : Env) (callback_db : option string)
    (request_id : string) (execution_id : Z) (w : World) : Outcome Json * World :=
  match _execute_test_suite_async env execution_id request_id w with
  | (Returned r, w) => (Returned r, w)
  | (Raised exc, w) =>
      (Raised exc, snd (on_failure callback_db exc request_id execution_id w))
  end.

(** The Celery task [cancel_execution]. *)
Definition cancel_execution (env : Env) (execution_id : Z) (w : World)
    : Outcome Json * World :=
  _cancel_execution_async env execution_id w.

(** ** Vocabulary of the statements *)

Definition counter_sum (e : TestExecution.t) : Z :=
  TestExecution.passed_tests e + TestExecution.failed_tests e
  + TestExecution.skipped_tests e + TestExecution.blocked_tests e
  + TestExecution.error_tests e.

Definition counters_nonneg (e : TestExecution.t) : Prop :=
  0 <= TestExecution.total_tests e ∧ 0 <= TestExecution.passed_tests e
  ∧ 0 <= TestExecution.failed_tests e ∧ 0 <= TestExecution.skipped_tests e
  ∧ 0 <= TestExecution.blocked_tests e ∧ 0 <= TestExecution.error_tests e.

(** Sample data: an execution of project 7 as the API layer creates it. *)
Definition queued_execution : TestExecution.t :=
  TestExecution.mk 1 7 None ExecutionStatus.QUEUED (Some "staging")
    None None None 0 0 0 0 0 0 None None.

(** The status a result row ends with, by what the unit of work did. *)
Definition outcome_status (o : RunnerOutcome) : TestResultStatus.t :=
  match o with
  | Verdict true => TestResultStatus.PASSED
  | Verdict false => TestResultStatus.FAILED
  | Raises _ => TestResultStatus.ERROR
  end.

(** Projections of the trace. *)
Definition runner_calls (w : World) : list Z :=
  omap (fun ev => match ev with EvRunner t => Some t | _ => None end) (trace w).

Definition commits (w : World) : list TestExecution.t :=
  omap (fun ev => match ev with EvCommit row => Some row | _ => None end) (trace w).

(** Committed result rows of one execution, and the terminal ones among
    them for one test case. *)
Definition rows_for (execution_id : Z) (rows : list TestCaseResult.t)
    : list TestCaseResult.t :=
  filter (fun r => TestCaseResult.execution_id r = execution_id) rows.

Definition results_of (execution_id : Z) (st : Store) : list TestCaseResult.t :=
  rows_for execution_id (results st).

Definition terminal_results (execution_id test_case_id : Z) (st : Store)
    : list TestCaseResult.t :=
  filter (fun r => TestCaseResult.execution_id r = execution_id
                   ∧ TestCaseResult.test_case_id r = test_case_id
                   ∧ TestCaseResult.status r ≠ TestResultStatus.PENDING) (results st).

(** Redis answers every call of the task. *)
Definition cache_available (env : Env) : Prop :=
  ∀ site, redis_error env site = None.

(** What is known of the row for test case [tc], run at index [i]. *)
Definition row_of (env : Env) (execution_id : Z) (i : nat) (tc : TestCase.t)
    (r : TestCaseResult.t) : Prop :=
  TestCaseResult.execution_id r = execution_id
  ∧ TestCaseResult.test_case_id r = TestCase.id tc
  ∧ TestCaseResult.status r = outcome_status (runner env i)
  ∧ is_Some (TestCaseResult.completed_at r)
  ∧ is_Some (TestCaseResult.duration_seconds r)
  ∧ (∀ msg, runner env i = Raises msg → TestCaseResult.error_message r = Some msg).

(** The rows for the test cases [todo], run from index [idx] on. *)
Fixpoint rows_of (env : Env) (execution_id : Z) (idx : nat)
    (todo : list TestCase.t) (rows : list TestCaseResult.t) : Prop :=
  match todo, rows with
  | [], [] => True
  | tc :: todo, r :: rows =>
      row_of env execution_id idx tc r ∧ rows_of env execution_id (S idx) todo rows
  | _, _ => False
  end.


(** The execution row as the COMPLETED transition leaves it: counters
    taken from [rows], completed at [now]. *)
Definition completed_row (e : TestExecution.t) (rows : list TestCaseResult.t) (now : Z)
    : TestExecution.t :=
  TestExecution.with_duration_seconds ((fun t0 => now - t0) <$> TestExecution.started_at e)
    (TestExecution.with_completed_at (Some now)
      (TestExecution.with_status ExecutionStatus.COMPLETED
        (TestExecution.with_counts
           (count_status TestResultStatus.PASSED rows)
           (count_status TestResultStatus.FAILED rows)
           (count_status TestResultStatus.SKIPPED rows)
           (count_status TestResultStatus.BLOCKED rows)
           (count_status TestResultStatus.ERROR rows) e))).

(** The document [_store_execution_logs] inserts. *)
Definition log_document (execution_id : Z) (rows : list TestCaseResult.t) (now : Z) : Json :=
  JDict [("execution_id", JInt execution_id);
         ("timestamp", JTime now);
         ("results_count", JInt (Z.of_nat (length rows)));
         ("results", JList (log_result <$> rows))].

(** The execution row as the entry point commits it first. *)
Definition running_row (e : TestExecution.t) (task_id : string) (now : Z) : TestExecution.t :=
  TestExecution.with_celery_task_id (Some task_id)
    (TestExecution.with_started_at (Some now)
      (TestExecution.with_status ExecutionStatus.RUNNING e)).

(** The five counters of [e] are the counts of [rows] by status. *)
Definition counters_from (rows : list TestCaseResult.t) (e : TestExecution.t) : Prop :=
  TestExecution.passed_tests e = count_status TestResultStatus.PASSED rows
  ∧ TestExecution.failed_tests e = count_status TestResultStatus.FAILED rows
  ∧ TestExecution.skipped_tests e = count_status TestResultStatus.SKIPPED rows
  ∧ TestExecution.blocked_tests e = count_status TestResultStatus.BLOCKED rows
  ∧ TestExecution.error_tests e = count_status TestResultStatus.ERROR rows.

Definition same_counters (e e' : TestExecution.t) : Prop :=
  TestExecution.passed_tests e' = TestExecution.passed_tests e
  ∧ TestExecution.failed_tests e' = TestExecution.failed_tests e
  ∧ TestExecution.skipped_tests e' = TestExecution.skipped_tests e
  ∧ TestExecution.blocked_tests e' = TestExecution.blocked_tests e
  ∧ TestExecution.error_tests e' = TestExecution.error_tests e.

(** The execution row as the empty-target branch commits it. *)
Definition empty_row (e : TestExecution.t) (task_id : string) (now : Z) : TestExecution.t :=
  TestExecution.with_total_tests 0
    (TestExecution.with_completed_at (Some (now + 1))
      (TestExecution.with_status ExecutionStatus.COMPLETED (running_row e task_id now))).

(** An execution as the API layer has just created it: no result row
    refers to it and its counters are at their default. *)
Definition never_run (e : TestExecution.t) (w : World) : Prop :=
  results_of (TestExecution.id e) (db w) = []
  ∧ TestExecution.passed_tests e = 0
  ∧ TestExecution.failed_tests e = 0
  ∧ TestExecution.skipped_tests e = 0
  ∧ TestExecution.blocked_tests e = 0
  ∧ TestExecution.error_tests e = 0.

(** Sample data: project 7 with three active test cases and a draft, the
    queued execution 1, nothing cached or logged, the clock at 100. *)
Definition sample_cases : list TestCase.t :=
  [TestCase.mk 10 7 TestCaseStatus.ACTIVE; TestCase.mk 11 7 TestCaseStatus.ACTIVE;
   TestCase.mk 12 7 TestCaseStatus.DRAFT; TestCase.mk 13 7 TestCaseStatus.ACTIVE].

Definition sample_world : World :=
  mkWorld (mkStore {[1 := queued_execution]} [] sample_cases []) ∅ [] 100 [].

(** Environments in which every store answers and nothing is cancelled. *)
Definition calm (verdicts : nat -> RunnerOutcome) : Env :=
  mkEnv verdicts (fun _ => None) None (fun _ => false).

Definition all_pass : nat -> RunnerOutcome := fun _ => Verdict true.

(** PASSED, PASSED, FAILED. *)
Definition two_pass_one_fail : nat -> RunnerOutcome :=
  fun i => Verdict (bool_decide (i < 2)%nat).

(** The second unit of work raises. *)
Definition second_raises : nat -> RunnerOutcome :=
  fun i => if bool_decide (i = 1%nat) then Raises "connection reset" else Verdict true.

(** Redis is unreachable at one place and answers elsewhere. *)
Definition redis_down_at (site : CacheSite) (verdicts : nat -> RunnerOutcome) : Env :=
  mkEnv verdicts
        (fun at_site => if decide (at_site = site) then Some "redis unreachable" else None)
        None (fun _ => false).

(** A first delivery of the job for execution 1 that loses Redis after the
    first test case, and the redelivery that follows. *)
Definition first_delivery : World :=
  Eval vm_compute in
  snd (_execute_test_suite_async (redis_down_at (AtProgress 0) all_pass) 1 "job-1" sample_world).

Definition failed_execution : TestExecution.t :=
  Eval vm_compute in default queued_execution (executions (db first_delivery) !! 1).

Definition redelivery : World :=
  Eval vm_compute in
  snd (_execute_test_suite_async (calm all_pass) 1 "job-2" first_delivery).

(** Execution 1 after one complete run. *)
Definition completed_world : World :=
  Eval vm_compute in
  snd (_execute_test_suite_async (calm two_pass_one_fail) 1 "job-1" sample_world).

(** The execution row as the cancellation task commits it. *)
Definition cancelled_row (e : TestExecution.t) (now : Z) : TestExecution.t :=
  TestExecution.with_completed_at (Some now)
    (TestExecution.with_status ExecutionStatus.CANCELLED e).

Definition completed_execution : TestExecution.t :=
  Eval vm_compute in default queued_execution (executions (db completed_world) !! 1).

(** A project without active test cases, and its queued execution 2. *)
Definition idle_execution : TestExecution.t :=
  TestExecution.mk 2 8 None ExecutionStatus.QUEUED None None None None 0 0 0 0 0 0 None None.

Definition idle_world : World :=
  mkWorld (mkStore {[2 := idle_execution]} []
             [TestCase.mk 20 8 TestCaseStatus.DRAFT; TestCase.mk 21 8 TestCaseStatus.DEPRECATED] [])
          ∅ [] 100 [].

(** Every version of an execution row committed so far, and the version
    of execution [execution_id] that is in the store, satisfy [P]. *)
Definition history_ok (P : TestExecution.t -> Prop) (execution_id : Z) (w : World) : Prop :=
  Forall P (commits w)
  ∧ ∀ e, executions (db w) !! execution_id = Some e → P e.

(** The counter invariant of an execution row. *)
Definition counters_bounded (e : TestExecution.t) : Prop :=
  counter_sum e <= TestExecution.total_tests e.

(** The execution row as the [except] handler commits it. *)
Definition failed_row (e : TestExecution.t) (error : string) (now : Z) : TestExecution.t :=
  TestExecution.with_completed_at (Some now)
    (TestExecution.with_error_message (Some error)
      (TestExecution.with_status ExecutionStatus.FAILED e)).

(** The statuses committed and the units of work started, in order. *)
Definition timeline (w : World) : list (ExecutionStatus.t + Z) :=
  omap (fun ev => match ev with
                  | EvCommit row => Some (inl (TestExecution.status row))
                  | EvRunner t => Some (inr t)
                  | _ => None
                  end) (trace w).


(** Execution 1 run while the unit of work of the second test case raises
    and Redis refuses the progress snapshot that follows it. *)
Definition interrupted_after_error : Outcome Json * World :=
  Eval vm_compute in
  _execute_test_suite_async (redis_down_at (AtProgress 1) second_raises) 1 "job-1"
    sample_world.

(** Execution 1 run a second time after it completed. *)
Definition second_run : World :=
  Eval vm_compute in
  snd (_execute_test_suite_async (calm all_pass) 1 "job-2" completed_world).

(** A cancellation task is scheduled on another worker between the first
    and the second test case. *)
Definition cancel_before_second : Env :=
  mkEnv all_pass (fun _ => None) None (fun idx => bool_decide (idx = 1%nat)).

Definition cancelled_mid_run : World :=
  Eval vm_compute in
  snd (_execute_test_suite_async cancel_before_second 1 "job-1" sample_world).

(** Execution 1 cancelled while still queued, and the queued job then
    picked up by a worker. *)
Definition cancelled_while_queued : World :=
  Eval vm_compute in snd (_cancel_execution_async (calm all_pass) 1 sample_world).

Definition run_after_cancel : World :=
  Eval vm_compute in
  snd (_execute_test_suite_async (calm all_pass) 1 "job-1" cancelled_while_queued).

Definition empty_run : Outcome Json * World :=
  Eval vm_compute in _execute_test_suite_async (calm all_pass) 2 "job-1" idle_world.

(** The snapshot written on entry. *)
Definition running_snapshot (now : Z) : Json :=
  JDict [("status", JStr (ExecutionStatus.value ExecutionStatus.RUNNING));
         ("started_at", JTime now);
         ("progress", JInt 0)].

(** The world once the entry point has committed RUNNING. *)
Definition entered (e : TestExecution.t) (task_id : string) (w : World) : World :=
  snd (commit (mkSession (running_row e task_id (clock w)) []) (snd (utcnow w))).

(** ** The operations around the engine

    The retention sweep of [app/tasks/execution_tasks.py] and the routes of
    [app/api/v1/executions.py] that create, list and poll executions, with
    [get_pagination_params] of [app/api/deps.py] and [PaginationParams] of
    [app/schemas/common.py].  The column [created_at] of [test_executions],
    which the engine never reads, is written once when a row is inserted; it
    is given as a function [created_at] of the primary key. *)

(** [RedisCache.get_json]: the value stored under [key], if any; raises
    when Redis is not reachable. *)
Definition get_json (unreachable : option string) (key : string) (w : World)
    : Outcome (option Json) :=
  match unreachable with
  | Some msg => Raised msg
  | None => Returned (cache w !! key)
  end.

(** [timedelta(days=90)], in seconds. *)
Definition retention_window : Z := 90 * 86400.

(** The [where] clause of the retention sweep. *)
Definition old_and_finished (created_at : Z -> Z) (cutoff_date : Z)
    (e : TestExecution.t) : Prop :=
  created_at (TestExecution.id e) < cutoff_date
  ∧ TestExecution.status e ∈ [ExecutionStatus.COMPLETED; ExecutionStatus.FAILED;
                               ExecutionStatus.CANCELLED].

#[global] Instance old_and_finished_dec created_at cutoff_date e :
  Decision (old_and_finished created_at cutoff_date e).
Proof. unfold old_and_finished. apply _. Defined.

(** [_cleanup_old_results_async]: the selected rows are deleted, and with
    each of them its result rows ([cascade="all, delete-orphan"]). *)
Definition _cleanup_old_results_async (created_at : Z -> Z) (w : World) : Json * World :=
  let '(now, w) := utcnow w in
  let cutoff_date := now - retention_window in
  let old_executions :=
    filter (fun kv => old_and_finished created_at cutoff_date kv.2) (executions (db w)) in
  let deleted := (fun kv => TestExecution.id kv.2) <$> map_to_list old_executions in
  let st :=
    mkStore (filter (fun kv => ¬ old_and_finished created_at cutoff_date kv.2)
                    (executions (db w)))
            (filter (fun r => TestCaseResult.execution_id r ∉ deleted) (results (db w)))
            (test_cases (db w)) (suite_test_cases (db w)) in
  (JDict [("cleaned", JInt (Z.of_nat (size old_executions)))], with_db st w).

(** The Celery task [cleanup_old_results]. *)
Definition cleanup_old_results (created_at : Z -> Z) (w : World) : Json * World :=
  _cleanup_old_results_async created_at w.

(** What a route answers: a response, an [HTTPException], or an exception
    that is not handled by the route. *)
Inductive Response (A : Type) :=
| Ok (a : A)
| HTTPException (status_code : Z) (detail : string)
| Unhandled (msg : string).
Arguments Ok {A} a.
Arguments HTTPException {A} status_code detail.
Arguments Unhandled {A} msg.

Module PaginationParams.

Record t := mk { page : Z; size : Z }.

(** [PaginationParams.offset] (property). *)
Definition offset (self : t) : Z := (page self - 1) * size self.

End PaginationParams.

(** [get_pagination_params] *)
Definition get_pagination_params (page size : Z) : PaginationParams.t :=
  let page := if page <? 1 then 1 else page in
  let size := if size <? 1 then 20 else size in
  let size := if 100 <? size then 100 else size in
  PaginationParams.mk page size.

Module ExecutionCreate.

(** The fields of the request that end in columns of the model here. *)
Record t := mk {
  project_id : Z;
  test_suite_id : option Z;
  environment : option string
}.

End ExecutionCreate.

(** [create_execution].  [new_id] is the primary key the database assigns
    on flush and [task_id] the id of the job that
    [execute_test_suite.delay] enqueues; the job itself runs later, as
    [execute_test_suite]. *)
Definition create_execution (new_id : Z) (task_id : string)
    (execution_data : ExecutionCreate.t) (w : World) : TestExecution.t * World :=
  let row :=
    TestExecution.mk new_id (ExecutionCreate.project_id execution_data)
      (ExecutionCreate.test_suite_id execution_data) ExecutionStatus.QUEUED
      (ExecutionCreate.environment execution_data) None None None
      0 0 0 0 0 0 None None in
  let s := mkSession row [] in
  let s := update (TestExecution.with_celery_task_id (Some task_id)) s in
  let '(s, w) := commit s w in
  (execution s, w).

Module ExecutionProgress.

Record t := mk {
  execution_id : Z;
  status : ExecutionStatus.t;
  total_tests : Z;
  completed_tests : Z;
  passed_tests : Z;
  failed_tests : Z;
  progress_percent : Q;
  elapsed_seconds : Z
}.

End ExecutionProgress.

(** [get_execution_progress].  The snapshot is fetched from the cache and
    then not used: the answer is computed from the row. *)
Definition get_execution_progress (unreachable : option string) (execution_id : Z)
    (w : World) : Response ExecutionProgress.t * World :=
  match get_json unreachable (CacheKeys.execution_status (str execution_id)) w with
  | Raised msg => (Unhandled msg, w)
  | Returned cache_data =>
      match executions (db w) !! execution_id with
      | None => (HTTPException 404 "Execution not found", w)
      | Some execution =>
          let completed :=
            TestExecution.passed_tests execution + TestExecution.failed_tests execution
            + TestExecution.skipped_tests execution in
          let progress_percent :=
            if 0 <? TestExecution.total_tests execution
            then ((inject_Z completed / inject_Z (TestExecution.total_tests execution)) * 100)%Q
            else 0%Q in
          let '(elapsed, w) :=
            match TestExecution.started_at execution with
            | Some started_at =>
                match TestExecution.completed_at execution with
                | Some completed_at => (completed_at - started_at, w)
                | None => let '(now, w) := utcnow w in (now - started_at, w)
                end
            | None => (0, w)
            end in
          (Ok (ExecutionProgress.mk (TestExecution.id execution)
                 (TestExecution.status execution) (TestExecution.total_tests execution)
                 completed (TestExecution.passed_tests execution)
                 (TestExecution.failed_tests execution) progress_percent elapsed), w)
      end
  end.

Module ExecutionList.

Record t := mk {
  items : list TestExecution.t;
  total : Z;
  page : Z;
  size : Z;
  pages : Z
}.

End ExecutionList.

(** [order_by(TestExecution.created_at.desc())] *)
Definition newer_first (created_at : Z -> Z) (e1 e2 : TestExecution.t) : Prop :=
  created_at (TestExecution.id e2) <= created_at (TestExecution.id e1).

#[global] Instance newer_first_dec created_at e1 e2 :
  Decision (newer_first created_at e1 e2).
Proof. unfold newer_first. apply _. Defined.

(** The filters of [list_executions]; [if project_id:] is Python
    truthiness. *)
Definition listed (project_id : option Z) (status_filter : option ExecutionStatus.t)
    (e : TestExecution.t) : Prop :=
  match project_id with
  | Some p => p = 0 ∨ TestExecution.project_id e = p
  | None => True
  end
  ∧ match status_filter with
    | Some st => TestExecution.status e = st
    | None => True
    end.

#[global] Instance listed_dec project_id status_filter e :
  Decision (listed project_id status_filter e).
Proof. unfold listed. destruct project_id, status_filter; apply _. Defined.

(** [list_executions] *)
Definition list_executions (created_at : Z -> Z) (pagination : PaginationParams.t)
    (project_id : option Z) (status_filter : option ExecutionStatus.t)
    (w : World) : ExecutionList.t :=
  let matching :=
    filter (listed project_id status_filter) (snd <$> map_to_list (executions (db w))) in
  let total := Z.of_nat (length matching) in
  let ordered := merge_sort (newer_first created_at) matching in
  let executions :=
    take (Z.to_nat (PaginationParams.size pagination))
         (drop (Z.to_nat (PaginationParams.offset pagination)) ordered) in
  ExecutionList.mk executions total (PaginationParams.page pagination)
    (PaginationParams.size pagination)
    ((total + PaginationParams.size pagination - 1) `div` PaginationParams.size pagination).

(** ** Vocabulary and sample data for the further properties *)


#[global] Instance TestCase_eq_dec : EqDecision TestCase.t.
Proof. solve_decision. Defined.

(** Sample data: suite 5 holds test cases 30 (a draft, also in suite 6) and
    31; execution 3 targets suite 5. *)
Definition suite_execution : TestExecution.t :=
  TestExecution.mk 3 9 (Some 5) ExecutionStatus.QUEUED None None None None 0 0 0 0 0 0 None None.

Definition suite_world : World :=
  mkWorld (mkStore {[3 := suite_execution]} []
             [TestCase.mk 30 9 TestCaseStatus.DRAFT; TestCase.mk 31 9 TestCaseStatus.ACTIVE;
              TestCase.mk 32 9 TestCaseStatus.ACTIVE]
             [(5, 30); (6, 30); (5, 31); (6, 32)])
          ∅ [] 100 [].

(** Rows are stored under their primary key, and every result row refers
    to an execution of the store. *)
Definition store_keyed (st : Store) : Prop :=
  ∀ k e, executions st !! k = Some e → TestExecution.id e = k.

Definition results_attached (st : Store) : Prop :=
  ∀ r, r ∈ results st → is_Some (executions st !! TestCaseResult.execution_id r).

(** What a task that works for [execution_id] leaves alone between [w] and
    [w']: the other execution rows, the test cases and suites, the other
    cache entries; and the clock does not go back. *)
Definition elsewhere_untouched (execution_id : Z) (w w' : World) : Prop :=
  (∀ k, k ≠ execution_id → executions (db w') !! k = executions (db w) !! k)
  ∧ test_cases (db w') = test_cases (db w)
  ∧ suite_test_cases (db w') = suite_test_cases (db w)
  ∧ (∀ key, key ≠ CacheKeys.execution_status (str execution_id) →
       cache w' !! key = cache w !! key)
  ∧ clock w <= clock w'.

Definition row_in_place (execution_id : Z) (w : World) : Prop :=
  ∃ e, executions (db w) !! execution_id = Some e ∧ TestExecution.id e = execution_id.

(** The columns of an execution row that no task changes. *)
Definition same_identity (e e' : TestExecution.t) : Prop :=
  TestExecution.id e' = TestExecution.id e
  ∧ TestExecution.project_id e' = TestExecution.project_id e
  ∧ TestExecution.test_suite_id e' = TestExecution.test_suite_id e
  ∧ TestExecution.environment e' = TestExecution.environment e.

(** What every result row written by the engine looks like. *)
Definition row_shape (execution_id : Z) (environment : option string)
    (r : TestCaseResult.t) : Prop :=
  TestCaseResult.execution_id r = execution_id
  ∧ TestCaseResult.environment r = environment
  ∧ TestCaseResult.status r ∈ [TestResultStatus.PASSED; TestResultStatus.FAILED;
                               TestResultStatus.ERROR]
  ∧ (TestCaseResult.status r = TestResultStatus.PASSED
     ↔ TestCaseResult.error_message r = None)
  ∧ (TestCaseResult.status r = TestResultStatus.ERROR
     ↔ TestCaseResult.actual_result r = None)
  ∧ ∃ t0 t1, TestCaseResult.started_at r = Some t0
             ∧ TestCaseResult.completed_at r = Some t1
             ∧ TestCaseResult.duration_seconds r = Some (t1 - t0)
             ∧ t0 <= t1.

(** The report a run returns for a non-empty target set, and the snapshot
    it leaves in the cache, as functions of the execution row. *)
Definition completion_report (e : TestExecution.t) : Json :=
  JDict [("success", JBool true);
         ("execution_id", JInt (TestExecution.id e));
         ("total_tests", JInt (TestExecution.total_tests e));
         ("passed", JInt (TestExecution.passed_tests e));
         ("failed", JInt (TestExecution.failed_tests e));
         ("duration", json_opt_int (TestExecution.duration_seconds e))].

Definition completed_snapshot (e : TestExecution.t) : Json :=
  JDict [("status", JStr (ExecutionStatus.value ExecutionStatus.COMPLETED));
         ("completed_at", match TestExecution.completed_at e with
                          | Some t => JTime t
                          | None => JNull
                          end);
         ("duration", json_opt_int (TestExecution.duration_seconds e));
         ("pass_rate", JNum (TestExecution.pass_rate e))].

(** Sample data for the retention sweep, at a time a little more than 92
    days after executions 1 and 2 were created: execution 1 is old and
    COMPLETED, execution 2 is as old and still RUNNING, execution 3 has
    just FAILED. *)
Definition sweep_created_at (k : Z) : Z := if k =? 3 then 8000000 else 0.

Definition sweep_world : World :=
  mkWorld
    (mkStore
       (<[1 := TestExecution.mk 1 7 None ExecutionStatus.COMPLETED None (Some 10) (Some 20)
                 (Some 10) 1 1 0 0 0 0 None (Some "job-1")]>
          (<[2 := TestExecution.mk 2 7 None ExecutionStatus.RUNNING None (Some 30) None None
                    2 0 0 0 0 0 None (Some "job-2")]>
             {[3 := TestExecution.mk 3 7 None ExecutionStatus.FAILED None (Some 8000000)
                      (Some 8000001) None 1 0 0 0 0 0 (Some "redis unreachable")
                      (Some "job-3")]}))
       [TestCaseResult.mk 1 10 TestResultStatus.PASSED (Some 11) (Some 12) (Some 1)
          (Some "All assertions passed") None None;
        TestCaseResult.mk 2 10 TestResultStatus.PASSED (Some 31) (Some 32) (Some 1)
          (Some "All assertions passed") None None;
        TestCaseResult.mk 3 11 TestResultStatus.PASSED (Some 8000000) (Some 8000001) (Some 1)
          (Some "All assertions passed") None None]
       sample_cases [])
    ∅ [] 8000002 [].

(** Execution 1 after a run in which the second test raised. *)
Definition errored_world : World :=
  Eval vm_compute in
  snd (_execute_test_suite_async (calm second_raises) 1 "job-1" sample_world).

Definition errored_execution : TestExecution.t :=
  Eval vm_compute in default queued_execution (executions (db errored_world) !! 1).

(** A request for a run of project 7 on staging. *)
Definition sample_request : ExecutionCreate.t :=
  ExecutionCreate.mk 7 None (Some "staging").

(** * Properties

    ** The pass rate *)

Section PassRate.
Import TestExecution.
Local Open Scope Q_scope.

Lemma round_half_even_cases (x : Q) :
  (round_half_even x = Qfloor x ∧ x - inject_Z (Qfloor x) <= 1 # 2)
  ∨ (round_half_even x = (Qfloor x + 1)%Z ∧ 1 # 2 <= x - inject_Z (Qfloor x)).
Proof.
  unfold round_half_even.
  destruct (x - inject_Z (Qfloor x) ?= 1 # 2) eqn:Hc.
  - apply Qeq_alt in Hc. destruct (Z.even (Qfloor x)); [left | right]; split; trivial; rewrite Hc; lra.
  - apply Qlt_alt in Hc. left; split; trivial. lra.
  - apply Qgt_alt in Hc. right; split; trivial. lra.
Qed.

Lemma round_half_even_nearest (x : Q) :
  Qabs (inject_Z (round_half_even x) - x) <= 1 # 2.
Proof.
  pose proof (Qfloor_le x) as Hlo. pose proof (Qlt_floor x) as Hhi.
  rewrite inject_Z_plus in Hhi. change (inject_Z 1) with 1 in Hhi.
  apply Qabs_case; intros _;
  destruct (round_half_even_cases x) as [[-> H] | [-> H]];
    rewrite ?inject_Z_plus; change (inject_Z 1) with 1; lra.
Qed.

Lemma round_half_even_between (a b : Z) (x : Q) :
  inject_Z a <= x -> x <= inject_Z b ->
  (a <= round_half_even x <= b)%Z.
Proof.
  intros Ha Hb.
  pose proof (Qfloor_le x) as Hlo.
  assert (a <= Qfloor x)%Z as Haf.
  { rewrite <- (Qfloor_Z a). by apply Qfloor_resp_le. }
  assert (Qfloor x <= b)%Z as Hfb.
  { rewrite Zle_Qle. lra. }
  destruct (round_half_even_cases x) as [[-> H] | [-> H]]; [lia |].
  split; [lia |].
  destruct (decide (Qfloor x = b)) as [E | NE]; [| lia].
  rewrite E in H. lra.
Qed.


Lemma round2_nearest (x : Q) : Qabs (round2 x - x) <= 1 # 200.
Proof.
  pose proof (round_half_even_nearest (x * 100)) as H.
  unfold round2. rewrite (Qmake_Qdiv _ 100).
  change (inject_Z (Z.pos 100)) with 100.
  revert H. set (r := inject_Z (round_half_even (x * 100))).
  intros H. apply Qabs_Qle_condition in H as [H1 H2].
  apply Qabs_Qle_condition. unfold Qdiv. change (/ 100) with (1 # 100).
  split; lra.
Qed.

Lemma round2_hundredth (x : Q) : exists k : Z, round2 x = k # 100.
Proof. by eexists. Qed.

Lemma round2_between (x : Q) : 0 <= x -> x <= 100 -> 0 <= round2 x /\ round2 x <= 100.
Proof.
  intros H0 H1.
  destruct (round_half_even_between 0 10000 (x * 100)) as [Ha Hb].
  { change (inject_Z 0) with 0. lra. }
  { change (inject_Z 10000) with 10000. lra. }
  unfold round2. rewrite (Qmake_Qdiv _ 100).
  change (inject_Z (Z.pos 100)) with 100.
  rewrite Zle_Qle in Ha, Hb.
  change (inject_Z 0) with 0 in Ha. change (inject_Z 10000) with 10000 in Hb.
  unfold Qdiv. change (/ 100) with (1 # 100).
  split; lra.
Qed.

Lemma ratio_between (p f : Z) :
  (0 <= p)%Z -> (0 <= f)%Z -> (p + f <> 0)%Z ->
  0 <= inject_Z p / inject_Z (p + f) * 100 /\ inject_Z p / inject_Z (p + f) * 100 <= 100.
Proof.
  intros Hp Hf Hne.
  assert (0 < inject_Z (p + f)) as Hpos.
  { change 0 with (inject_Z 0). rewrite <- Zlt_Qlt. lia. }
  assert (0 <= inject_Z p) as Hp'.
  { change 0 with (inject_Z 0). rewrite <- Zle_Qle. lia. }
  assert (inject_Z p <= inject_Z (p + f)) as Hle.
  { rewrite <- Zle_Qle. lia. }
  assert (0 <= inject_Z p / inject_Z (p + f)) as H0.
  { apply Qle_shift_div_l; [done | lra]. }
  assert (inject_Z p / inject_Z (p + f) <= 1) as H1.
  { apply Qle_shift_div_r; [done | lra]. }
  split; lra.
Qed.

(** Binary64: the error of one rounding, and the bounds it respects. *)

Lemma pow2_pos (z : Z) : 0 < 2 ^ z.
Proof. by apply Qpower_0_lt. Qed.

Lemma pow2_plus (a b : Z) : 2 ^ (a + b) == 2 ^ a * 2 ^ b.
Proof. by apply Qpower_plus. Qed.

Lemma pow2_Z (z : Z) : (0 <= z)%Z → 2 ^ z == inject_Z (2 ^ z).
Proof. intros Hz. symmetry. by apply (Zpower_Qpower 2). Qed.

Lemma to_double_proper (x y : Q) : x == y → to_double x = to_double y.
Proof. intros H. unfold to_double. by rewrite (Qred_complete _ _ H). Qed.

(** [2 ^ binade x] is at most [x], for positive [x]. *)
Lemma binade_le (x : Q) : 0 < x → 2 ^ binade x <= x.
Proof.
  intros Hx. unfold binade.
  rewrite (Qabs_pos x) by lra.
  destruct (Qle_bool _ x) eqn:Hb; [by apply Qle_bool_iff |]. clear Hb.
  destruct x as [n d]. simpl Qnum. simpl Qden.
  assert (0 < n)%Z as Hn by (unfold Qlt in Hx; simpl in Hx; lia).
  rewrite Z.abs_eq by lia.
  pose proof (Z.log2_spec n Hn) as [Ha _].
  pose proof (Z.log2_spec (Z.pos d) ltac:(lia)) as [_ Hc].
  pose proof (Z.log2_nonneg n) as Ha0.
  pose proof (Z.log2_nonneg (Z.pos d)) as Hc0.
  set (a := Z.log2 n) in *. set (c := Z.log2 (Z.pos d)) in *.
  replace (a - c - 1)%Z with (a - (c + 1))%Z by lia.
  rewrite Qpower_minus by done.
  rewrite !pow2_Z by lia.
  rewrite (Qmake_Qdiv n d).
  assert (0 < inject_Z (2 ^ (c + 1))) as Hpc.
  { change 0 with (inject_Z 0). rewrite <- Zlt_Qlt. lia. }
  assert (0 < inject_Z (Z.pos d)) as Hpd.
  { change 0 with (inject_Z 0). rewrite <- Zlt_Qlt. lia. }
  apply Qle_shift_div_l; [done |].
  unfold Qdiv. rewrite <- Qmult_assoc, (Qmult_comm (/ _)), Qmult_assoc.
  apply Qle_shift_div_r; [done |].
  rewrite <- !inject_Z_mult, <- Zle_Qle. nia.
Qed.

Lemma binade_red_le (x : Q) : 0 < x → 2 ^ binade (Qred x) <= x.
Proof.
  intros Hx. apply Qle_trans with (Qred x).
  - apply binade_le. by rewrite Qred_correct.
  - rewrite Qred_correct. apply Qle_refl.
Qed.

Lemma to_double_zero (x : Q) : x == 0 → to_double x = 0.
Proof. intros H. by rewrite (to_double_proper _ _ H). Qed.

Lemma to_double_unfold (x : Q) :
  let e := Z.max (binade (Qred x)) (-1022) in
  to_double x == inject_Z (round_half_even (Qred x * 2 ^ (52 - e))) * 2 ^ (e - 52)
  ∧ Qred x * 2 ^ (52 - e) * 2 ^ (e - 52) == x.
Proof.
  intros e. split; [unfold to_double; apply Qred_correct |].
  rewrite <- Qmult_assoc, <- pow2_plus.
  replace (52 - e + (e - 52))%Z with 0%Z by lia.
  rewrite Qred_correct. change (2 ^ 0) with 1. ring.
Qed.

(** The rounding error of one operation: half a unit in the last place,
    which is at most [x * 2^-53] for a normal number and [2^-1075] below. *)
Lemma to_double_error (x : Q) :
  0 <= x →
  Qabs (to_double x - x) <= x * (1 # 9007199254740992) + (1 # 1267650600228229401496703205376).
Proof.
  intros Hx.
  destruct (Qeq_dec x 0) as [E | NE].
  { rewrite (to_double_zero x E), E. vm_compute. discriminate. }
  assert (0 < x) as Hpos by lra.
  destruct (to_double_unfold x) as [Heq Hback].
  set (e := Z.max (binade (Qred x)) (-1022)) in *.
  set (s := Qred x * 2 ^ (52 - e)) in *.
  pose proof (round_half_even_nearest s) as Hm.
  pose proof (pow2_pos (e - 52)) as Hp.
  assert (to_double x - x == (inject_Z (round_half_even s) - s) * 2 ^ (e - 52)) as ->.
  { rewrite Heq. clearbody s e. rewrite <- Hback. ring. }
  rewrite Qabs_Qmult, (Qabs_pos (2 ^ (e - 52))) by lra.
  assert (2 ^ (e - 52) * (1 # 2)
          <= x * (1 # 9007199254740992) + (1 # 1267650600228229401496703205376)) as Hulp.
  { destruct (Z.max_spec (binade (Qred x)) (-1022)) as [[Hlt He] | [Hge He]];
      fold e in He; rewrite He.
    - assert (2 ^ (-1022 - 52) * (1 # 2) <= (1 # 1267650600228229401496703205376)) as H
        by (vm_compute; discriminate).
      nra.
    - replace (binade (Qred x) - 52)%Z with (binade (Qred x) + (- 52))%Z by lia.
      rewrite pow2_plus.
      pose proof (binade_red_le x Hpos) as Hb.
      change (2 ^ (-52)) with (1 # 4503599627370496).
      nra. }
  revert Hm. set (d := Qabs _). intros Hm.
  assert (0 <= d) as Hd by apply Qabs_nonneg.
  nra.
Qed.

Lemma to_double_nonneg (x : Q) : 0 <= x → 0 <= to_double x.
Proof.
  intros Hx. destruct (to_double_unfold x) as [Heq _]. rewrite Heq.
  set (e := Z.max (binade (Qred x)) (-1022)) in *.
  pose proof (pow2_pos (e - 52)) as Hp. pose proof (pow2_pos (52 - e)) as Hp'.
  assert (0 <= Qred x * 2 ^ (52 - e)) as Hs.
  { rewrite Qred_correct. nra. }
  destruct (round_half_even_between 0 (Qceiling (Qred x * 2 ^ (52 - e))) _ Hs
              (Qle_ceiling _)) as [Hm _].
  rewrite Zle_Qle in Hm. change (inject_Z 0) with 0 in Hm. nra.
Qed.

(** Rounding does not cross an integer below [2^52]. *)
Lemma to_double_le_Z (x : Q) (n : Z) :
  0 <= x → x <= inject_Z n → (n < 2 ^ 52)%Z → to_double x <= inject_Z n.
Proof.
  intros Hx Hn Hsmall.
  destruct (Qeq_dec x 0) as [E | NE].
  { rewrite (to_double_zero x E). lra. }
  assert (0 < x) as Hpos by lra.
  destruct (to_double_unfold x) as [Heq Hback]. rewrite Heq.
  set (e := Z.max (binade (Qred x)) (-1022)) in *.
  pose proof (binade_red_le x Hpos) as Hb.
  assert (binade (Qred x) < 52)%Z as Hlt.
  { apply (Qpower_lt_compat_l_inv 2); [| done].
    rewrite (pow2_Z 52) by lia.
    apply Qle_lt_trans with x; [done |]. apply Qle_lt_trans with (inject_Z n); [done |].
    by rewrite <- Zlt_Qlt. }
  assert (0 <= 52 - e)%Z as He by lia.
  pose proof (pow2_pos (e - 52)) as Hp. pose proof (pow2_pos (52 - e)) as Hp'.
  assert (0 <= Qred x * 2 ^ (52 - e)) as Hs0.
  { rewrite Qred_correct. nra. }
  assert (Qred x * 2 ^ (52 - e) <= inject_Z (n * 2 ^ (52 - e))) as Hs1.
  { rewrite inject_Z_mult, <- pow2_Z, Qred_correct by done. nra. }
  destruct (round_half_even_between 0 _ _ Hs0 Hs1) as [_ Hm].
  rewrite Zle_Qle, inject_Z_mult, <- pow2_Z in Hm by done.
  assert (inject_Z n == inject_Z n * 2 ^ (52 - e) * 2 ^ (e - 52)) as ->.
  { rewrite <- Qmult_assoc, <- pow2_plus.
    replace (52 - e + (e - 52))%Z with 0%Z by lia. change (2 ^ 0) with 1. ring. }
  nra.
Qed.

Lemma ratio_unit (p f : Z) :
  (0 <= p)%Z → (0 <= f)%Z → (p + f <> 0)%Z →
  0 <= inject_Z p / inject_Z (p + f) ∧ inject_Z p / inject_Z (p + f) <= 1.
Proof.
  intros Hp Hf Hne.
  assert (0 < inject_Z (p + f)) as Hpos.
  { change 0 with (inject_Z 0). rewrite <- Zlt_Qlt. lia. }
  assert (0 <= inject_Z p) as Hp'.
  { change 0 with (inject_Z 0). rewrite <- Zle_Qle. lia. }
  assert (inject_Z p <= inject_Z (p + f)) as Hle.
  { rewrite <- Zle_Qle. lia. }
  split; [apply Qle_shift_div_l | apply Qle_shift_div_r]; try done; lra.
Qed.

(** The percentage as the code computes it: the quotient rounded to a
    double, then the product with 100 rounded to a double. *)
Lemma percent_double (p f : Z) :
  (0 <= p)%Z → (0 <= f)%Z → (p + f <> 0)%Z →
  let y := inject_Z p / inject_Z (p + f) in
  let x := to_double (to_double y * 100) in
  0 <= x ∧ x <= 100
  ∧ Qabs (x * 100 - y * 10000) <= 1 # 400000000000.
Proof.
  intros Hp Hf Hne y x.
  destruct (ratio_unit p f Hp Hf Hne) as [Hy0 Hy1]. fold y in Hy0, Hy1.
  pose proof (to_double_nonneg y Hy0) as Hq0.
  pose proof (to_double_le_Z y 1 Hy0 Hy1 ltac:(done)) as Hq1.
  change (inject_Z 1) with 1 in Hq1.
  pose proof (to_double_error y Hy0) as Hqe.
  set (q := to_double y) in *.
  assert (0 <= q * 100) as Hx0 by lra.
  assert (q * 100 <= inject_Z 100) as Hx1 by (change (inject_Z 100) with 100; lra).
  pose proof (to_double_nonneg _ Hx0) as Hr0.
  pose proof (to_double_le_Z _ 100 Hx0 Hx1 ltac:(done)) as Hr1.
  change (inject_Z 100) with 100 in Hr1.
  pose proof (to_double_error _ Hx0) as Hre.
  fold x in Hr0, Hr1, Hre.
  split; [done |]. split; [done |].
  apply Qabs_Qle_condition in Hqe as [Hqe1 Hqe2].
  apply Qabs_Qle_condition in Hre as [Hre1 Hre2].
  apply Qabs_Qle_condition. split; lra.
Qed.

(** Two decimals of a percentage of 32-bit counters: the noise of the two
    roundings is too small to move the result away from a nearest
    hundredth of the exact percentage. *)
Lemma nearest_hundredth (p E k : Z) :
  (0 < E < 2 ^ 32)%Z →
  Qabs (inject_Z k - inject_Z p / inject_Z E * 10000) <= (1 # 2) + (1 # 400000000000) →
  Qabs (inject_Z k - inject_Z p / inject_Z E * 10000) <= 1 # 2.
Proof.
  intros [HE0 HE1] H.
  assert (0 < inject_Z E) as Hpos.
  { change 0 with (inject_Z 0). by rewrite <- Zlt_Qlt. }
  assert (inject_Z E < inject_Z (2 ^ 32)) as Hbig by (by rewrite <- Zlt_Qlt).
  change (inject_Z (2 ^ 32)) with 4294967296 in Hbig.
  assert (inject_Z p / inject_Z E * inject_Z E == inject_Z p) as Hy.
  { field. lra. }
  revert H Hy. set (y := inject_Z p / inject_Z E). intros H Hy.
  apply Qabs_Qle_condition in H as [H1 H2].
  assert (20000 * p <= 2 * k * E + E ∧ 2 * k * E <= 20000 * p + E)%Z as [HZ1 HZ2].
  { split; apply Z.lt_succ_r; rewrite Zlt_Qlt; unfold Z.succ;
      rewrite !inject_Z_plus, !inject_Z_mult;
      change (inject_Z 2) with 2; change (inject_Z 20000) with 20000;
      change (inject_Z 1) with 1; nra. }
  rewrite Zle_Qle in HZ1, HZ2.
  rewrite !inject_Z_plus, !inject_Z_mult in HZ1, HZ2.
  change (inject_Z 2) with 2 in HZ1, HZ2. change (inject_Z 20000) with 20000 in HZ1, HZ2.
  apply Qabs_Qle_condition. split; nra.
Qed.

(** The values a double computation gives and the exact one does not:
    23 of 160 is 14.375 exactly, the double product is just below it. *)
Example pass_rate_of_doubles :
  pass_rate (with_counts 23 137 0 0 0 queued_execution) = 14.37
  ∧ pass_rate (with_counts 49 111 0 0 0 queued_execution) = 30.63
  ∧ pass_rate (with_counts 2 1 0 0 0 queued_execution) = 66.67.
Proof. vm_compute. by repeat split. Qed.

(** C8.  For an execution row with non-negative counters, [pass_rate] is
    [passed / (passed + failed) * 100] rounded to two decimal places, as
    doubles compute it: it is a whole number of hundredths; it is within
    half a hundredth of the exact percentage when the denominator fits the
    32 bits of the counter columns, so it is one of the hundredths nearest
    to it (for counters of any size the two roundings to a double add at
    most [2.5e-14]).  It is exactly 0 when [passed + failed = 0], it lies
    between 0 and 100, and it is 66.67 for 2 passed and 1 failed. *)
Theorem pass_rate_rounded_ratio (e : TestExecution.t) :
  counters_nonneg e ->
  let executed := (passed_tests e + failed_tests e)%Z in
  (exists k : Z, pass_rate e == k # 100)
  /\ (executed <> 0%Z -> (executed < 2 ^ 32)%Z ->
      Qabs (pass_rate e - inject_Z (passed_tests e) / inject_Z executed * 100) <= 1 # 200)
  /\ (executed <> 0%Z ->
      Qabs (pass_rate e - inject_Z (passed_tests e) / inject_Z executed * 100)
      <= (1 # 200) + (1 # 40000000000000))
  /\ (executed = 0%Z -> pass_rate e = 0)
  /\ (0 <= pass_rate e /\ pass_rate e <= 100)
  /\ (passed_tests e = 2%Z -> failed_tests e = 1%Z -> pass_rate e == 66.67).
Proof.
  intros (_ & Hp & Hf & _) executed. unfold pass_rate. fold executed.
  destruct (Z.eqb_spec executed 0) as [E | NE].
  - repeat split; try done; try lra.
    + by exists 0%Z.
    + intros H1 H2. unfold executed in E. lia.
  - destruct (percent_double _ _ Hp Hf NE) as (H0 & H1 & Herr).
    fold executed in H0, H1, Herr.
    set (y := inject_Z (passed_tests e) / inject_Z executed) in *.
    set (x := to_double (to_double y * 100)) in *.
    pose proof (round_half_even_nearest (x * 100)) as Hk.
    assert (Qabs (inject_Z (round_half_even (x * 100)) - y * 10000)
            <= (1 # 2) + (1 # 400000000000)) as Hnear.
    { apply Qabs_Qle_condition in Hk as [Hk1 Hk2].
      apply Qabs_Qle_condition in Herr as [He1 He2].
      apply Qabs_Qle_condition. split; lra. }
    assert (∀ b, Qabs (inject_Z (round_half_even (x * 100)) - y * 10000) <= b * 100 →
                 Qabs (round2 x - y * 100) <= b) as Hscale.
    { intros b Hb. unfold round2. rewrite (Qmake_Qdiv _ 100).
      change (inject_Z (Z.pos 100)) with 100.
      apply Qabs_Qle_condition in Hb as [Hb1 Hb2].
      apply Qabs_Qle_condition. unfold Qdiv. change (/ 100) with (1 # 100).
      split; lra. }
    split; [by eexists |].
    split.
    { intros _ Hsmall. apply Hscale.
      eapply Qle_trans; [apply nearest_hundredth; [lia | exact Hnear] | lra]. }
    split.
    { intros _. apply Hscale. eapply Qle_trans; [exact Hnear | lra]. }
    split; [done |].
    split; [by apply round2_between |].
    intros H2 H3. subst y x. unfold executed. rewrite H2, H3. vm_compute. reflexivity.
Qed.

Lemma pass_rate_rounded_ratio_witness :
  counters_nonneg (with_counts 2 1 0 0 0 (with_total_tests 3 queued_execution))
  /\ pass_rate (with_counts 2 1 0 0 0 (with_total_tests 3 queued_execution)) == 66.67.
Proof.
  split.
  - unfold counters_nonneg. simpl. lia.
  - apply (pass_rate_rounded_ratio (with_counts 2 1 0 0 0 (with_total_tests 3 queued_execution))).
    + unfold counters_nonneg. simpl. lia.
    + reflexivity.
    + reflexivity.
Defined.

End PassRate.

(** ** Frames: what each operation leaves alone *)

Section Frames.

#[local] Arguments count_status : simpl never.
#[local] Arguments rows_for : simpl never.
#[local] Arguments completed_row : simpl never.
#[local] Arguments log_document : simpl never.
#[local] Arguments TestExecution.pass_rate : simpl never.
#[local] Arguments CacheKeys.execution_status : simpl never.
#[local] Arguments str : simpl never.


Implicit Types (env : Env) (w : World) (s : Session) (e : TestExecution.t).

Lemma runner_calls_emit w ev :
  runner_calls (emit ev w)
  = runner_calls w ++ match ev with EvRunner t => [t] | _ => [] end.
Proof.
  unfold runner_calls, emit. simpl. rewrite omap_app. simpl.
  destruct ev; simpl; by rewrite ?app_nil_r.
Qed.

Lemma commits_emit w ev :
  commits (emit ev w)
  = commits w ++ match ev with EvCommit row => [row] | _ => [] end.
Proof.
  unfold commits, emit. simpl. rewrite omap_app. simpl.
  destruct ev; simpl; by rewrite ?app_nil_r.
Qed.

(** The cancellation task never touches result rows, test cases, the log
    store or the runner. *)
Lemma cancel_frame env execution_id w :
  let w' := snd (_cancel_execution_async env execution_id w) in
  results (db w') = results (db w)
  ∧ test_cases (db w') = test_cases (db w)
  ∧ suite_test_cases (db w') = suite_test_cases (db w)
  ∧ execution_logs w' = execution_logs w
  ∧ runner_calls w' = runner_calls w
  ∧ trace w `prefix_of` trace w'.
Proof.
  unfold _cancel_execution_async.
  destruct (executions (db w) !! execution_id) as [e |]; [| by simpl].
  destruct (negb _); [by simpl |].
  unfold RedisCache.delete. simpl.
  destruct (redis_error env AtCancel); simpl;
    rewrite app_nil_r; repeat split; try done;
    try (unfold runner_calls; simpl; by rewrite omap_app, app_nil_r);
    by apply prefix_app_r.
Qed.

Lemma other_workers_frame env execution_id idx w :
  let w' := other_workers env execution_id idx w in
  results (db w') = results (db w)
  ∧ test_cases (db w') = test_cases (db w)
  ∧ suite_test_cases (db w') = suite_test_cases (db w)
  ∧ execution_logs w' = execution_logs w
  ∧ runner_calls w' = runner_calls w
  ∧ trace w `prefix_of` trace w'.
Proof.
  unfold other_workers. destruct (cancel_before env idx); [apply cancel_frame | done].
Qed.

(** One test case: the row that is produced and what changes. *)
Lemma execute_single_test_spec env idx tc s w :
  ∃ r w',
    _execute_single_test env idx tc s w = (r, add_result r s, w')
    ∧ row_of env (TestExecution.id (execution s)) idx tc r
    ∧ db w' = db w
    ∧ cache w' = cache w
    ∧ execution_logs w' = execution_logs w
    ∧ trace w' = trace w ++ [EvResultAdded (TestExecution.id (execution s)) (TestCase.id tc);
                             EvRunner (TestCase.id tc)].
Proof.
  unfold _execute_single_test, row_of. simpl.
  destruct (runner env idx) as [[] | msg] eqn:Hr; simpl;
    eexists _, _; (split; [reflexivity |]); simpl; rewrite <- ?app_assoc;
    repeat split; eauto; try congruence.
Qed.

(** The loop when Redis takes every progress snapshot: one row per test
    case, in order, whatever the unit of work did and whatever cancellation
    tasks ran in between. *)
Lemma run_loop_spec env execution_id total :
  (∀ i, redis_error env (AtProgress i) = None) →
  ∀ todo idx acc s w,
  ∃ rows w',
    run_loop env execution_id total idx todo acc s w
    = (Returned (acc ++ rows), mkSession (execution s) (added s ++ rows), w')
    ∧ rows_of env (TestExecution.id (execution s)) idx todo rows
    ∧ results (db w') = results (db w)
    ∧ test_cases (db w') = test_cases (db w)
    ∧ suite_test_cases (db w') = suite_test_cases (db w)
    ∧ execution_logs w' = execution_logs w
    ∧ runner_calls w' = runner_calls w ++ (TestCase.id <$> todo)
    ∧ trace w `prefix_of` trace w'.
Proof.
  intros Hredis. induction todo as [| tc todo IH]; intros idx acc s w.
  - exists [], w. simpl. rewrite !app_nil_r. destruct s. by repeat split.
  - cbn [run_loop].
    destruct (other_workers_frame env execution_id idx w)
      as (Hres & Htc & Hsuite & Hlogs & Hcalls & Htrace).
    set (w0 := other_workers env execution_id idx w) in *.
    destruct (execute_single_test_spec env idx tc s w0)
      as (r & w1 & -> & Hrow & Hdb & Hcache & Hlogs1 & Htrace1).
    unfold RedisCache.set_json. rewrite Hredis.
    match goal with |- context [run_loop _ _ _ _ _ _ _ ?w2] => set (w2' := w2) end.
    destruct (IH (S idx) (acc ++ [r]) (add_result r s) w2')
      as (rows & w' & -> & Hrows & Hres' & Htc' & Hsuite' & Hlogs' & Hcalls' & Htrace').
    exists (r :: rows), w'. simpl in *.
    rewrite <- !app_assoc. simpl.
    split; [done |]. split; [done |].
    rewrite Hres', Htc', Hsuite', Hlogs', Hcalls'. subst w2'. simpl.
    rewrite Hdb, Hlogs1.
    repeat split; try done.
    + unfold runner_calls at 1. simpl. rewrite Htrace1, omap_app. simpl.
      fold (runner_calls w0). by rewrite Hcalls, <- app_assoc.
    + etrans; [exact Htrace |]. etrans; [| exact Htrace'].
      simpl. rewrite Htrace1. by apply prefix_app_r.
Qed.

(** The loop, however it ends, leaves the loaded execution row, the
    committed result rows and the log store as they were. *)
Lemma run_loop_frame env execution_id total todo :
  ∀ idx acc s w o s' w',
    run_loop env execution_id total idx todo acc s w = (o, s', w') →
    execution s' = execution s
    ∧ results (db w') = results (db w)
    ∧ test_cases (db w') = test_cases (db w)
    ∧ suite_test_cases (db w') = suite_test_cases (db w)
    ∧ execution_logs w' = execution_logs w
    ∧ trace w `prefix_of` trace w'.
Proof.
  induction todo as [| tc todo IH]; intros idx acc s w o s' w' Hrun.
  - simpl in Hrun. by simplify_eq.
  - cbn [run_loop] in Hrun.
    destruct (other_workers_frame env execution_id idx w)
      as (Hres & Htc & Hsuite & Hlogs & _ & Htrace).
    set (w0 := other_workers env execution_id idx w) in *.
    destruct (execute_single_test_spec env idx tc s w0)
      as (r & w1 & Heq & _ & Hdb & _ & Hlogs1 & Htrace1).
    rewrite Heq in Hrun. unfold RedisCache.set_json in Hrun.
    assert (trace w `prefix_of` trace w1) as Hpre.
    { etrans; [exact Htrace |]. rewrite Htrace1. by apply prefix_app_r. }
    destruct (redis_error env (AtProgress idx)).
    + simplify_eq. simpl. rewrite Hdb, Hlogs1. by repeat split.
    + apply IH in Hrun as (He & Hres' & Htc' & Hsuite' & Hlogs' & Htrace').
      simpl in *. rewrite He, Hres', Htc', Hsuite', Hlogs', Hdb, Hlogs1.
      repeat split; try done. by etrans.
Qed.


Lemma get_test_cases_ext (st st' : Store) e e' :
  test_cases st = test_cases st' →
  suite_test_cases st = suite_test_cases st' →
  TestExecution.test_suite_id e = TestExecution.test_suite_id e' →
  TestExecution.project_id e = TestExecution.project_id e' →
  _get_test_cases_for_execution st e = _get_test_cases_for_execution st' e'.
Proof.
  intros H1 H2 H3 H4. unfold _get_test_cases_for_execution.
  by rewrite H1, H2, H3, H4.
Qed.

Lemma finish_run_spec env execution_id rs s w :
  redis_error env AtCompleted = None →
  TestExecution.id (execution s) = execution_id →
  ∃ r w',
    let e' := completed_row (execution s)
                (rows_for execution_id (results (db w) ++ added s)) (clock w) in
    finish_run env execution_id rs s w = (Returned r, mkSession e' [], w')
    ∧ results (db w') = results (db w) ++ added s
    ∧ test_cases (db w') = test_cases (db w)
    ∧ suite_test_cases (db w') = suite_test_cases (db w)
    ∧ executions (db w') !! execution_id = Some e'
    ∧ last (commits w') = Some e'
    ∧ runner_calls w' = runner_calls w
    ∧ execution_logs w'
      = execution_logs w ++
        match mongo_error env with
        | Some _ => []
        | None => [log_document execution_id rs (clock w + 1)]
        end
    ∧ (∀ m, mongo_error env = Some m →
         last (trace w') = Some (EvPrint ("Failed to store execution logs: " +:+ m)))
    ∧ trace w `prefix_of` trace w'.
Proof.
  intros Hredis Hid. destruct s as [e0 ad]. simpl in Hid.
  unfold finish_run, RedisCache.set_json, _store_execution_logs,
    _update_execution_summary, select_results.
  rewrite Hredis. simpl. rewrite Hid.
  fold (rows_for execution_id (results (db w) ++ ad)).
  fold (completed_row e0 (rows_for execution_id (results (db w) ++ ad)) (clock w)).
  set (e' := completed_row e0 _ _).
  destruct (mongo_error env) as [msg |] eqn:Hmongo.
  all: eexists _, _; (split; [reflexivity |]).
  all: simpl.
  all: rewrite Hid, lookup_insert_eq, ?app_nil_r.
  all: unfold commits, runner_calls; simpl.
  all: rewrite ?omap_app; simpl; rewrite ?app_nil_r, ?last_snoc.
  all: repeat split; try done.
  all: try (intros m Hm; by simplify_eq).
  all: rewrite <- ?app_assoc; by apply prefix_app_r.
Qed.

Lemma try_body_completes env execution_id s w :
  cache_available env →
  TestExecution.id (execution s) = execution_id →
  added s = [] →
  let target := _get_test_cases_for_execution (db w) (execution s) in
  target ≠ [] →
  ∃ rows now r w',
    let e' := completed_row
                (TestExecution.with_total_tests (Z.of_nat (length target)) (execution s))
                (rows_for execution_id (results (db w) ++ rows)) now in
    try_body env execution_id s w = (Returned r, mkSession e' [], w')
    ∧ rows_of env execution_id 0 target rows
    ∧ results (db w') = results (db w) ++ rows
    ∧ test_cases (db w') = test_cases (db w)
    ∧ suite_test_cases (db w') = suite_test_cases (db w)
    ∧ executions (db w') !! execution_id = Some e'
    ∧ last (commits w') = Some e'
    ∧ runner_calls w' = runner_calls w ++ (TestCase.id <$> target)
    ∧ execution_logs w'
      = execution_logs w ++
        match mongo_error env with
        | Some _ => []
        | None => [log_document execution_id rows (now + 1)]
        end
    ∧ (∀ m, mongo_error env = Some m →
         last (trace w') = Some (EvPrint ("Failed to store execution logs: " +:+ m)))
    ∧ trace w `prefix_of` trace w'.
Proof.
  intros Hredis Hid Hadded target Hne.
  destruct s as [e0 ad]. simpl in Hid, Hadded. subst ad.
  unfold try_body. fold target.
  destruct target as [| tc0 target0] eqn:Htarget; [done |].
  rewrite <- Htarget. clear Hne. simpl in target.
  cbn [commit update fst snd execution added].
  match goal with |- context [run_loop _ _ _ _ _ _ ?s1 ?w1] =>
    set (s1' := s1); set (w1' := w1) end.
  destruct (run_loop_spec env execution_id (length target) (fun i => Hredis _)
              target 0 [] s1' w1')
    as (rows & w2 & -> & Hrows & Hres & Htc & Hsuite & Hlogs & Hcalls & Htrace).
  simpl in Hrows. rewrite Hid in Hrows.
  destruct (finish_run_spec env execution_id ([] ++ rows)
              (mkSession (execution s1') (added s1' ++ rows)) w2 (Hredis _) Hid)
    as (r & w' & Hfin & Hres' & Htc' & Hsuite' & Hex & Hlast & Hcalls' & Hlogs' & Hprint
        & Htrace').
  simpl in *.
  exists rows, (clock w2), r, w'.
  rewrite Hres, app_nil_r in Hfin, Hex, Hlast.
  rewrite Hres', Htc', Hsuite', Hcalls', Hlogs', Hres, Htc, Hsuite, Hlogs, Hcalls, app_nil_r.
  repeat split; try done.
  - unfold runner_calls. simpl. rewrite omap_app. simpl. by rewrite app_nil_r.
  - etrans; [| exact Htrace']. etrans; [| exact Htrace]. by apply prefix_app_r.
Qed.
(** The entry point over a non-empty target set, with Redis available. *)
Lemma execute_completes env execution_id task_id w e :
  cache_available env →
  executions (db w) !! execution_id = Some e →
  TestExecution.id e = execution_id →
  let target := _get_test_cases_for_execution (db w) e in
  target ≠ [] →
  ∃ rows now r w',
    let e' := completed_row
                (TestExecution.with_total_tests (Z.of_nat (length target))
                   (running_row e task_id (clock w)))
                (rows_for execution_id (results (db w) ++ rows)) now in
    _execute_test_suite_async env execution_id task_id w = (Returned r, w')
    ∧ rows_of env execution_id 0 target rows
    ∧ results (db w') = results (db w) ++ rows
    ∧ test_cases (db w') = test_cases (db w)
    ∧ suite_test_cases (db w') = suite_test_cases (db w)
    ∧ executions (db w') !! execution_id = Some e'
    ∧ last (commits w') = Some e'
    ∧ runner_calls w' = runner_calls w ++ (TestCase.id <$> target)
    ∧ execution_logs w'
      = execution_logs w ++
        match mongo_error env with
        | Some _ => []
        | None => [log_document execution_id rows (now + 1)]
        end
    ∧ (∀ m, mongo_error env = Some m →
         last (trace w') = Some (EvPrint ("Failed to store execution logs: " +:+ m)))
    ∧ trace w `prefix_of` trace w'.
Proof.
  intros Hredis Hlook Hid target Hne.
  unfold _execute_test_suite_async. rewrite Hlook.
  unfold RedisCache.set_json. rewrite Hredis.
  cbn [utcnow commit update execution added fst snd].
  fold (running_row e task_id (clock w)).
  match goal with |- context [try_body _ _ ?s1 ?w1] =>
    set (s1' := s1); set (w1' := w1) end.
  assert (_get_test_cases_for_execution (db w1') (execution s1') = target) as Htarget.
  { by apply get_test_cases_ext. }
  destruct (try_body_completes env execution_id s1' w1' Hredis Hid eq_refl)
    as (rows & now & r & w' & Htry & Hrows & Hres & Htc & Hsuite & Hex & Hlast
        & Hcalls & Hlogs & Hprint & Htrace).
  { by rewrite Htarget. }
  rewrite Htarget in *. rewrite Htry.
  exists rows, now, r, w'. simpl in *.
  rewrite app_nil_r in *.
  repeat split; try done.
  - rewrite Hcalls. unfold runner_calls. simpl. rewrite omap_app. simpl.
    by rewrite app_nil_r.
  - etrans; [| exact Htrace]. by apply prefix_app_r.
Qed.

(** The entry point over an empty target set. *)
Lemma execute_empty env execution_id task_id w e :
  redis_error env AtStart = None →
  executions (db w) !! execution_id = Some e →
  TestExecution.id e = execution_id →
  _get_test_cases_for_execution (db w) e = [] →
  ∃ w',
    let e' := empty_row e task_id (clock w) in
    _execute_test_suite_async env execution_id task_id w
    = (Returned (JDict [("success", JBool true); ("total_tests", JInt 0)]), w')
    ∧ results (db w') = results (db w)
    ∧ test_cases (db w') = test_cases (db w)
    ∧ suite_test_cases (db w') = suite_test_cases (db w)
    ∧ executions (db w') !! execution_id = Some e'
    ∧ last (commits w') = Some e'
    ∧ runner_calls w' = runner_calls w
    ∧ execution_logs w' = execution_logs w
    ∧ trace w' = trace w ++ [EvCommit (running_row e task_id (clock w)); EvCommit e'].
Proof.
  intros Hredis Hlook Hid Htarget.
  unfold _execute_test_suite_async. rewrite Hlook.
  unfold RedisCache.set_json. rewrite Hredis.
  cbn [utcnow commit update execution added fst snd].
  fold (running_row e task_id (clock w)).
  unfold try_body.
  match goal with |- context [_get_test_cases_for_execution ?st ?e1] =>
    replace (_get_test_cases_for_execution st e1)
      with (_get_test_cases_for_execution (db w) e) by (by apply get_test_cases_ext) end.
  rewrite Htarget. simpl.
  fold (running_row e task_id (clock w)). fold (empty_row e task_id (clock w)).
  eexists; split; [reflexivity |]. simpl.
  rewrite Hid, lookup_insert_eq, !app_nil_r, <- app_assoc.
  unfold commits, runner_calls. simpl. rewrite !omap_app. simpl.
  rewrite !app_nil_r, last_snoc.
  by repeat split.
Qed.

End Frames.

(** ** The rows one run produces *)

Section Rows.

Implicit Types (env : Env) (rows : list TestCaseResult.t) (todo : list TestCase.t).

Lemma outcome_status_cases o :
  outcome_status o = TestResultStatus.PASSED
  ∨ outcome_status o = TestResultStatus.FAILED
  ∨ outcome_status o = TestResultStatus.ERROR.
Proof. destruct o as [[] |]; simpl; auto. Qed.

Lemma outcome_status_adjudicated (st : TestResultStatus.t) :
  st ∈ [TestResultStatus.PASSED; TestResultStatus.FAILED; TestResultStatus.ERROR] →
  st ≠ TestResultStatus.PENDING ∧ st ≠ TestResultStatus.SKIPPED
  ∧ st ≠ TestResultStatus.BLOCKED.
Proof.
  rewrite !elem_of_cons, elem_of_nil. by intros [-> | [-> | [-> | []]]].
Qed.

Lemma rows_of_length env execution_id todo :
  ∀ idx rows, rows_of env execution_id idx todo rows → length rows = length todo.
Proof.
  induction todo as [| tc todo IH]; intros idx [| r rows] H; simpl in *; try done.
  destruct H as [_ H]. f_equal. by eapply IH.
Qed.

Lemma rows_of_lookup env execution_id todo :
  ∀ idx rows i tc,
    rows_of env execution_id idx todo rows →
    todo !! i = Some tc →
    ∃ r, rows !! i = Some r ∧ row_of env execution_id (idx + i) tc r.
Proof.
  induction todo as [| tc0 todo IH]; intros idx [| r rows] i tc H Hi; simpl in *; try done.
  destruct H as [Hr H]. destruct i as [| i]; simpl in *.
  - simplify_eq. exists r. by rewrite Nat.add_0_r.
  - destruct (IH _ _ _ _ H Hi) as (r' & Hr' & Hrow). exists r'.
    by rewrite Nat.add_succ_r.
Qed.

Lemma rows_of_rows_for env execution_id todo :
  ∀ idx rows, rows_of env execution_id idx todo rows → rows_for execution_id rows = rows.
Proof.
  induction todo as [| tc todo IH]; intros idx [| r rows] H; simpl in *; try done.
  destruct H as [(Hid & _) H]. unfold rows_for. rewrite filter_cons_True by done.
  f_equal. by eapply IH.
Qed.

Lemma rows_of_statuses env execution_id todo :
  ∀ idx rows,
    rows_of env execution_id idx todo rows →
    Forall (fun r => TestCaseResult.status r ∈ [TestResultStatus.PASSED;
                       TestResultStatus.FAILED; TestResultStatus.ERROR]) rows.
Proof.
  induction todo as [| tc todo IH]; intros idx [| r rows] H; simpl in *; try done.
  destruct H as [(_ & _ & Hst & _) H]. constructor; [| by eapply IH].
  rewrite Hst. destruct (outcome_status_cases (runner env idx)) as [-> | [-> | ->]];
    set_solver.
Qed.

(** Terminal rows of one test case among the new rows: as many as the
    test case occurs in the target list. *)
Lemma rows_of_terminal env execution_id test_case_id todo :
  ∀ idx rows,
    rows_of env execution_id idx todo rows →
    length (filter (fun r => TestCaseResult.execution_id r = execution_id
                             ∧ TestCaseResult.test_case_id r = test_case_id
                             ∧ TestCaseResult.status r ≠ TestResultStatus.PENDING) rows)
    = length (filter (fun tc => TestCase.id tc = test_case_id) todo).
Proof.
  induction todo as [| tc todo IH]; intros idx [| r rows] H; simpl in *; try done.
  destruct H as [(Hid & Htc & Hst & _) H].
  assert (TestCaseResult.status r ≠ TestResultStatus.PENDING) as Hterm.
  { rewrite Hst. by destruct (outcome_status_cases (runner env idx)) as [-> | [-> | ->]]. }
  destruct (decide (TestCase.id tc = test_case_id)) as [E | NE].
  - rewrite !filter_cons_True by (try done; by rewrite Htc). simpl. f_equal. by eapply IH.
  - rewrite !filter_cons_False by (try done; rewrite Htc; tauto). by eapply IH.
Qed.

(** Every row falls under exactly one status. *)
Lemma count_status_total rows :
  count_status TestResultStatus.PASSED rows + count_status TestResultStatus.FAILED rows
  + count_status TestResultStatus.SKIPPED rows + count_status TestResultStatus.BLOCKED rows
  + count_status TestResultStatus.ERROR rows + count_status TestResultStatus.PENDING rows
  = Z.of_nat (length rows).
Proof.
  unfold count_status. induction rows as [| r rows IH]; [done |].
  destruct (TestCaseResult.status r) eqn:Hst;
    repeat (first [rewrite filter_cons_True by done
                  | rewrite (filter_cons_False _ r) by (rewrite Hst; done)]);
    simpl length; lia.
Qed.

Lemma count_status_absent st rows :
  Forall (fun r => TestCaseResult.status r ≠ st) rows → count_status st rows = 0.
Proof.
  unfold count_status. induction 1 as [| r rows Hr _ IH]; [done |].
  by rewrite filter_cons_False.
Qed.

End Rows.

(** ** The entry point when Redis is available *)

Section Engine.

Implicit Types (env : Env) (w : World) (e : TestExecution.t).

Lemma execute_returns env execution_id task_id w e :
  cache_available env →
  executions (db w) !! execution_id = Some e →
  TestExecution.id e = execution_id →
  let target := _get_test_cases_for_execution (db w) e in
  ∃ rows r w' e',
    _execute_test_suite_async env execution_id task_id w = (Returned r, w')
    ∧ rows_of env execution_id 0 target rows
    ∧ results (db w') = results (db w) ++ rows
    ∧ test_cases (db w') = test_cases (db w)
    ∧ suite_test_cases (db w') = suite_test_cases (db w)
    ∧ executions (db w') !! execution_id = Some e'
    ∧ last (commits w') = Some e'
    ∧ TestExecution.status e' = ExecutionStatus.COMPLETED
    ∧ TestExecution.total_tests e' = Z.of_nat (length target)
    ∧ TestExecution.started_at e' = Some (clock w)
    ∧ TestExecution.celery_task_id e' = Some task_id
    ∧ is_Some (TestExecution.completed_at e')
    ∧ (target ≠ [] → counters_from (results_of execution_id (db w')) e')
    ∧ (target = [] → same_counters e e' ∧ execution_logs w' = execution_logs w)
    ∧ runner_calls w' = runner_calls w ++ (TestCase.id <$> target)
    ∧ trace w `prefix_of` trace w'.
Proof.
  intros Hredis Hlook Hid target.
  destruct target as [| tc0 target0] eqn:Htarget.
  - destruct (execute_empty env execution_id task_id w e (Hredis _) Hlook Hid Htarget)
      as (w' & Hrun & Hres & Htc & Hsuite & Hex & Hlast & Hcalls & Hlogs & Htrace).
    eexists [], _, w', (empty_row e task_id (clock w)).
    rewrite Hrun, Hres, Hcalls, Htrace, !app_nil_r.
    split; [reflexivity |].
    repeat split; try done; eauto. by apply prefix_app_r.
  - destruct (execute_completes env execution_id task_id w e Hredis Hlook Hid)
      as (rows & now & r & w' & Hrun & Hrows & Hres & Htc & Hsuite & Hex & Hlast
          & Hcalls & Hlogs & _ & Htrace).
    { fold target. by rewrite Htarget. }
    fold target in Hrun, Hrows, Hex, Hlast, Hcalls. rewrite Htarget in *.
    eexists rows, r, w', _. rewrite Hrun.
    split; [done |]. split; [done |]. split; [done |]. split; [done |].
    split; [done |]. split; [exact Hex |]. split; [exact Hlast |].
    unfold results_of. rewrite Hres.
    repeat split; try done; eauto.
Qed.

(** C2.  Authoritative recount at completion.  A run with Redis available
    over a target set of size N ends COMPLETED with [total_tests = N], and
    when N is not 0 its five counters are the counts, by status, of all the
    result rows persisted for the execution, not a tally of this run.  For
    an execution that had never been run, exactly N result rows exist
    afterwards, the counters are their counts by status, and the counters
    add up to [total_tests]. *)
Theorem recount_at_completion env task_id w e :
  cache_available env →
  executions (db w) !! TestExecution.id e = Some e →
  let N := length (_get_test_cases_for_execution (db w) e) in
  ∃ r w' e',
    _execute_test_suite_async env (TestExecution.id e) task_id w = (Returned r, w')
    ∧ executions (db w') !! TestExecution.id e = Some e'
    ∧ TestExecution.status e' = ExecutionStatus.COMPLETED
    ∧ TestExecution.total_tests e' = Z.of_nat N
    ∧ (N ≠ 0%nat → counters_from (results_of (TestExecution.id e) (db w')) e')
    ∧ (never_run e w →
         counters_from (results_of (TestExecution.id e) (db w')) e'
         ∧ length (results_of (TestExecution.id e) (db w')) = N
         ∧ counter_sum e' = TestExecution.total_tests e').
Proof.
  intros Hredis Hlook N.
  destruct (execute_returns env _ task_id w e Hredis Hlook eq_refl)
    as (rows & r & w' & e' & Hrun & Hrows & Hres & _ & _ & Hex & _ & Hst & Htotal
        & _ & _ & _ & Hne & Hempty & _).
  fold N in Htotal.
  assert (length rows = N) as Hlen by (by eapply rows_of_length).
  exists r, w', e'.
  split; [done |]. split; [done |]. split; [done |]. split; [done |]. split.
  { intros HN. apply Hne. intros E. apply HN. subst N. by rewrite E. }
  intros (Hfresh & Hzero).
  assert (results_of (TestExecution.id e) (db w') = rows) as Hall.
  { unfold results_of, rows_for in *. rewrite Hres, filter_app, Hfresh. simpl.
    by eapply rows_of_rows_for. }
  assert (counters_from rows e') as Hcount.
  { destruct (decide (_get_test_cases_for_execution (db w) e = [])) as [E | NE].
    - destruct (Hempty E) as [(H1 & H2 & H3 & H4 & H5) _].
      destruct Hzero as (Z1 & Z2 & Z3 & Z4 & Z5). simpl in *.
      assert (rows = []) as ->.
      { apply nil_length_inv. rewrite Hlen. subst N. by rewrite E. }
      unfold counters_from, count_status. simpl.
      repeat split; lia.
    - rewrite <- Hall. by apply Hne. }
  rewrite Hall. split; [done |]. split; [done |].
  rewrite Htotal, <- Hlen. unfold counter_sum.
  destruct Hcount as (-> & -> & -> & -> & ->).
  pose proof (count_status_total rows) as Hsum.
  pose proof (rows_of_statuses _ _ _ _ _ Hrows) as Hsts.
  rewrite (count_status_absent TestResultStatus.PENDING) in Hsum; [lia |].
  eapply Forall_impl; [exact Hsts |]. intros x Hx.
  by apply outcome_status_adjudicated in Hx as [? _].
Qed.

Lemma recount_at_completion_witness :
  ∃ r w' e',
    _execute_test_suite_async (calm two_pass_one_fail) (TestExecution.id queued_execution)
      "job-1" sample_world = (Returned r, w')
    ∧ executions (db w') !! TestExecution.id queued_execution = Some e'
    ∧ TestExecution.status e' = ExecutionStatus.COMPLETED
    ∧ TestExecution.total_tests e' = 3.
Proof.
  destruct (recount_at_completion (calm two_pass_one_fail) "job-1" sample_world
              queued_execution) as (r & w' & e' & Hrun & Hex & Hst & Htotal & _).
  - intros site. reflexivity.
  - reflexivity.
  - exists r, w', e'. split; [exact Hrun |]. split; [exact Hex |]. split; [exact Hst |].
    exact Htotal.
Defined.

(** The scenario of the design document: PASSED, PASSED, FAILED gives
    COMPLETED with total 3, 2 passed, 1 failed and pass rate 66.67. *)
Example three_test_cases_scenario :
  (TestExecution.status completed_execution, TestExecution.total_tests completed_execution,
   TestExecution.passed_tests completed_execution, TestExecution.failed_tests completed_execution)
  = (ExecutionStatus.COMPLETED, 3, 2, 1)
  ∧ TestExecution.pass_rate completed_execution = 66.67%Q
  ∧ completed_world
    = snd (_execute_test_suite_async (calm two_pass_one_fail) 1 "job-1" sample_world).
Proof. vm_compute. by repeat split. Qed.

(** C7, as stated, fails when the cache does.  The unit of work of the
    second test case of execution 1 raises, which is recorded as an ERROR
    result; Redis then refuses the progress snapshot that follows it, and
    that exception leaves the loop: the third test case is never run and
    the execution ends FAILED, not COMPLETED. *)
Lemma snapshot_failure_ends_the_loop :
  interrupted_after_error
  = _execute_test_suite_async (redis_down_at (AtProgress 1) second_raises) 1 "job-1"
      sample_world
  ∧ (TestCase.id <$> _get_test_cases_for_execution (db sample_world) queued_execution)
    = [10; 11; 13]
  ∧ runner (redis_down_at (AtProgress 1) second_raises) 1 = Raises "connection reset"
  ∧ fst interrupted_after_error = Raised "redis unreachable"
  ∧ runner_calls (snd interrupted_after_error) = [10; 11]
  ∧ ((λ r, (TestCaseResult.test_case_id r, TestCaseResult.status r))
       <$> results (db (snd interrupted_after_error)))
    = [(10, TestResultStatus.PASSED); (11, TestResultStatus.ERROR)]
  ∧ (TestExecution.status <$> executions (db (snd interrupted_after_error)) !! 1)
    = Some ExecutionStatus.FAILED.
Proof. vm_compute. by repeat split. Qed.

(** C7, amended.  Runner error containment.  With Redis available, when the unit of
    work of the test case at index [i] raises [msg], the run still returns
    normally and leaves the execution COMPLETED; it has added one row per
    test case of the target set and started a unit of work for each of them,
    and the row at index [i] is the one of that test case, with status ERROR,
    [msg] as error message, and [completed_at] and the duration set. *)
Theorem runner_error_contained env task_id w e i tc msg :
  cache_available env →
  executions (db w) !! TestExecution.id e = Some e →
  _get_test_cases_for_execution (db w) e !! i = Some tc →
  runner env i = Raises msg →
  ∃ r w' e' rows row,
    _execute_test_suite_async env (TestExecution.id e) task_id w = (Returned r, w')
    ∧ executions (db w') !! TestExecution.id e = Some e'
    ∧ TestExecution.status e' = ExecutionStatus.COMPLETED
    ∧ results (db w') = results (db w) ++ rows
    ∧ length rows = length (_get_test_cases_for_execution (db w) e)
    ∧ runner_calls w'
      = runner_calls w ++ (TestCase.id <$> _get_test_cases_for_execution (db w) e)
    ∧ rows !! i = Some row
    ∧ TestCaseResult.execution_id row = TestExecution.id e
    ∧ TestCaseResult.test_case_id row = TestCase.id tc
    ∧ TestCaseResult.status row = TestResultStatus.ERROR
    ∧ TestCaseResult.error_message row = Some msg
    ∧ is_Some (TestCaseResult.completed_at row)
    ∧ is_Some (TestCaseResult.duration_seconds row).
Proof.
  intros Hredis Hlook Hi Hraise.
  destruct (execute_returns env _ task_id w e Hredis Hlook eq_refl)
    as (rows & r & w' & e' & Hrun & Hrows & Hres & _ & _ & Hex & _ & Hst & _
        & _ & _ & _ & _ & _ & Hcalls & _).
  destruct (rows_of_lookup _ _ _ _ _ _ _ Hrows Hi)
    as (row & Hrow & Hid & Htc & Hstatus & Hdone & Hdur & Herr).
  simpl in Hstatus. rewrite Hraise in Hstatus.
  exists r, w', e', rows, row.
  repeat split; try done; eauto using rows_of_length.
Qed.

Lemma runner_error_contained_witness :
  ∃ r w' e' rows row,
    _execute_test_suite_async (calm second_raises) 1 "job-1" sample_world = (Returned r, w')
    ∧ executions (db w') !! 1 = Some e'
    ∧ TestExecution.status e' = ExecutionStatus.COMPLETED
    ∧ results (db w') = rows
    ∧ length rows = 3%nat
    ∧ runner_calls w' = [10; 11; 13]
    ∧ rows !! 1%nat = Some row
    ∧ TestCaseResult.execution_id row = 1
    ∧ TestCaseResult.test_case_id row = 11
    ∧ TestCaseResult.status row = TestResultStatus.ERROR
    ∧ TestCaseResult.error_message row = Some "connection reset"
    ∧ is_Some (TestCaseResult.completed_at row)
    ∧ is_Some (TestCaseResult.duration_seconds row).
Proof.
  apply (runner_error_contained (calm second_raises) "job-1" sample_world queued_execution
           1%nat (TestCase.mk 11 7 TestCaseStatus.ACTIVE) "connection reset").
  - intros site. reflexivity.
  - reflexivity.
  - reflexivity.
  - reflexivity.
Defined.

(** C1, as stated, fails.  The first delivery of the job for execution 1
    leaves one terminal result, for test case 10, and the execution FAILED;
    the redelivery runs test case 10 again and leaves two terminal results
    for it. *)
Lemma reentry_duplicates_results :
  length (terminal_results 1 10 (db first_delivery)) = 1%nat
  ∧ length (terminal_results 1 11 (db first_delivery)) = 0%nat
  ∧ length (terminal_results 1 10 (db redelivery)) = 2%nat
  ∧ length (terminal_results 1 10 (db redelivery)) ≠ 1%nat
  ∧ runner_calls redelivery = [10; 10; 11; 13].
Proof. by vm_compute. Qed.

(** C1, amended.  Re-entry skips nothing: with Redis available, an
    invocation of the entry point starts a unit of work for every test case
    of the recomputed target set, and for every test case the number of its
    terminal results grows by the number of times it occurs in the target
    set, whatever results existed before. *)
Theorem reentry_reruns_every_test_case env task_id w e test_case_id :
  cache_available env →
  executions (db w) !! TestExecution.id e = Some e →
  let target := _get_test_cases_for_execution (db w) e in
  ∃ r w',
    _execute_test_suite_async env (TestExecution.id e) task_id w = (Returned r, w')
    ∧ runner_calls w' = runner_calls w ++ (TestCase.id <$> target)
    ∧ length (terminal_results (TestExecution.id e) test_case_id (db w'))
      = (length (terminal_results (TestExecution.id e) test_case_id (db w))
         + length (filter (fun tc => TestCase.id tc = test_case_id) target))%nat.
Proof.
  intros Hredis Hlook target.
  destruct (execute_returns env _ task_id w e Hredis Hlook eq_refl)
    as (rows & r & w' & e' & Hrun & Hrows & Hres & _ & _ & _ & _ & _ & _
        & _ & _ & _ & _ & _ & Hcalls & _).
  exists r, w'. split; [done |]. split; [done |].
  unfold terminal_results. rewrite Hres, filter_app, length_app. f_equal.
  by eapply rows_of_terminal.
Qed.

Lemma reentry_reruns_every_test_case_witness :
  ∃ r w',
    _execute_test_suite_async (calm all_pass) (TestExecution.id failed_execution)
      "job-2" first_delivery = (Returned r, w')
    ∧ runner_calls w'
      = runner_calls first_delivery
        ++ (TestCase.id <$> _get_test_cases_for_execution (db first_delivery) failed_execution)
    ∧ length (terminal_results (TestExecution.id failed_execution) 10 (db w'))
      = (length (terminal_results (TestExecution.id failed_execution) 10 (db first_delivery))
         + length (filter (fun tc => TestCase.id tc = 10%Z)
                     (_get_test_cases_for_execution (db first_delivery) failed_execution)))%nat.
Proof.
  apply (reentry_reruns_every_test_case (calm all_pass) "job-2" first_delivery
           failed_execution 10).
  - intros site. reflexivity.
  - vm_compute. reflexivity.
Defined.

(** C9.  Cancellation.  For an execution that is neither RUNNING nor
    QUEUED the cancellation task raises nothing: it returns the report
    [success: False, "Execution is not running"] and leaves every store
    exactly as it was, so the row keeps its status, [completed_at] and
    counters and no result appears.  For an execution that is RUNNING or
    QUEUED it commits the row with status CANCELLED and [completed_at] set,
    touches no result row, and, when Redis answers, deletes the progress
    snapshot and reports success. *)
Theorem cancel_only_when_active env w e :
  executions (db w) !! TestExecution.id e = Some e →
  (TestExecution.status e ∉ [ExecutionStatus.RUNNING; ExecutionStatus.QUEUED] →
     _cancel_execution_async env (TestExecution.id e) w = (Returned not_running, w))
  ∧ (TestExecution.status e ∈ [ExecutionStatus.RUNNING; ExecutionStatus.QUEUED] →
     ∃ o w',
       _cancel_execution_async env (TestExecution.id e) w = (o, w')
       ∧ executions (db w') !! TestExecution.id e = Some (cancelled_row e (clock w))
       ∧ TestExecution.status (cancelled_row e (clock w)) = ExecutionStatus.CANCELLED
       ∧ TestExecution.completed_at (cancelled_row e (clock w)) = Some (clock w)
       ∧ results (db w') = results (db w)
       ∧ (redis_error env AtCancel = None →
            o = Returned (JDict [("success", JBool true);
                                 ("execution_id", JInt (TestExecution.id e))])
            ∧ cache w' !! CacheKeys.execution_status (str (TestExecution.id e)) = None)).
Proof.
  intros Hlook. unfold _cancel_execution_async. rewrite Hlook. split.
  - intros Hnot. by rewrite bool_decide_eq_false_2.
  - intros Hin. rewrite bool_decide_eq_true_2 by done.
    unfold RedisCache.delete. simpl. fold (cancelled_row e (clock w)).
    destruct (redis_error env AtCancel) as [msg |]; eexists _, _;
      (split; [reflexivity |]); simpl; rewrite lookup_insert_eq, app_nil_r.
    + by repeat split.
    + repeat split; try done. apply lookup_delete_eq.
Qed.

Lemma cancel_only_when_active_witness :
  TestExecution.status completed_execution = ExecutionStatus.COMPLETED
  ∧ _cancel_execution_async (calm all_pass) (TestExecution.id completed_execution)
      completed_world = (Returned not_running, completed_world).
Proof.
  split; [reflexivity |].
  apply (cancel_only_when_active (calm all_pass) completed_world completed_execution).
  - vm_compute. reflexivity.
  - apply (bool_decide_eq_false_1 _). reflexivity.
Defined.

(** C6, as stated, fails: for execution 2, whose project has no active
    test case, the run completes with [total_tests = 0], pass rate 0 and no
    result row, but nothing is written to the log store. *)
Lemma empty_target_writes_no_log :
  empty_run = _execute_test_suite_async (calm all_pass) 2 "job-1" idle_world
  ∧ fst empty_run = Returned (JDict [("success", JBool true); ("total_tests", JInt 0)])
  ∧ (TestExecution.status <$> executions (db (snd empty_run)) !! 2)
    = Some ExecutionStatus.COMPLETED
  ∧ results (db (snd empty_run)) = []
  ∧ execution_logs (snd empty_run) = []
  ∧ length (execution_logs (snd empty_run)) ≠ 1%nat.
Proof. vm_compute. repeat split. discriminate. Qed.

(** C6, amended.  When target-set resolution yields no test case and
    Redis takes the initial snapshot, the run returns
    [success: True, total_tests: 0] and leaves the execution COMPLETED with
    [total_tests = 0] and [completed_at] set; the five counters are left as
    they were, so the pass rate is 0 when none had passed or failed before;
    no result row is created, no unit of work is started, and nothing is
    written to the log store. *)
Theorem empty_target_completes env task_id w e :
  redis_error env AtStart = None →
  executions (db w) !! TestExecution.id e = Some e →
  _get_test_cases_for_execution (db w) e = [] →
  ∃ w' e',
    _execute_test_suite_async env (TestExecution.id e) task_id w
    = (Returned (JDict [("success", JBool true); ("total_tests", JInt 0)]), w')
    ∧ executions (db w') !! TestExecution.id e = Some e'
    ∧ TestExecution.status e' = ExecutionStatus.COMPLETED
    ∧ TestExecution.total_tests e' = 0
    ∧ is_Some (TestExecution.completed_at e')
    ∧ same_counters e e'
    ∧ (TestExecution.passed_tests e + TestExecution.failed_tests e = 0 →
         TestExecution.pass_rate e' = 0%Q)
    ∧ results (db w') = results (db w)
    ∧ runner_calls w' = runner_calls w
    ∧ execution_logs w' = execution_logs w.
Proof.
  intros Hredis Hlook Htarget.
  destruct (execute_empty env _ task_id w e Hredis Hlook eq_refl Htarget)
    as (w' & Hrun & Hres & _ & _ & Hex & _ & Hcalls & Hlogs & _).
  exists w', (empty_row e task_id (clock w)).
  repeat split; try done; eauto.
  intros Hzero. unfold TestExecution.pass_rate. simpl.
  by rewrite Hzero.
Qed.

Lemma empty_target_completes_witness :
  ∃ w' e',
    _execute_test_suite_async (calm all_pass) (TestExecution.id idle_execution) "job-1" idle_world
    = (Returned (JDict [("success", JBool true); ("total_tests", JInt 0)]), w')
    ∧ executions (db w') !! TestExecution.id idle_execution = Some e'
    ∧ TestExecution.status e' = ExecutionStatus.COMPLETED
    ∧ TestExecution.total_tests e' = 0
    ∧ is_Some (TestExecution.completed_at e')
    ∧ same_counters idle_execution e'
    ∧ (TestExecution.passed_tests idle_execution + TestExecution.failed_tests idle_execution = 0 →
         TestExecution.pass_rate e' = 0%Q)
    ∧ results (db w') = results (db idle_world)
    ∧ runner_calls w' = runner_calls idle_world
    ∧ execution_logs w' = execution_logs idle_world.
Proof.
  apply (empty_target_completes (calm all_pass) "job-1" idle_world idle_execution).
  - reflexivity.
  - reflexivity.
  - reflexivity.
Defined.

End Engine.

(** ** Whatever the environment does *)

Section AnyOutcome.

#[local] Arguments count_status : simpl never.
#[local] Arguments rows_for : simpl never.
#[local] Arguments completed_row : simpl never.
#[local] Arguments failed_row : simpl never.
#[local] Arguments running_row : simpl never.
#[local] Arguments TestExecution.pass_rate : simpl never.
#[local] Arguments CacheKeys.execution_status : simpl never.
#[local] Arguments str : simpl never.

Implicit Types (env : Env) (w : World) (s : Session) (e : TestExecution.t).

Variable P : TestExecution.t → Prop.
Hypothesis P_status : ∀ v e, P e → P (TestExecution.with_status v e).
Hypothesis P_completed_at : ∀ v e, P e → P (TestExecution.with_completed_at v e).
Hypothesis P_error_message : ∀ v e, P e → P (TestExecution.with_error_message v e).

Lemma history_ok_ext execution_id w w' :
  db w' = db w → trace w' = trace w →
  history_ok P execution_id w → history_ok P execution_id w'.
Proof. unfold history_ok, commits. by intros -> ->. Qed.

Lemma commit_history execution_id s w :
  P (execution s) →
  history_ok P execution_id w →
  history_ok P execution_id (snd (commit s w)).
Proof.
  intros HP [Hc Hdb]. split.
  - simpl. rewrite commits_emit. apply Forall_app. split; [done |]. by constructor.
  - simpl. intros e.
    destruct (decide (TestExecution.id (execution s) = execution_id)) as [<- | NE].
    + rewrite lookup_insert_eq. by intros [= <-].
    + rewrite lookup_insert_ne by done. apply Hdb.
Qed.

Lemma cancel_history env execution_id w :
  history_ok P execution_id w →
  history_ok P execution_id (snd (_cancel_execution_async env execution_id w)).
Proof.
  intros HJ. unfold _cancel_execution_async.
  destruct (executions (db w) !! execution_id) as [e |] eqn:Hlook; [| done].
  destruct (negb _); [done |].
  assert (P (cancelled_row e (clock w))) as HP.
  { apply P_completed_at, P_status. by apply HJ. }
  pose proof (commit_history execution_id
                (mkSession (cancelled_row e (clock w)) [])
                (snd (utcnow w)) HP HJ) as Hcommit.
  unfold RedisCache.delete. simpl in *.
  destruct (redis_error env AtCancel); simpl; [done |].
  by eapply history_ok_ext; [| | exact Hcommit].
Qed.

Lemma run_loop_history env execution_id total todo :
  ∀ idx acc s w o s' w',
    run_loop env execution_id total idx todo acc s w = (o, s', w') →
    history_ok P execution_id w →
    history_ok P execution_id w'.
Proof.
  induction todo as [| tc todo IH]; intros idx acc s w o s' w' Hrun HJ.
  - simpl in Hrun. by simplify_eq.
  - cbn [run_loop] in Hrun.
    assert (history_ok P execution_id (other_workers env execution_id idx w)) as HJ0.
    { unfold other_workers. destruct (cancel_before env idx); [by apply cancel_history | done]. }
    set (w0 := other_workers env execution_id idx w) in *.
    destruct (execute_single_test_spec env idx tc s w0)
      as (r & w1 & Heq & _ & Hdb & _ & _ & Htrace1).
    rewrite Heq in Hrun. unfold RedisCache.set_json in Hrun.
    assert (history_ok P execution_id w1) as HJ1.
    { destruct HJ0 as [Hc Hd]. split.
      - unfold commits in *. rewrite Htrace1, omap_app. simpl. by rewrite app_nil_r.
      - by rewrite Hdb. }
    destruct (redis_error env (AtProgress idx)).
    + by simplify_eq.
    + eapply IH; [exact Hrun |]. done.
Qed.

(** When the loop returns, it has added one row per test case. *)
Lemma run_loop_returned env execution_id total todo :
  ∀ idx acc s w rs s' w',
    run_loop env execution_id total idx todo acc s w = (Returned rs, s', w') →
    ∃ rows,
      rs = acc ++ rows
      ∧ added s' = added s ++ rows
      ∧ rows_of env (TestExecution.id (execution s)) idx todo rows.
Proof.
  induction todo as [| tc todo IH]; intros idx acc s w rs s' w' Hrun.
  - simpl in Hrun. simplify_eq. exists []. by rewrite !app_nil_r.
  - cbn [run_loop] in Hrun.
    destruct (execute_single_test_spec env idx tc s (other_workers env execution_id idx w))
      as (r & w1 & Heq & Hrow & _).
    rewrite Heq in Hrun. unfold RedisCache.set_json in Hrun.
    destruct (redis_error env (AtProgress idx)); [done |].
    apply IH in Hrun as (rows & -> & Hadded & Hrows).
    exists (r :: rows). simpl in *. rewrite <- !app_assoc in *.
    by split; [| split; [rewrite Hadded |]].
Qed.

(** The end of the run, whether or not Redis takes the final snapshot:
    the COMPLETED row is committed together with the rows of the session. *)
Lemma finish_run_any env execution_id rs s w :
  let e' := completed_row (execution s)
              (rows_for (TestExecution.id (execution s)) (results (db w) ++ added s))
              (clock w) in
  ∃ o w',
    finish_run env execution_id rs s w = (o, mkSession e' [], w')
    ∧ db w' = commit_store (mkSession e' (added s)) (db w)
    ∧ commits w' = commits w ++ [e']
    ∧ trace w `prefix_of` trace w'
    ∧ ((∃ r, o = Returned r) ∨ (∃ msg, o = Raised msg ∧ redis_error env AtCompleted = Some msg)).
Proof.
  intros e'. destruct s as [e0 ad].
  unfold finish_run, RedisCache.set_json, _store_execution_logs,
    _update_execution_summary, select_results. simpl.
  fold (rows_for (TestExecution.id e0) (results (db w) ++ ad)).
  fold (completed_row e0 (rows_for (TestExecution.id e0) (results (db w) ++ ad)) (clock w)).
  fold e'.
  destruct (redis_error env AtCompleted) as [msg |]; [| destruct (mongo_error env)];
    eexists _, _; (split; [reflexivity |]); simpl; unfold commits; simpl;
    rewrite ?omap_app; simpl; rewrite ?app_nil_r.
  - repeat split; eauto. by apply prefix_app_r.
  - repeat split; eauto. rewrite <- app_assoc. by apply prefix_app_r.
  - repeat split; eauto. by apply prefix_app_r.
Qed.

(** The handler: the FAILED row is committed together with the rows of the
    session, and an exception leaves the task. *)
Lemma except_handler_any env execution_id msg s w :
  let e' := failed_row (execution s) msg (clock w) in
  ∃ msg' w',
    except_handler env execution_id msg s w = (Raised msg', w')
    ∧ db w' = commit_store (mkSession e' (added s)) (db w)
    ∧ commits w' = commits w ++ [e']
    ∧ runner_calls w' = runner_calls w
    ∧ execution_logs w' = execution_logs w
    ∧ trace w `prefix_of` trace w'.
Proof.
  intros e'. destruct s as [e0 ad].
  unfold except_handler, RedisCache.set_json. simpl.
  fold (failed_row e0 msg (clock w)). fold e'.
  destruct (redis_error env AtFailed); eexists _, _; (split; [reflexivity |]); simpl;
    unfold commits, runner_calls; simpl; rewrite !omap_app; simpl; rewrite ?app_nil_r;
    repeat split; by apply prefix_app_r.
Qed.

Lemma history_ok_commit_store execution_id s w w' :
  P (execution s) →
  db w' = commit_store s (db w) →
  commits w' = commits w ++ [execution s] →
  history_ok P execution_id w →
  history_ok P execution_id w'.
Proof.
  intros HP Hdb Hc HJ.
  destruct (commit_history execution_id s w HP HJ) as [Hc' Hdb'].
  split.
  - rewrite Hc. simpl in Hc'. by rewrite commits_emit in Hc'.
  - by rewrite Hdb.
Qed.

End AnyOutcome.

(** ** The counter invariant along one run *)

Section Bounded.

Implicit Types (env : Env) (w : World) (s : Session) (e : TestExecution.t).

#[local] Arguments count_status : simpl never.
#[local] Arguments rows_for : simpl never.
#[local] Arguments TestExecution.pass_rate : simpl never.
#[local] Arguments CacheKeys.execution_status : simpl never.
#[local] Arguments str : simpl never.

Lemma counters_bounded_status v e :
  counters_bounded e → counters_bounded (TestExecution.with_status v e).
Proof. done. Qed.

Lemma counters_bounded_completed_at v e :
  counters_bounded e → counters_bounded (TestExecution.with_completed_at v e).
Proof. done. Qed.

Lemma counters_bounded_error_message v e :
  counters_bounded e → counters_bounded (TestExecution.with_error_message v e).
Proof. done. Qed.

Lemma completed_row_bounded e rows now :
  Z.of_nat (length rows) <= TestExecution.total_tests e →
  counters_bounded (completed_row e rows now).
Proof.
  intros Hlen. unfold counters_bounded, counter_sum. simpl.
  pose proof (count_status_total rows) as Hsum.
  assert (0 <= count_status TestResultStatus.PENDING rows) by (unfold count_status; lia).
  lia.
Qed.

Lemma try_body_bounded env execution_id s w o s' w' :
  try_body env execution_id s w = (o, s', w') →
  TestExecution.id (execution s) = execution_id →
  added s = [] →
  counter_sum (execution s) = 0 →
  results_of execution_id (db w) = [] →
  history_ok counters_bounded execution_id w →
  history_ok counters_bounded execution_id w'
  ∧ counters_bounded (execution s')
  ∧ TestExecution.id (execution s') = execution_id
  ∧ trace w `prefix_of` trace w'.
Proof.
  intros Htry Hid Hadded Hzero Hnone HJ.
  destruct s as [e0 ad]. simpl in Hid, Hadded, Hzero. subst ad.
  unfold try_body in Htry.
  destruct (_get_test_cases_for_execution (db w) (execution {| execution := e0; added := [] |}))
    as [| tc0 target0] eqn:Htarget.
  - simpl in Htry. simplify_eq. simpl.
    assert (counters_bounded
              (TestExecution.with_total_tests 0
                 (TestExecution.with_completed_at (Some (clock w))
                    (TestExecution.with_status ExecutionStatus.COMPLETED e0)))) as HP.
    { unfold counters_bounded, counter_sum in *. simpl. lia. }
    split; [| split; [done | split; [done | by apply prefix_app_r]]].
    eapply (history_ok_commit_store _ _ (mkSession _ [])); [exact HP | | | exact HJ].
    + reflexivity.
    + unfold commits. simpl. rewrite omap_app. reflexivity.
  - rewrite <- Htarget in Htry. set (target := _get_test_cases_for_execution _ _) in *.
    cbn [commit update fst snd execution added] in Htry.
    set (e1 := TestExecution.with_total_tests (Z.of_nat (length target)) e0) in *.
    assert (counters_bounded e1) as HP1.
    { unfold counters_bounded, counter_sum in *. simpl. lia. }
    match type of Htry with context [run_loop _ _ _ _ _ _ ?s1 ?w1] =>
      set (s1' := s1) in *; set (w1' := w1) in * end.
    assert (history_ok counters_bounded execution_id w1') as HJ1.
    { eapply (history_ok_commit_store _ _ (mkSession e1 [])); [exact HP1 | | | exact HJ].
      - reflexivity.
      - unfold commits. simpl. rewrite omap_app. reflexivity. }
    destruct (run_loop env execution_id (length target) 0 target [] s1' w1')
      as [[o1 s2] w2] eqn:Hloop.
    pose proof (run_loop_history counters_bounded counters_bounded_status
                  counters_bounded_completed_at _ _ _ _ _ _ _ _ _ _ _ Hloop HJ1) as HJ2.
    destruct (run_loop_frame _ _ _ _ _ _ _ _ _ _ _ Hloop)
      as (He2 & Hres2 & _ & _ & _ & Htrace2).
    assert (trace w `prefix_of` trace w2) as Hpre2.
    { etrans; [| exact Htrace2]. by apply prefix_app_r. }
    destruct o1 as [rs | msg].
    + destruct (run_loop_returned _ _ _ _ _ _ _ _ _ _ _ Hloop) as (rows & _ & Hadded2 & Hrows).
      destruct (finish_run_any env execution_id rs s2 w2)
        as (o' & w3 & Hfin & Hdb3 & Hc3 & Htrace3 & _).
      rewrite Hfin in Htry. simplify_eq. simpl.
      rewrite He2 in *. simpl in *.
      assert (counters_bounded
                (completed_row e1 (rows_for (TestExecution.id e0) (results (db w) ++ added s2))
                   (clock w2))) as HP3.
      { apply completed_row_bounded. simpl.
        unfold results_of in Hnone. rewrite Hadded2. simpl.
        unfold rows_for in *. rewrite filter_app, Hnone. simpl.
        fold (rows_for (TestExecution.id e0) rows).
        rewrite (rows_of_rows_for _ _ _ _ _ Hrows), (rows_of_length _ _ _ _ _ Hrows). lia. }
      rewrite Hres2, app_nil_r in *.
      split; [| split; [done | split; [done | by etrans]]].
      eapply (history_ok_commit_store _ _ (mkSession _ (added s2))); [exact HP3 | | | exact HJ2].
      * exact Hdb3.
      * exact Hc3.
    + simplify_eq. rewrite He2. subst s1'. simpl.
      split; [exact HJ2 | split; [exact HP1 | split; [reflexivity | exact Hpre2]]].
Qed.

(** What the [try] body leaves in every case. *)
Lemma try_body_any env execution_id s w o s' w' :
  try_body env execution_id s w = (o, s', w') →
  TestExecution.id (execution s') = TestExecution.id (execution s)
  ∧ trace w `prefix_of` trace w'
  ∧ (∀ r, o = Returned r →
       TestExecution.status (execution s') = ExecutionStatus.COMPLETED
       ∧ executions (db w') !! TestExecution.id (execution s) = Some (execution s')).
Proof.
  intros Htry. destruct s as [e0 ad]. unfold try_body in Htry.
  destruct (_get_test_cases_for_execution (db w) (execution {| execution := e0; added := ad |}))
    as [| tc0 target0] eqn:Htarget.
  - simpl in Htry. simplify_eq. simpl. rewrite lookup_insert_eq.
    repeat split; try done. by apply prefix_app_r.
  - rewrite <- Htarget in Htry. set (target := _get_test_cases_for_execution _ _) in *.
    cbn [commit update fst snd execution added] in Htry.
    match type of Htry with context [run_loop _ _ _ _ _ _ ?s1 ?w1] =>
      set (s1' := s1) in *; set (w1' := w1) in * end.
    destruct (run_loop env execution_id (length target) 0 target [] s1' w1')
      as [[o1 s2] w2] eqn:Hloop.
    destruct (run_loop_frame _ _ _ _ _ _ _ _ _ _ _ Hloop)
      as (He2 & _ & _ & _ & _ & Htrace2).
    assert (trace w `prefix_of` trace w2) as Hpre2.
    { etrans; [| exact Htrace2]. by apply prefix_app_r. }
    destruct o1 as [rs | msg].
    + destruct (finish_run_any env execution_id rs s2 w2)
        as (o' & w3 & Hfin & Hdb3 & Hc3 & Htrace3 & _).
      rewrite Hfin in Htry. simplify_eq. simpl. rewrite He2, Hdb3. simpl.
      rewrite He2. simpl. rewrite lookup_insert_eq.
      repeat split; try done. by etrans.
    + simplify_eq. rewrite He2. by repeat split.
Qed.




End Bounded.

(** ** Derived stores, the counter invariant, the RUNNING transition and
    cancellation *)

Section Orchestrator.

Implicit Types (env : Env) (w : World) (e : TestExecution.t).

(** The entry point, once the execution has been found. *)
Lemma execute_unfold env execution_id task_id w e :
  executions (db w) !! execution_id = Some e →
  _execute_test_suite_async env execution_id task_id w
  = match redis_error env AtStart with
    | Some msg => (Raised msg, entered e task_id w)
    | None =>
        match try_body env execution_id (mkSession (running_row e task_id (clock w)) [])
                (with_cache (<[CacheKeys.execution_status (str execution_id)
                               := running_snapshot (clock w)]> (cache w))
                            (entered e task_id w)) with
        | (Returned r, _, w') => (Returned r, w')
        | (Raised msg, s, w') => except_handler env execution_id msg s w'
        end
    end.
Proof.
  intros Hlook. unfold _execute_test_suite_async. rewrite Hlook.
  unfold RedisCache.set_json. simpl. by destruct (redis_error env AtStart).
Qed.

Lemma entered_history P execution_id e task_id w :
  P (running_row e task_id (clock w)) →
  history_ok P execution_id w →
  history_ok P execution_id (entered e task_id w).
Proof.
  intros HP HJ.
  eapply (history_ok_commit_store _ _ (mkSession (running_row e task_id (clock w)) []));
    [exact HP | | | exact HJ].
  - reflexivity.
  - unfold commits. simpl. rewrite omap_app. reflexivity.
Qed.




(** C5, as stated, fails.  Within the first run [total_tests] is written
    after RUNNING has been committed, and a second run of the completed
    execution recounts the rows of both runs against the size of one target
    set: 6 counted results for [total_tests = 3]. *)
Lemma rerun_breaks_the_counter_bound :
  ((fun row => (TestExecution.status row, TestExecution.total_tests row))
     <$> commits completed_world)
  = [(ExecutionStatus.RUNNING, 0); (ExecutionStatus.RUNNING, 3); (ExecutionStatus.COMPLETED, 3)]
  ∧ second_run = snd (_execute_test_suite_async (calm all_pass) 1 "job-2" completed_world)
  ∧ ((fun row => (counter_sum row, TestExecution.total_tests row))
       <$> executions (db second_run) !! 1) = Some (6, 3)
  ∧ ¬ (6 <= 3).
Proof. vm_compute. repeat split. by intros H. Qed.

(** C5, amended.  For an execution that has never been run, one invocation
    of the entry point keeps the counter bound in every version of the row
    it commits and in the version it leaves in the store, whatever the
    runner, Redis, MongoDB and concurrent cancellations do. *)
Theorem first_run_keeps_counters_bounded env task_id w e :
  executions (db w) !! TestExecution.id e = Some e →
  never_run e w →
  0 <= TestExecution.total_tests e →
  Forall counters_bounded (commits w) →
  ∃ o w',
    _execute_test_suite_async env (TestExecution.id e) task_id w = (o, w')
    ∧ Forall counters_bounded (commits w')
    ∧ ∀ e', executions (db w') !! TestExecution.id e = Some e' → counters_bounded e'.
Proof.
  intros Hlook (Hnone & Hp & Hf & Hs & Hb & Hx) Htotal Hcommits.
  assert (counter_sum e = 0) as Hzero by (unfold counter_sum; lia).
  assert (history_ok counters_bounded (TestExecution.id e) w) as HJ.
  { split; [done |]. intros e0. rewrite Hlook. intros [= <-].
    unfold counters_bounded. lia. }
  rewrite (execute_unfold _ _ _ _ _ Hlook).
  assert (history_ok counters_bounded (TestExecution.id e) (entered e task_id w)) as HJ1.
  { apply entered_history; [| exact HJ].
    unfold counters_bounded, counter_sum. simpl. lia. }
  destruct (redis_error env AtStart).
  { eexists _, _. split; [reflexivity |]. exact HJ1. }
  match goal with |- context [try_body _ _ ?s1 ?w1] =>
    destruct (try_body env (TestExecution.id e) s1 w1) as [[o s2] w2] eqn:Htry end.
  destruct (try_body_bounded _ _ _ _ _ _ _ Htry eq_refl eq_refl)
    as (HJ2 & HP2 & Hid2 & _).
  { exact Hzero. }
  { unfold results_of in *. simpl. by rewrite app_nil_r. }
  { by eapply history_ok_ext; [| | exact HJ1]. }
  destruct o as [r | msg].
  { eexists _, _. split; [reflexivity |]. exact HJ2. }
  destruct (except_handler_any env (TestExecution.id e) msg s2 w2)
    as (msg' & w3 & -> & Hdb3 & Hc3 & _).
  eexists _, _. split; [reflexivity |].
  eapply (history_ok_commit_store _ _ (mkSession _ (added s2)));
    [| exact Hdb3 | exact Hc3 | exact HJ2].
  by apply counters_bounded_completed_at, counters_bounded_error_message,
    counters_bounded_status.
Qed.

Lemma first_run_keeps_counters_bounded_witness :
  ∃ o w',
    _execute_test_suite_async (redis_down_at (AtProgress 1) second_raises)
      (TestExecution.id queued_execution) "job-1" sample_world = (o, w')
    ∧ Forall counters_bounded (commits w')
    ∧ ∀ e', executions (db w') !! TestExecution.id queued_execution = Some e' →
            counters_bounded e'.
Proof.
  apply (first_run_keeps_counters_bounded (redis_down_at (AtProgress 1) second_raises)
           "job-1" sample_world queued_execution).
  - reflexivity.
  - repeat split; reflexivity.
  - simpl. lia.
  - constructor.
Defined.

(** C10.  Unconditional RUNNING transition.  For an execution that is in
    the store, whatever its status, the first thing the entry point commits
    is the row with status RUNNING, [started_at] set to the current time and
    [celery_task_id] set to the task at hand; and with Redis available the
    run goes on to start a unit of work and add a result row for every test
    case of the target set. *)
Theorem running_transition_is_unconditional env task_id w e :
  executions (db w) !! TestExecution.id e = Some e →
  ∃ o w',
    _execute_test_suite_async env (TestExecution.id e) task_id w = (o, w')
    ∧ (trace w ++ [EvCommit (running_row e task_id (clock w))]) `prefix_of` trace w'
    ∧ TestExecution.status (running_row e task_id (clock w)) = ExecutionStatus.RUNNING
    ∧ TestExecution.started_at (running_row e task_id (clock w)) = Some (clock w)
    ∧ TestExecution.celery_task_id (running_row e task_id (clock w)) = Some task_id
    ∧ (cache_available env →
         ∃ rows,
           results (db w') = results (db w) ++ rows
           ∧ length rows = length (_get_test_cases_for_execution (db w) e)
           ∧ runner_calls w'
             = runner_calls w ++ (TestCase.id <$> _get_test_cases_for_execution (db w) e)).
Proof.
  intros Hlook.
  destruct (_execute_test_suite_async env (TestExecution.id e) task_id w) as [o w'] eqn:Hrun.
  exists o, w'. split; [done |]. split; [| repeat split].
  - rewrite (execute_unfold _ _ _ _ _ Hlook) in Hrun.
    destruct (redis_error env AtStart).
    { by simplify_eq. }
    match type of Hrun with context [try_body _ _ ?s1 ?w1] =>
      destruct (try_body env (TestExecution.id e) s1 w1) as [[o2 s2] w2] eqn:Htry end.
    apply try_body_any in Htry as (_ & Hpre & _). simpl in Hpre.
    destruct o2 as [r | msg]; [by simplify_eq |].
    destruct (except_handler_any env (TestExecution.id e) msg s2 w2)
      as (msg' & w3 & Hh & _ & _ & _ & _ & Hpre3).
    rewrite Hh in Hrun. simplify_eq. by etrans.
  - intros Hredis.
    destruct (execute_returns env _ task_id w e Hredis Hlook eq_refl)
      as (rows & r & w'' & e' & Hrun' & Hrows & Hres & _ & _ & _ & _ & _ & _
          & _ & _ & _ & _ & _ & Hcalls & _).
    rewrite Hrun in Hrun'. simplify_eq.
    exists rows. repeat split; try done. by eapply rows_of_length.
Qed.

Lemma running_transition_is_unconditional_witness :
  TestExecution.status completed_execution = ExecutionStatus.COMPLETED
  ∧ ∃ o w',
      _execute_test_suite_async (calm all_pass) (TestExecution.id completed_execution)
        "job-2" completed_world = (o, w')
      ∧ (trace completed_world
         ++ [EvCommit (running_row completed_execution "job-2" (clock completed_world))])
        `prefix_of` trace w'.
Proof.
  split; [reflexivity |].
  destruct (running_transition_is_unconditional (calm all_pass) "job-2" completed_world
              completed_execution) as (o & w' & Hrun & Hpre & _).
  - vm_compute. reflexivity.
  - exists o, w'. split; [exact Hrun | exact Hpre].
Defined.

(** C3, as stated, fails.  A cancellation committed between the first and
    the second test case does not stop the loop: units of work are started
    for test cases 11 and 13 after CANCELLED has been committed, their
    results are PASSED, not SKIPPED, and the run commits COMPLETED over
    CANCELLED.  Likewise a queued execution that is cancelled before a
    worker picks up its job is run in full afterwards. *)
Lemma cancelled_execution_keeps_running :
  cancelled_mid_run = snd (_execute_test_suite_async cancel_before_second 1 "job-1" sample_world)
  ∧ timeline cancelled_mid_run
    = [inl ExecutionStatus.RUNNING; inl ExecutionStatus.RUNNING; inr 10;
       inl ExecutionStatus.CANCELLED; inr 11; inr 13; inl ExecutionStatus.COMPLETED]
  ∧ (TestCaseResult.status <$> results (db cancelled_mid_run))
    = [TestResultStatus.PASSED; TestResultStatus.PASSED; TestResultStatus.PASSED]
  ∧ (TestExecution.status <$> executions (db cancelled_mid_run) !! 1)
    = Some ExecutionStatus.COMPLETED
  ∧ timeline run_after_cancel
    = [inl ExecutionStatus.CANCELLED; inl ExecutionStatus.RUNNING;
       inl ExecutionStatus.RUNNING; inr 10; inr 11; inr 13; inl ExecutionStatus.COMPLETED].
Proof. vm_compute. by repeat split. Qed.

(** C3, amended.  The loop consults no cancellation flag.  The cancellation
    task creates and changes no result row; and whatever cancellations are
    committed between test cases, a run for which Redis is available starts
    a unit of work for every test case of the target set, adds for each a
    result whose status is PASSED, FAILED or ERROR, never SKIPPED, and ends
    by committing COMPLETED. *)
Theorem cancellation_does_not_stop_the_loop env task_id w e :
  cache_available env →
  executions (db w) !! TestExecution.id e = Some e →
  results (db (snd (_cancel_execution_async env (TestExecution.id e) w))) = results (db w)
  ∧ ∃ r w' e' rows,
      _execute_test_suite_async env (TestExecution.id e) task_id w = (Returned r, w')
      ∧ results (db w') = results (db w) ++ rows
      ∧ length rows = length (_get_test_cases_for_execution (db w) e)
      ∧ Forall (fun row => TestCaseResult.status row
                           ∈ [TestResultStatus.PASSED; TestResultStatus.FAILED;
                              TestResultStatus.ERROR]) rows
      ∧ runner_calls w'
        = runner_calls w ++ (TestCase.id <$> _get_test_cases_for_execution (db w) e)
      ∧ executions (db w') !! TestExecution.id e = Some e'
      ∧ TestExecution.status e' = ExecutionStatus.COMPLETED.
Proof.
  intros Hredis Hlook. split; [apply cancel_frame |].
  destruct (execute_returns env _ task_id w e Hredis Hlook eq_refl)
    as (rows & r & w' & e' & Hrun & Hrows & Hres & _ & _ & Hex & _ & Hst & _
        & _ & _ & _ & _ & _ & Hcalls & _).
  exists r, w', e', rows.
  repeat split; try done; eauto using rows_of_length, rows_of_statuses.
Qed.

Lemma cancellation_does_not_stop_the_loop_witness :
  cancel_before cancel_before_second 1 = true
  ∧ ∃ r w' e' rows,
      _execute_test_suite_async cancel_before_second (TestExecution.id queued_execution)
        "job-1" sample_world = (Returned r, w')
      ∧ results (db w') = results (db sample_world) ++ rows
      ∧ length rows = length (_get_test_cases_for_execution (db sample_world) queued_execution)
      ∧ Forall (fun row => TestCaseResult.status row
                           ∈ [TestResultStatus.PASSED; TestResultStatus.FAILED;
                              TestResultStatus.ERROR]) rows
      ∧ runner_calls w'
        = runner_calls sample_world
          ++ (TestCase.id <$> _get_test_cases_for_execution (db sample_world) queued_execution)
      ∧ executions (db w') !! TestExecution.id queued_execution = Some e'
      ∧ TestExecution.status e' = ExecutionStatus.COMPLETED.
Proof.
  split; [reflexivity |].
  apply (cancellation_does_not_stop_the_loop cancel_before_second "job-1" sample_world
           queued_execution).
  - intros site. reflexivity.
  - reflexivity.
Defined.

End Orchestrator.


(** * Further properties

    ** Target-set resolution *)

Section TargetSet.

Implicit Types (st : Store) (e : TestExecution.t) (tc : TestCase.t).

(** X1.  Without a suite (or with suite id 0, which Python takes as
    false) the target set is the list of test cases of the store, in their
    order, reduced to the active ones of the execution's project. *)
Theorem project_target_is_the_active_cases st e :
  (TestExecution.test_suite_id e = None ∨ TestExecution.test_suite_id e = Some 0) →
  _get_test_cases_for_execution st e `sublist_of` test_cases st
  ∧ ∀ tc, tc ∈ _get_test_cases_for_execution st e
          ↔ tc ∈ test_cases st
            ∧ TestCase.project_id tc = TestExecution.project_id e
            ∧ TestCase.status tc = TestCaseStatus.ACTIVE.
Proof.
  intros Hsuite.
  assert (_get_test_cases_for_execution st e
          = filter (λ tc, TestCase.project_id tc = TestExecution.project_id e
                          ∧ TestCase.status tc = TestCaseStatus.ACTIVE) (test_cases st)) as ->.
  { unfold _get_test_cases_for_execution. by destruct Hsuite as [-> | ->]. }
  split; [apply sublist_filter |].
  intros tc. by rewrite list_elem_of_filter, (comm and).
Qed.

Lemma project_target_is_the_active_cases_witness :
  _get_test_cases_for_execution (db sample_world) queued_execution
  `sublist_of` test_cases (db sample_world).
Proof.
  apply (project_target_is_the_active_cases (db sample_world) queued_execution).
  by left.
Defined.

(** X2.  With a suite the status and the project of a test case play no
    part: the target set holds exactly the test cases of the store that the
    association table attaches to the suite. *)
Theorem suite_target_is_the_suite_members st e suite :
  TestExecution.test_suite_id e = Some suite →
  suite ≠ 0 →
  ∀ tc, tc ∈ _get_test_cases_for_execution st e
        ↔ tc ∈ test_cases st ∧ (suite, TestCase.id tc) ∈ suite_test_cases st.
Proof.
  intros Hsuite Hne tc. unfold _get_test_cases_for_execution. rewrite Hsuite.
  destruct (Z.eqb_spec suite 0) as [? | _]; [done |].
  rewrite list_elem_of_bind. split.
  - intros (tc' & Hin & Htc'). apply list_elem_of_bind in Hin as (a & Hin & _).
    case_bool_decide as Hmem; [| by apply elem_of_nil in Hin].
    apply list_elem_of_singleton in Hin as ->. done.
  - intros [Htc Hmem]. exists tc. split; [| done].
    apply list_elem_of_bind. exists (suite, TestCase.id tc). split.
    + rewrite bool_decide_eq_true_2 by done. by apply list_elem_of_singleton.
    + by apply list_elem_of_filter.
Qed.

Lemma suite_target_is_the_suite_members_witness :
  TestCase.mk 30 9 TestCaseStatus.DRAFT
    ∈ _get_test_cases_for_execution (db suite_world) suite_execution
  ↔ TestCase.mk 30 9 TestCaseStatus.DRAFT ∈ test_cases (db suite_world)
    ∧ (5, TestCase.id (TestCase.mk 30 9 TestCaseStatus.DRAFT))
      ∈ suite_test_cases (db suite_world).
Proof.
  apply (suite_target_is_the_suite_members (db suite_world) suite_execution 5).
  - reflexivity.
  - discriminate.
Defined.

Lemma bind_constant {A B} (l : list A) (k : list B) :
  l ≫= (λ _, k) = concat (replicate (length l) k).
Proof. induction l as [| a l IH]; [done |]. by rewrite bind_cons, IH. Qed.

Lemma two_members_length {A} (l : list A) (x y : A) :
  x ∈ l → y ∈ l → x ≠ y → (2 ≤ length l)%nat.
Proof.
  intros Hx Hy Hne. destruct l as [| a [| b l]]; simpl; [| | lia].
  - by apply elem_of_nil in Hx.
  - apply list_elem_of_singleton in Hx, Hy. congruence.
Qed.

(** X3.  The suite branch is a join: a test case of the suite that is
    attached to another suite as well comes out of target-set resolution
    at least twice. *)
Theorem shared_test_case_is_targeted_twice st e suite other tc :
  TestExecution.test_suite_id e = Some suite →
  suite ≠ 0 →
  tc ∈ test_cases st →
  (suite, TestCase.id tc) ∈ suite_test_cases st →
  (other, TestCase.id tc) ∈ suite_test_cases st →
  other ≠ suite →
  (2 ≤ length (filter (λ t, t = tc) (_get_test_cases_for_execution st e)))%nat.
Proof.
  intros Hsuite Hne Htc Hmem Hother Hdiff.
  unfold _get_test_cases_for_execution. rewrite Hsuite.
  destruct (Z.eqb_spec suite 0) as [? | _]; [done |].
  apply list_elem_of_split in Htc as (l1 & l2 & ->).
  rewrite bind_app, bind_cons, !filter_app, !length_app.
  rewrite bind_constant, bool_decide_eq_true_2 by done.
  set (k := length (filter (λ a, a.2 = TestCase.id tc) (suite_test_cases st))).
  assert (2 ≤ k)%nat as Hk.
  { apply (two_members_length _ (suite, TestCase.id tc) (other, TestCase.id tc)).
    - by apply list_elem_of_filter.
    - by apply list_elem_of_filter.
    - congruence. }
  assert (filter (λ t, t = tc) (concat (replicate k [tc])) = replicate k tc) as ->.
  { clear. induction k as [| k IH]; [done |]. simpl.
    rewrite filter_cons_True by done. by rewrite IH. }
  rewrite length_replicate. lia.
Qed.

Lemma shared_test_case_is_targeted_twice_witness :
  (2 ≤ length (filter (λ t, t = TestCase.mk 30 9 TestCaseStatus.DRAFT)
                 (_get_test_cases_for_execution (db suite_world) suite_execution)))%nat.
Proof.
  apply (shared_test_case_is_targeted_twice (db suite_world) suite_execution 5 6).
  - reflexivity.
  - discriminate.
  - by apply (bool_decide_unpack _).
  - by apply (bool_decide_unpack _).
  - by apply (bool_decide_unpack _).
  - discriminate.
Defined.

End TargetSet.


(** ** What a run touches *)

Section Footprint.

Implicit Types (env : Env) (w : World) (s : Session) (e : TestExecution.t).

#[local] Arguments count_status : simpl never.
#[local] Arguments rows_for : simpl never.
#[local] Arguments completed_row : simpl never.
#[local] Arguments failed_row : simpl never.
#[local] Arguments running_row : simpl never.
#[local] Arguments TestExecution.pass_rate : simpl never.
#[local] Arguments CacheKeys.execution_status : simpl never.
#[local] Arguments str : simpl never.

Lemma elsewhere_untouched_refl execution_id w : elsewhere_untouched execution_id w w.
Proof. by repeat split. Qed.

Lemma elsewhere_untouched_trans execution_id w1 w2 w3 :
  elsewhere_untouched execution_id w1 w2 →
  elsewhere_untouched execution_id w2 w3 →
  elsewhere_untouched execution_id w1 w3.
Proof.
  intros (H1 & H2 & H3 & H4 & H5) (G1 & G2 & G3 & G4 & G5).
  split; [intros k Hk; by rewrite G1, H1 |].
  split; [congruence |]. split; [congruence |].
  split; [intros key Hk; by rewrite G4, H4 | lia].
Qed.

(** Committing a session whose row is the one of [execution_id]. *)
Lemma commit_elsewhere execution_id s w :
  TestExecution.id (execution s) = execution_id →
  elsewhere_untouched execution_id w (snd (commit s w))
  ∧ row_in_place execution_id (snd (commit s w))
  ∧ results (db (snd (commit s w))) = results (db w) ++ added s.
Proof.
  intros Hid. simpl. split; [| split; [| done]].
  - split; [| by repeat split].
    intros k Hk. simpl. rewrite lookup_insert_ne; [done | congruence].
  - exists (execution s). simpl. by rewrite Hid, lookup_insert_eq.
Qed.

Lemma cancel_elsewhere env execution_id w :
  row_in_place execution_id w →
  elsewhere_untouched execution_id w (snd (_cancel_execution_async env execution_id w))
  ∧ row_in_place execution_id (snd (_cancel_execution_async env execution_id w)).
Proof.
  intros (e & Hlook & Hid). unfold _cancel_execution_async. rewrite Hlook.
  destruct (negb _).
  { split; [apply elsewhere_untouched_refl | by exists e]. }
  unfold RedisCache.delete. simpl.
  destruct (redis_error env AtCancel); simpl.
  - split.
    + split; [| repeat split; simpl; try done; lia].
      intros k Hk. simpl. rewrite lookup_insert_ne; [done | congruence].
    + eexists. simpl. rewrite Hid, lookup_insert_eq. by split.
  - split.
    + split; [| repeat split; simpl; try done; try lia].
      * intros k Hk. simpl. rewrite lookup_insert_ne; [done | congruence].
      * intros key Hk. by rewrite lookup_delete_ne.
    + eexists. simpl. rewrite Hid, lookup_insert_eq. by split.
Qed.

(** The shape of the row [_execute_single_test] writes. *)
Lemma execute_single_test_shape env idx tc s w :
  ∃ r w',
    _execute_single_test env idx tc s w = (r, add_result r s, w')
    ∧ row_shape (TestExecution.id (execution s)) (TestExecution.environment (execution s)) r
    ∧ db w' = db w ∧ cache w' = cache w ∧ clock w <= clock w'.
Proof.
  unfold _execute_single_test, row_shape. simpl.
  destruct (runner env idx) as [[] | msg]; simpl;
    eexists _, _; (split; [reflexivity |]); simpl.
  all: split; [| split; [done | split; [done | lia]]].
  all: split; [done |]; split; [done |].
  all: split; [rewrite !elem_of_cons; tauto |].
  all: split; [split; congruence |]; split; [split; congruence |].
  all: eexists _, _; repeat split; lia.
Qed.

(** The loop, however it ends. *)
Lemma run_loop_footprint env execution_id total todo :
  ∀ idx acc s w o s' w',
    run_loop env execution_id total idx todo acc s w = (o, s', w') →
    row_in_place execution_id w →
    elsewhere_untouched execution_id w w'
    ∧ row_in_place execution_id w'
    ∧ ∃ rows,
        added s' = added s ++ rows
        ∧ Forall (row_shape (TestExecution.id (execution s))
                            (TestExecution.environment (execution s))) rows
        ∧ (length rows ≤ length todo)%nat.
Proof.
  induction todo as [| tc todo IH]; intros idx acc s w o s' w' Hrun Hrow.
  - simpl in Hrun. simplify_eq. split; [apply elsewhere_untouched_refl |].
    split; [done |]. exists []. by rewrite app_nil_r.
  - cbn [run_loop] in Hrun.
    assert (elsewhere_untouched execution_id w (other_workers env execution_id idx w)
            ∧ row_in_place execution_id (other_workers env execution_id idx w)) as [He0 Hrow0].
    { unfold other_workers. destruct (cancel_before env idx).
      - by apply cancel_elsewhere.
      - split; [apply elsewhere_untouched_refl | done]. }
    set (w0 := other_workers env execution_id idx w) in *.
    destruct (execute_single_test_shape env idx tc s w0)
      as (r & w1 & Heq & Hshape & Hdb & Hcache & Hclock).
    rewrite Heq in Hrun. unfold RedisCache.set_json in Hrun.
    assert (elsewhere_untouched execution_id w w1) as He1.
    { eapply elsewhere_untouched_trans; [exact He0 |].
      unfold elsewhere_untouched. rewrite Hdb, Hcache. by repeat split. }
    assert (row_in_place execution_id w1) as Hrow1.
    { unfold row_in_place. by rewrite Hdb. }
    destruct (redis_error env (AtProgress idx)).
    + simplify_eq. split; [done |]. split; [done |].
      exists [r]. simpl. repeat split; [by constructor | lia].
    + match type of Hrun with context [run_loop _ _ _ _ _ _ _ ?w2] =>
        set (w2' := w2) in * end.
      assert (elsewhere_untouched execution_id w1 w2') as He2.
      { subst w2'. split; [done |]. split; [done |]. split; [done |].
        split; [| simpl; lia]. intros key Hk. simpl. by rewrite lookup_insert_ne. }
      destruct (IH _ _ _ _ _ _ _ Hrun) as (He3 & Hrow3 & rows & Hadded & Hshapes & Hlen).
      { done. }
      split; [| split; [done |]].
      * eapply elsewhere_untouched_trans; [exact He1 |].
        eapply elsewhere_untouched_trans; [exact He2 | exact He3].
      * exists (r :: rows). simpl in *. rewrite <- app_assoc in Hadded.
        split; [done |]. split; [by constructor | lia].
Qed.

Lemma finish_run_footprint env execution_id rs s w :
  ∃ o e' w',
    finish_run env execution_id rs s w = (o, mkSession e' [], w')
    ∧ same_identity (execution s) e'
    ∧ db w' = commit_store (mkSession e' (added s)) (db w)
    ∧ (∀ key, key ≠ CacheKeys.execution_status (str execution_id) →
         cache w' !! key = cache w !! key)
    ∧ clock w <= clock w'
    ∧ (execution_logs w' = execution_logs w
       ∨ ∃ doc r, execution_logs w' = execution_logs w ++ [doc] ∧ o = Returned r).
Proof.
  destruct s as [e0 ad].
  unfold finish_run, RedisCache.set_json, _store_execution_logs,
    _update_execution_summary, select_results. simpl.
  destruct (redis_error env AtCompleted) as [msg |]; [| destruct (mongo_error env)];
    eexists _, _, _; (split; [reflexivity |]); simpl.
  - repeat split; eauto. lia.
  - repeat split; eauto; try lia. intros key Hk. by rewrite lookup_insert_ne.
  - repeat split; eauto; try lia. intros key Hk. by rewrite lookup_insert_ne.
Qed.

Lemma except_handler_footprint env execution_id msg s w :
  ∃ msg' e' w',
    except_handler env execution_id msg s w = (Raised msg', w')
    ∧ same_identity (execution s) e'
    ∧ TestExecution.status e' = ExecutionStatus.FAILED
    ∧ TestExecution.error_message e' = Some msg
    ∧ is_Some (TestExecution.completed_at e')
    ∧ db w' = commit_store (mkSession e' (added s)) (db w)
    ∧ (∀ key, key ≠ CacheKeys.execution_status (str execution_id) →
         cache w' !! key = cache w !! key)
    ∧ clock w <= clock w'
    ∧ execution_logs w' = execution_logs w
    ∧ (redis_error env AtFailed = None →
         msg' = msg
         ∧ cache w' !! CacheKeys.execution_status (str execution_id)
           = Some (JDict [("status", JStr "failed"); ("error", JStr msg)])).
Proof.
  destruct s as [e0 ad]. unfold except_handler, RedisCache.set_json. simpl.
  destruct (redis_error env AtFailed);
    eexists _, (failed_row e0 msg (clock w)), _; (split; [reflexivity |]); simpl.
  - repeat split; eauto; try lia; try done.
  - repeat split; eauto; try lia.
    + intros key Hk. by rewrite lookup_insert_ne.
    + by rewrite lookup_insert_eq.
Qed.

Lemma same_identity_trans e1 e2 e3 :
  same_identity e1 e2 → same_identity e2 e3 → same_identity e1 e3.
Proof. unfold same_identity. intros (?&?&?&?) (?&?&?&?). repeat split; congruence. Qed.

Lemma commit_store_elsewhere execution_id s w w' :
  TestExecution.id (execution s) = execution_id →
  db w' = commit_store s (db w) →
  (∀ key, key ≠ CacheKeys.execution_status (str execution_id) →
     cache w' !! key = cache w !! key) →
  clock w <= clock w' →
  elsewhere_untouched execution_id w w' ∧ row_in_place execution_id w'.
Proof.
  intros Hid Hdb Hcache Hclock. split.
  - split; [| rewrite Hdb; by repeat split].
    intros k Hk. rewrite Hdb. simpl. rewrite lookup_insert_ne; [done | congruence].
  - exists (execution s). rewrite Hdb. simpl. by rewrite Hid, lookup_insert_eq.
Qed.

(** The body of the [try], however it ends. *)
Lemma try_body_footprint env execution_id s w o s' w' :
  try_body env execution_id s w = (o, s', w') →
  TestExecution.id (execution s) = execution_id →
  added s = [] →
  elsewhere_untouched execution_id w w'
  ∧ row_in_place execution_id w'
  ∧ same_identity (execution s) (execution s')
  ∧ (∃ rows,
       results (db w') ++ added s' = results (db w) ++ rows
       ∧ Forall (row_shape execution_id (TestExecution.environment (execution s))) rows
       ∧ (length rows ≤ length (_get_test_cases_for_execution (db w) (execution s)))%nat)
  ∧ (execution_logs w' = execution_logs w
     ∨ ∃ doc r, execution_logs w' = execution_logs w ++ [doc] ∧ o = Returned r).
Proof.
  intros Htry Hid Hadded. destruct s as [e0 ad]. simpl in Hid, Hadded. subst ad.
  subst execution_id. unfold try_body in Htry.
  destruct (_get_test_cases_for_execution (db w) (execution {| execution := e0; added := [] |}))
    as [| tc0 target0] eqn:Htarget.
  - simpl in Htry. simplify_eq. simpl.
    split.
    { split; [| repeat split; simpl; try done; lia].
      intros k Hk. simpl. rewrite lookup_insert_ne; [done | congruence]. }
    split.
    { eexists. simpl. rewrite lookup_insert_eq. by split. }
    split; [done |]. split; [| by left].
    exists []. by rewrite !app_nil_r.
  - rewrite <- Htarget in Htry. simpl in Htarget.
    set (target := _get_test_cases_for_execution _ _) in *.
    cbn [commit update fst snd execution added] in Htry.
    set (e1 := TestExecution.with_total_tests (Z.of_nat (length target)) e0) in *.
    match type of Htry with context [run_loop _ _ _ _ _ _ ?s1 ?w1] =>
      set (s1' := s1) in *; set (w1' := w1) in * end.
    destruct (commit_store_elsewhere (TestExecution.id e0) (mkSession e1 []) w w1')
      as [He1 Hrow1]; [done | done | done | simpl; lia |].
    destruct (run_loop env (TestExecution.id e0) (length target) 0 target [] s1' w1')
      as [[o1 s2] w2] eqn:Hloop.
    destruct (run_loop_footprint _ _ _ _ _ _ _ _ _ _ _ Hloop Hrow1)
      as (He2 & Hrow2 & rows & Hadded2 & Hshapes & Hlen).
    destruct (run_loop_frame _ _ _ _ _ _ _ _ _ _ _ Hloop)
      as (Hex2 & Hres2 & _ & _ & Hlogs2 & _).
    simpl in Hadded2, Hshapes, Hres2, Hlogs2. rewrite app_nil_r in Hres2.
    subst rows.
    destruct o1 as [rs | msg].
    + destruct (finish_run_footprint env (TestExecution.id e0) rs s2 w2)
        as (o' & e' & w3 & Hfin & Hsame & Hdb3 & Hcache3 & Hclock3 & Hlogs3).
      rewrite Hfin in Htry. simplify_eq.
      destruct Hsame as (Hid3 & Hp3 & Hs3 & Henv3). rewrite Hex2 in Hid3, Hp3, Hs3, Henv3.
      destruct (commit_store_elsewhere (TestExecution.id e0) (mkSession e' (added s2)) w2 w')
        as [He3 Hrow3]; [done | done | done | done |].
      split; [by do 2 (eapply elsewhere_untouched_trans; [eassumption |]) |].
      split; [done |]. split; [done |]. split.
      * exists (added s2). rewrite Hdb3. simpl. rewrite Hres2, app_nil_r.
        split; [done |]. split; [exact Hshapes |].
        rewrite Htarget in Hlen. exact Hlen.
      * rewrite <- Hlogs2. exact Hlogs3.
    + simplify_eq.
      split; [by eapply elsewhere_untouched_trans |].
      split; [done |]. split; [by rewrite Hex2 |]. split; [| by left].
      exists (added s'). rewrite Hres2.
      split; [done |]. split; [exact Hshapes |].
      rewrite Htarget in Hlen. exact Hlen.
Qed.

End Footprint.


(** ** Isolation, row shapes and store invariants *)

Section Isolation.

Implicit Types (env : Env) (w : World) (s : Session) (e : TestExecution.t).

(** Cache keys of distinct executions are distinct. *)
Lemma execution_status_key_inj (a b : Z) :
  CacheKeys.execution_status (str a) = CacheKeys.execution_status (str b) → a = b.
Proof.
  unfold CacheKeys.execution_status, str. intros H.
  apply (inj (String.app _)) in H. by apply (inj pretty) in H.
Qed.

Lemma entered_elsewhere execution_id e task_id w :
  TestExecution.id e = execution_id →
  elsewhere_untouched execution_id w (entered e task_id w)
  ∧ executions (db (entered e task_id w)) !! execution_id
    = Some (running_row e task_id (clock w))
  ∧ results (db (entered e task_id w)) = results (db w)
  ∧ execution_logs (entered e task_id w) = execution_logs w
  ∧ cache (entered e task_id w) = cache w.
Proof.
  intros Hid. unfold entered. simpl. rewrite Hid, lookup_insert_eq, app_nil_r.
  split; [| done]. split; [| repeat split; simpl; try done; lia].
  intros k Hk. simpl. rewrite lookup_insert_ne; [done | congruence].
Qed.

Lemma try_body_returned_clean env execution_id s w r s' w' :
  try_body env execution_id s w = (Returned r, s', w') → added s' = [].
Proof.
  unfold try_body.
  destruct (_get_test_cases_for_execution (db w) (execution s)) as [| tc0 target0].
  - simpl. intros ?. by simplify_eq.
  - cbn [commit update fst snd execution added].
    match goal with |- context [run_loop ?a ?b ?c ?d ?f ?g ?h ?i] =>
      destruct (run_loop a b c d f g h i) as [[[rs | m] s3] w3] end; [| done].
    destruct (finish_run_footprint env execution_id rs s3 w3)
      as (o' & e' & w4 & Hfin & _).
    rewrite Hfin. intros ?. by simplify_eq.
Qed.

(** The entry point, however it ends. *)
Lemma execute_footprint env execution_id task_id w e :
  executions (db w) !! execution_id = Some e →
  TestExecution.id e = execution_id →
  ∃ o w' e' rows,
    _execute_test_suite_async env execution_id task_id w = (o, w')
    ∧ elsewhere_untouched execution_id w w'
    ∧ executions (db w') !! execution_id = Some e'
    ∧ same_identity e e'
    ∧ results (db w') = results (db w) ++ rows
    ∧ Forall (row_shape execution_id (TestExecution.environment e)) rows
    ∧ (length rows ≤ length (_get_test_cases_for_execution (db w) e))%nat
    ∧ (execution_logs w' = execution_logs w
       ∨ ∃ doc r, execution_logs w' = execution_logs w ++ [doc] ∧ o = Returned r)
    ∧ (∀ msg, o = Raised msg →
         rows = [] ∧ TestExecution.status e' = ExecutionStatus.RUNNING
         ∨ TestExecution.status e' = ExecutionStatus.FAILED
           ∧ is_Some (TestExecution.error_message e')
           ∧ is_Some (TestExecution.completed_at e')).
Proof.
  intros Hlook Hid. rewrite (execute_unfold _ _ _ _ _ Hlook).
  destruct (entered_elsewhere execution_id e task_id w Hid)
    as (He0' & Hex0 & Hres0 & Hlogs0 & Hcache0).
  destruct (redis_error env AtStart).
  { exists (Raised s), (entered e task_id w), (running_row e task_id (clock w)), [].
    split; [done |]. split; [done |]. split; [done |].
    rewrite app_nil_r. repeat split; try done; [simpl; lia | by left | intros; by left]. }
  match goal with |- context [try_body _ _ ?s1 ?w1] =>
    destruct (try_body env execution_id s1 w1) as [[o s2] w2] eqn:Htry end.
  match type of Htry with try_body _ _ _ ?w1 = _ =>
    assert (elsewhere_untouched execution_id w w1) as He1 end.
  { eapply elsewhere_untouched_trans; [exact He0' |].
    split; [done |]. split; [done |]. split; [done |].
    split; [| simpl; lia]. intros key Hk. simpl. by rewrite lookup_insert_ne. }
  destruct (try_body_footprint _ _ _ _ _ _ _ Htry Hid eq_refl)
    as (He2 & Hrow2 & Hsame2 & (rows & Hres2 & Hshapes & Hlen) & Hlogs2).
  destruct (try_body_any _ _ _ _ _ _ _ Htry) as (_ & _ & Hret).
  match type of Hlen with context [_get_test_cases_for_execution ?st ?ex] =>
    assert (_get_test_cases_for_execution st ex
            = _get_test_cases_for_execution (db w) e) as Htarget
      by (by apply get_test_cases_ext) end.
  rewrite Htarget in Hlen.
  change (results (db (with_cache _ (entered e task_id w))))
    with (results (db (entered e task_id w))) in Hres2.
  change (execution_logs (with_cache _ (entered e task_id w)))
    with (execution_logs (entered e task_id w)) in Hlogs2.
  rewrite Hres0 in Hres2. rewrite Hlogs0 in Hlogs2.
  cbn [execution added] in Hshapes, Hsame2, Hret.
  change (TestExecution.environment (running_row e task_id (clock w)))
    with (TestExecution.environment e) in Hshapes.
  change (TestExecution.id (running_row e task_id (clock w)))
    with (TestExecution.id e) in Hret.
  destruct o as [r | msg].
  - destruct (Hret r eq_refl) as [Hst Hex]. rewrite Hid in Hex.
    pose proof (try_body_returned_clean _ _ _ _ _ _ _ Htry) as Hnil.
    rewrite Hnil, app_nil_r in Hres2.
    exists (Returned r), w2, (execution s2), rows.
    split; [done |]. split; [by eapply elsewhere_untouched_trans |].
    split; [done |]. split; [done |]. split; [done |]. split; [done |]. split; [done |].
    split; [done | by intros].
  - destruct (except_handler_footprint env execution_id msg s2 w2)
      as (msg' & e' & w3 & -> & Hsame3 & Hst3 & Herr3 & Hdone3 & Hdb3 & Hcache3 & Hclock3
          & Hlogs3 & _).
    assert (TestExecution.id (execution s2) = execution_id) as Hid2.
    { destruct Hsame2 as (-> & _). done. }
    assert (TestExecution.id e' = execution_id) as Hid3.
    { destruct Hsame3 as (-> & _). done. }
    destruct (commit_store_elsewhere execution_id (mkSession e' (added s2)) w2 w3)
      as [He3 _]; [done | done | done | done |].
    exists (Raised msg'), w3, e', rows.
    split; [done |].
    split; [by do 2 (eapply elsewhere_untouched_trans; [eassumption |]) |].
    split; [rewrite Hdb3; simpl; by rewrite Hid3, lookup_insert_eq |].
    split; [by eapply same_identity_trans |].
    split; [rewrite Hdb3; simpl; exact Hres2 |].
    split; [done |]. split; [done |].
    split; [left; destruct Hlogs2 as [<- | (? & ? & _ & ?)]; done |].
    intros m _. right. rewrite Herr3. eauto.
Qed.

(** X4.  A run works on its own execution only.  However it ends, it
    leaves every other execution row, the test cases and the suite
    memberships as they were, it leaves the progress snapshot of every
    other execution as it was, it keeps the identity columns of its own
    row, and it changes no existing result row: the result table only
    grows, by rows of this execution. *)
Theorem run_touches_only_its_execution env task_id w e :
  executions (db w) !! TestExecution.id e = Some e →
  ∃ o w' e' rows,
    _execute_test_suite_async env (TestExecution.id e) task_id w = (o, w')
    ∧ (∀ k, k ≠ TestExecution.id e → executions (db w') !! k = executions (db w) !! k)
    ∧ (∀ k, k ≠ TestExecution.id e →
         cache w' !! CacheKeys.execution_status (str k)
         = cache w !! CacheKeys.execution_status (str k))
    ∧ test_cases (db w') = test_cases (db w)
    ∧ suite_test_cases (db w') = suite_test_cases (db w)
    ∧ executions (db w') !! TestExecution.id e = Some e'
    ∧ same_identity e e'
    ∧ results (db w') = results (db w) ++ rows
    ∧ Forall (λ r, TestCaseResult.execution_id r = TestExecution.id e) rows.
Proof.
  intros Hlook.
  destruct (execute_footprint env _ task_id w e Hlook eq_refl)
    as (o & w' & e' & rows & Hrun & (He & Htc & Hsuite & Hcache & _) & Hex & Hsame & Hres
        & Hshapes & _).
  exists o, w', e', rows.
  split; [done |]. split; [done |]. split.
  { intros k Hk. apply Hcache. intros Heq. by apply execution_status_key_inj in Heq. }
  split; [done |]. split; [done |]. split; [done |]. split; [done |]. split; [done |].
  eapply Forall_impl; [exact Hshapes |]. by intros r (? & _).
Qed.

Lemma run_touches_only_its_execution_witness :
  ∃ o w' e' rows,
    _execute_test_suite_async cancel_before_second (TestExecution.id queued_execution)
      "job-1" sample_world = (o, w')
    ∧ (∀ k, k ≠ TestExecution.id queued_execution →
         executions (db w') !! k = executions (db sample_world) !! k)
    ∧ (∀ k, k ≠ TestExecution.id queued_execution →
         cache w' !! CacheKeys.execution_status (str k)
         = cache sample_world !! CacheKeys.execution_status (str k))
    ∧ test_cases (db w') = test_cases (db sample_world)
    ∧ suite_test_cases (db w') = suite_test_cases (db sample_world)
    ∧ executions (db w') !! TestExecution.id queued_execution = Some e'
    ∧ same_identity queued_execution e'
    ∧ results (db w') = results (db sample_world) ++ rows
    ∧ Forall (λ r, TestCaseResult.execution_id r = TestExecution.id queued_execution) rows.
Proof.
  apply (run_touches_only_its_execution cancel_before_second "job-1" sample_world
           queued_execution).
  reflexivity.
Defined.



(** X6.  The log store receives at most one document per run, and only
    from a run that returns: a run that raises writes nothing to it, and
    leaves the execution RUNNING with no row added (the first snapshot
    failed) or FAILED with an error message and [completed_at]. *)
Theorem raising_run_logs_nothing env task_id w e :
  executions (db w) !! TestExecution.id e = Some e →
  ∃ o w' e',
    _execute_test_suite_async env (TestExecution.id e) task_id w = (o, w')
    ∧ executions (db w') !! TestExecution.id e = Some e'
    ∧ (execution_logs w' = execution_logs w
       ∨ ∃ doc r, execution_logs w' = execution_logs w ++ [doc] ∧ o = Returned r)
    ∧ (∀ msg, o = Raised msg →
         execution_logs w' = execution_logs w
         ∧ (results (db w') = results (db w)
            ∧ TestExecution.status e' = ExecutionStatus.RUNNING
            ∨ TestExecution.status e' = ExecutionStatus.FAILED
              ∧ is_Some (TestExecution.error_message e')
              ∧ is_Some (TestExecution.completed_at e'))).
Proof.
  intros Hlook.
  destruct (execute_footprint env _ task_id w e Hlook eq_refl)
    as (o & w' & e' & rows & Hrun & _ & Hex & _ & Hres & _ & _ & Hlogs & Hraised).
  exists o, w', e'. split; [done |]. split; [done |]. split; [done |].
  intros msg ->. split.
  - by destruct Hlogs as [? | (? & ? & _ & ?)].
  - destruct (Hraised msg eq_refl) as [[-> ?] | ?]; [left | by right].
    by rewrite app_nil_r in Hres.
Qed.

Lemma raising_run_logs_nothing_witness :
  ∃ o w' e',
    _execute_test_suite_async (redis_down_at AtCompleted all_pass)
      (TestExecution.id queued_execution) "job-1" sample_world = (o, w')
    ∧ executions (db w') !! TestExecution.id queued_execution = Some e'
    ∧ (execution_logs w' = execution_logs sample_world
       ∨ ∃ doc r, execution_logs w' = execution_logs sample_world ++ [doc] ∧ o = Returned r)
    ∧ (∀ msg, o = Raised msg →
         execution_logs w' = execution_logs sample_world
         ∧ (results (db w') = results (db sample_world)
            ∧ TestExecution.status e' = ExecutionStatus.RUNNING
            ∨ TestExecution.status e' = ExecutionStatus.FAILED
              ∧ is_Some (TestExecution.error_message e')
              ∧ is_Some (TestExecution.completed_at e'))).
Proof.
  apply (raising_run_logs_nothing (redis_down_at AtCompleted all_pass) "job-1" sample_world
           queued_execution).
  reflexivity.
Defined.

(** X7.  The task and its failure callback.  Whenever the Celery task
    [execute_test_suite] raises, the failure callback has printed its line
    about the failure, and the execution keeps its identity columns.  If
    the session of the callback can be used, the execution is left FAILED,
    also when the run had left it RUNNING, with the message of the
    exception as error message and [completed_at] set.  If that session
    raises, the callback writes nothing: the store is as the run left it,
    so an execution whose first snapshot was refused stays RUNNING, with no
    result row added, and any other is FAILED by the handler of the run. *)
Theorem failure_callback_after_a_raising_task env callback_db request_id w e msg w' :
  executions (db w) !! TestExecution.id e = Some e →
  execute_test_suite env callback_db request_id (TestExecution.id e) w = (Raised msg, w') →
  ∃ e',
    executions (db w') !! TestExecution.id e = Some e'
    ∧ same_identity e e'
    ∧ EvPrint ("Task " +:+ request_id +:+ " failed: " +:+ msg) ∈ trace w'
    ∧ (callback_db = None →
         TestExecution.status e' = ExecutionStatus.FAILED
         ∧ TestExecution.error_message e' = Some msg
         ∧ is_Some (TestExecution.completed_at e'))
    ∧ (is_Some callback_db →
         db w' = db (snd (_execute_test_suite_async env (TestExecution.id e) request_id w))
         ∧ (TestExecution.status e' = ExecutionStatus.RUNNING
            ∧ results (db w') = results (db w)
            ∨ TestExecution.status e' = ExecutionStatus.FAILED
              ∧ is_Some (TestExecution.error_message e')
              ∧ is_Some (TestExecution.completed_at e'))).
Proof.
  intros Hlook Htask. unfold execute_test_suite in Htask.
  destruct (execute_footprint env _ request_id w e Hlook eq_refl)
    as (o & w1 & e1 & rows & Hrun & _ & Hex & Hsame & Hres & _ & _ & _ & Hraised).
  rewrite Hrun in Htask. rewrite Hrun. destruct o as [r | exc]; [done |].
  injection Htask as <- <-.
  unfold on_failure, _mark_execution_failed, print.
  destruct callback_db as [failure |]; simpl.
  - exists e1. split; [done |]. split; [done |].
    split; [rewrite elem_of_app, list_elem_of_singleton; by right |].
    split; [done |]. intros _. split; [done |].
    destruct (Hraised exc eq_refl) as [[-> Hst] | Hfailed]; [left | by right].
    split; [done |]. by rewrite Hres, app_nil_r.
  - rewrite Hex. simpl.
    destruct Hsame as (Hid & Hp & Hs & Henv). rewrite Hid, lookup_insert_eq.
    eexists. split; [reflexivity |]. simpl.
    split; [done |].
    split; [rewrite !elem_of_app, !list_elem_of_singleton; by left; right |].
    split; [by eauto |]. by intros [? ?].
Qed.

Lemma failure_callback_after_a_raising_task_witness :
  ∃ e',
    executions (db (snd (execute_test_suite (redis_down_at AtStart all_pass)
                           (Some "Event loop is closed") "job-1"
                           (TestExecution.id queued_execution) sample_world)))
      !! TestExecution.id queued_execution = Some e'
    ∧ same_identity queued_execution e'
    ∧ EvPrint ("Task " +:+ "job-1" +:+ " failed: " +:+ "redis unreachable")
      ∈ trace (snd (execute_test_suite (redis_down_at AtStart all_pass)
                      (Some "Event loop is closed") "job-1"
                      (TestExecution.id queued_execution) sample_world))
    ∧ (Some "Event loop is closed" = None →
         TestExecution.status e' = ExecutionStatus.FAILED
         ∧ TestExecution.error_message e' = Some "redis unreachable"
         ∧ is_Some (TestExecution.completed_at e'))
    ∧ (is_Some (Some "Event loop is closed") →
         db (snd (execute_test_suite (redis_down_at AtStart all_pass)
                    (Some "Event loop is closed") "job-1"
                    (TestExecution.id queued_execution) sample_world))
         = db (snd (_execute_test_suite_async (redis_down_at AtStart all_pass)
                      (TestExecution.id queued_execution) "job-1" sample_world))
         ∧ (TestExecution.status e' = ExecutionStatus.RUNNING
            ∧ results (db (snd (execute_test_suite (redis_down_at AtStart all_pass)
                                  (Some "Event loop is closed") "job-1"
                                  (TestExecution.id queued_execution) sample_world)))
              = results (db sample_world)
            ∨ TestExecution.status e' = ExecutionStatus.FAILED
              ∧ is_Some (TestExecution.error_message e')
              ∧ is_Some (TestExecution.completed_at e'))).
Proof.
  apply (failure_callback_after_a_raising_task (redis_down_at AtStart all_pass)
           (Some "Event loop is closed") "job-1" sample_world queued_execution
           "redis unreachable"
           (snd (execute_test_suite (redis_down_at AtStart all_pass)
                   (Some "Event loop is closed") "job-1"
                   (TestExecution.id queued_execution) sample_world))).
  - reflexivity.
  - vm_compute. reflexivity.
Defined.

(** A task whose first snapshot is refused leaves execution 1 RUNNING
    when the session of its callback raises, and FAILED when that session
    can be used. *)
Example callback_session_decides_the_status :
  (TestExecution.status
     <$> executions (db (snd (execute_test_suite (redis_down_at AtStart all_pass)
                                (Some "Event loop is closed") "job-1" 1 sample_world))) !! 1)
  = Some ExecutionStatus.RUNNING
  ∧ (TestExecution.status
       <$> executions (db (snd (execute_test_suite (redis_down_at AtStart all_pass)
                                  None "job-1" 1 sample_world))) !! 1)
    = Some ExecutionStatus.FAILED.
Proof. vm_compute. by split. Qed.

(** X8.  Store invariants.  If every execution row is stored under its
    primary key and every result row refers to an execution of the store,
    the same holds after a run, however it ends, after a cancellation
    task, and after the failure callback, whether or not its session can
    be used. *)
Theorem tasks_preserve_store_invariants env task_id execution_id w :
  store_keyed (db w) →
  results_attached (db w) →
  ∀ w',
    (w' = snd (_execute_test_suite_async env execution_id task_id w)
     ∨ w' = snd (_cancel_execution_async env execution_id w)
     ∨ ∃ callback_db exc,
         w' = snd (on_failure callback_db exc task_id execution_id w)) →
    store_keyed (db w') ∧ results_attached (db w').
Proof.
  intros Hkeyed Hatt.
  assert (∀ e' (st' : Store),
            TestExecution.id e' = execution_id →
            executions st' !! execution_id = Some e' →
            (∀ k, k ≠ execution_id → executions st' !! k = executions (db w) !! k) →
            (∀ r, r ∈ results st' →
                  r ∈ results (db w) ∨ TestCaseResult.execution_id r = execution_id) →
            store_keyed st' ∧ results_attached st') as Hstep.
  { intros e' st' Hid Hex Hother Hrows. split.
    - intros k e0 Hk. destruct (decide (k = execution_id)) as [-> | Hne].
      + rewrite Hex in Hk. by simplify_eq.
      + rewrite Hother in Hk by done. by eapply Hkeyed.
    - intros r Hr.
      destruct (decide (TestCaseResult.execution_id r = execution_id)) as [-> | Hne].
      + by rewrite Hex.
      + rewrite Hother by done. apply Hatt.
        by destruct (Hrows r Hr) as [? | ?]. }
  intros w' [Hw' | [Hw' | (callback_db & exc & Hw')]].
  - destruct (executions (db w) !! execution_id) as [e |] eqn:Hlook.
    2: { unfold _execute_test_suite_async in Hw'. rewrite Hlook in Hw'. by subst w'. }
    pose proof (Hkeyed _ _ Hlook) as Hid.
    destruct (execute_footprint env _ task_id w e Hlook Hid)
      as (o & w1 & e1 & rows & Hrun & (He & _) & Hex & (Hid1 & _) & Hres & Hshapes & _).
    rewrite Hrun in Hw'. simpl in Hw'. subst w'.
    apply (Hstep e1); [congruence | done | done |].
    intros r. rewrite Hres, elem_of_app. intros [? | Hr]; [by left | right].
    rewrite Forall_forall in Hshapes. by destruct (Hshapes r Hr).
  - unfold _cancel_execution_async in Hw'.
    destruct (executions (db w) !! execution_id) as [e |] eqn:Hlook; [| by subst w'].
    pose proof (Hkeyed _ _ Hlook) as Hid.
    destruct (negb _); [by subst w' |].
    unfold RedisCache.delete in Hw'. simpl in Hw'.
    destruct (redis_error env AtCancel); simpl in Hw'; subst w';
      (eapply Hstep; [ | simpl; rewrite Hid; apply lookup_insert_eq
                       | intros k Hk; simpl; rewrite lookup_insert_ne; [done | congruence]
                       | intros r; simpl; rewrite app_nil_r; by left ]); done.
  - unfold on_failure, _mark_execution_failed, print in Hw'. simpl in Hw'.
    destruct callback_db as [failure |]; [by subst w' |].
    destruct (executions (db w) !! execution_id) as [e |] eqn:Hlook; [| by subst w'].
    pose proof (Hkeyed _ _ Hlook) as Hid. simpl in Hw'. subst w'.
    eapply Hstep; [ | simpl; rewrite Hid; apply lookup_insert_eq
                    | intros k Hk; simpl; rewrite lookup_insert_ne; [done | congruence]
                    | intros r; simpl; rewrite app_nil_r; by left ]; done.
Qed.

Lemma tasks_preserve_store_invariants_witness :
  store_keyed (db cancelled_mid_run) ∧ results_attached (db cancelled_mid_run).
Proof.
  apply (tasks_preserve_store_invariants cancel_before_second "job-1" 1 sample_world).
  - intros k e. simpl. intros [<- <-]%lookup_singleton_Some. reflexivity.
  - intros r Hr. simpl in Hr. by apply elem_of_nil in Hr.
  - left. vm_compute. reflexivity.
Defined.

End Isolation.

(** ** Unknown executions, repeated cancellation, interrupted runs *)

Section Outcomes.

Implicit Types (env : Env) (w : World) (s : Session) (e : TestExecution.t).

#[local] Arguments count_status : simpl never.
#[local] Arguments rows_for : simpl never.
#[local] Arguments completed_row : simpl never.
#[local] Arguments failed_row : simpl never.
#[local] Arguments running_row : simpl never.
#[local] Arguments TestExecution.pass_rate : simpl never.
#[local] Arguments CacheKeys.execution_status : simpl never.
#[local] Arguments str : simpl never.

(** X9.  An id without a row.  The run task and the cancellation task
    answer [{"success": False, "error": "Execution not found"}] and leave
    the store, the cache, the logs and the clock as they were; the failure
    callback prints its line and writes nothing. *)
Theorem unknown_execution_is_left_alone env callback_db request_id execution_id w :
  executions (db w) !! execution_id = None →
  execute_test_suite env callback_db request_id execution_id w = (Returned not_found, w)
  ∧ cancel_execution env execution_id w = (Returned not_found, w)
  ∧ ∀ exc, snd (on_failure callback_db exc request_id execution_id w)
           = print ("Task " +:+ request_id +:+ " failed: " +:+ exc) w.
Proof.
  intros Hnone. split; [| split].
  - unfold execute_test_suite, _execute_test_suite_async. by rewrite Hnone.
  - unfold cancel_execution, _cancel_execution_async. by rewrite Hnone.
  - intros exc. unfold on_failure, _mark_execution_failed, print. simpl.
    destruct callback_db; [done |]. by rewrite Hnone.
Qed.

Lemma unknown_execution_is_left_alone_witness :
  execute_test_suite (calm all_pass) None "job-9" 77 sample_world
  = (Returned not_found, sample_world).
Proof.
  apply (unknown_execution_is_left_alone (calm all_pass) None "job-9" 77 sample_world).
  reflexivity.
Defined.



Lemma run_loop_stops env execution_id total msg :
  ∀ todo i idx acc s w,
    (∀ j, (idx ≤ j < idx + i)%nat → redis_error env (AtProgress j) = None) →
    redis_error env (AtProgress (idx + i)) = Some msg →
    (i < length todo)%nat →
    ∃ rows w',
      run_loop env execution_id total idx todo acc s w
      = (Raised msg, mkSession (execution s) (added s ++ rows), w')
      ∧ length rows = S i
      ∧ runner_calls w' = runner_calls w ++ (TestCase.id <$> take (S i) todo).
Proof.
  induction todo as [| tc todo IH]; intros i idx acc s w Hbefore Hat Hlen;
    [simpl in Hlen; lia |].
  cbn [run_loop].
  destruct (other_workers_frame env execution_id idx w) as (_ & _ & _ & _ & Hcalls & _).
  set (w0 := other_workers env execution_id idx w) in *.
  destruct (execute_single_test_spec env idx tc s w0)
    as (r & w1 & Heq & _ & _ & _ & _ & Htrace).
  rewrite Heq. unfold RedisCache.set_json.
  assert (runner_calls w1 = runner_calls w ++ [TestCase.id tc]) as Hcalls1.
  { unfold runner_calls in *. rewrite Htrace, omap_app, Hcalls. done. }
  destruct i as [| i].
  - rewrite Nat.add_0_r in Hat. rewrite Hat.
    exists [r], w1. split; [done |]. split; [done |]. exact Hcalls1.
  - rewrite Hbefore by lia.
    match goal with
    | |- context [run_loop env execution_id total (S idx) todo ?a ?s1 ?w2] =>
        destruct (IH i (S idx) a s1 w2) as (rows & w' & Hrun & Hrows & Hcalls');
          [intros j Hj; apply Hbefore; lia | by rewrite Nat.add_succ_comm
          | simpl in Hlen; lia |]
    end.
    exists (r :: rows), w'. rewrite Hrun. simpl.
    rewrite <- app_assoc. split; [done |]. split; [by rewrite Hrows |].
    rewrite Hcalls'. unfold runner_calls at 1. simpl.
    fold (runner_calls w1). by rewrite Hcalls1, <- app_assoc.
Qed.

Lemma except_handler_spec env execution_id msg s w :
  ∃ msg' w',
    except_handler env execution_id msg s w = (Raised msg', w')
    ∧ db w' = commit_store (mkSession (failed_row (execution s) msg (clock w)) (added s))
                (db w)
    ∧ runner_calls w' = runner_calls w
    ∧ execution_logs w' = execution_logs w
    ∧ (redis_error env AtFailed = None → msg' = msg).
Proof.
  unfold except_handler, RedisCache.set_json. simpl.
  destruct (redis_error env AtFailed); eexists _, _; (split; [reflexivity |]); simpl;
    (split; [reflexivity |]);
    (split; [unfold runner_calls; simpl; by rewrite omap_app, app_nil_r |]); done.
Qed.

(** X11.  A run interrupted by the cache.  If Redis answers up to the
    progress write that follows test [i] and raises there, the task raises;
    tests [0..i] have been run and their rows are stored, the later ones
    are never run; the execution is FAILED with the error of the cache as
    its message, its total is the size of the target set, and its five
    counters are the ones it had before the run: no recount takes place.
    Nothing is written to the log store. *)
Theorem progress_failure_stops_the_run env task_id w e i msg :
  executions (db w) !! TestExecution.id e = Some e →
  redis_error env AtStart = None →
  (∀ j, (j < i)%nat → redis_error env (AtProgress j) = None) →
  redis_error env (AtProgress i) = Some msg →
  (i < length (_get_test_cases_for_execution (db w) e))%nat →
  ∃ msg' w' e' rows,
    _execute_test_suite_async env (TestExecution.id e) task_id w = (Raised msg', w')
    ∧ (redis_error env AtFailed = None → msg' = msg)
    ∧ executions (db w') !! TestExecution.id e = Some e'
    ∧ TestExecution.status e' = ExecutionStatus.FAILED
    ∧ TestExecution.error_message e' = Some msg
    ∧ TestExecution.total_tests e'
      = Z.of_nat (length (_get_test_cases_for_execution (db w) e))
    ∧ same_counters e e'
    ∧ results (db w') = results (db w) ++ rows
    ∧ length rows = S i
    ∧ runner_calls w'
      = runner_calls w ++ (TestCase.id <$> take (S i) (_get_test_cases_for_execution (db w) e))
    ∧ execution_logs w' = execution_logs w.
Proof.
  intros Hlook Hstart Hbefore Hat Hlen.
  rewrite (execute_unfold env _ task_id w e Hlook), Hstart.
  destruct (entered_elsewhere (TestExecution.id e) e task_id w eq_refl)
    as ((_ & Htc & Hsuite & _) & _ & Hres & Hlogs & _).
  assert (runner_calls (entered e task_id w) = runner_calls w) as Hcalls.
  { unfold entered, runner_calls. simpl. by rewrite omap_app, app_nil_r. }
  set (w0 := with_cache _ (entered e task_id w)).
  set (s0 := mkSession (running_row e task_id (clock w)) []).
  set (target := _get_test_cases_for_execution (db w) e) in *.
  assert (_get_test_cases_for_execution (db w0) (execution s0) = target) as Htarget.
  { by apply get_test_cases_ext. }
  unfold try_body. rewrite Htarget.
  destruct target as [| tc target'] eqn:Htgt; [simpl in Hlen; lia |].
  rewrite <- Htgt in *.
  set (s1 := update (TestExecution.with_total_tests (Z.of_nat (length target))) s0).
  destruct (commit s1 w0) as [s2 w2] eqn:Hcommit.
  assert (s2 = mkSession (execution s1) []
          ∧ results (db w2) = results (db w)
          ∧ execution_logs w2 = execution_logs w
          ∧ runner_calls w2 = runner_calls w) as (-> & Hres2 & Hlogs2 & Hcalls2).
  { unfold commit in Hcommit. simplify_eq. simpl. rewrite app_nil_r.
    repeat split; try done.
    unfold runner_calls. simpl. rewrite omap_app, app_nil_r. exact Hcalls. }
  destruct (run_loop_stops env (TestExecution.id e) (length target) msg target i 0 []
              (mkSession (execution s1) []) w2)
    as (rows & w3 & Hrun & Hrows & Hcalls3); [intros j Hj; apply Hbefore; lia | done | done |].
  rewrite Hrun.
  apply run_loop_frame in Hrun as (_ & Hres3 & _ & _ & Hlogs3 & _).
  match goal with
  | |- context [except_handler env _ msg ?s3 w3] =>
      destruct (except_handler_spec env (TestExecution.id e) msg s3 w3)
        as (msg' & w4 & Hexc & Hdb & Hcalls4 & Hlogs4 & Hmsg)
  end.
  rewrite Hexc. exists msg', w4, (failed_row (execution s1) msg (clock w3)), rows.
  split; [done |]. split; [done |]. rewrite Hdb. simpl.
  split; [apply lookup_insert_eq |].
  split; [done |]. split; [done |]. split; [done |]. split; [by repeat split |].
  split; [by rewrite Hres3, Hres2 |]. split; [done |].
  split; [by rewrite Hcalls4, Hcalls3, Hcalls2 |].
  by rewrite Hlogs4, Hlogs3, Hlogs2.
Qed.

Lemma progress_failure_stops_the_run_witness :
  ∃ msg' w' e' rows,
    _execute_test_suite_async (redis_down_at (AtProgress 1) all_pass)
      (TestExecution.id queued_execution) "job-1" sample_world = (Raised msg', w')
    ∧ (redis_error (redis_down_at (AtProgress 1) all_pass) AtFailed = None
       → msg' = "redis unreachable")
    ∧ executions (db w') !! TestExecution.id queued_execution = Some e'
    ∧ TestExecution.status e' = ExecutionStatus.FAILED
    ∧ TestExecution.error_message e' = Some "redis unreachable"
    ∧ TestExecution.total_tests e'
      = Z.of_nat (length (_get_test_cases_for_execution (db sample_world) queued_execution))
    ∧ same_counters queued_execution e'
    ∧ results (db w') = results (db sample_world) ++ rows
    ∧ length rows = 2%nat
    ∧ runner_calls w'
      = runner_calls sample_world
        ++ (TestCase.id <$> take 2 (_get_test_cases_for_execution (db sample_world)
                                      queued_execution))
    ∧ execution_logs w' = execution_logs sample_world.
Proof.
  apply (progress_failure_stops_the_run (redis_down_at (AtProgress 1) all_pass) "job-1"
           sample_world queued_execution 1 "redis unreachable").
  - reflexivity.
  - reflexivity.
  - intros [| j] Hj; [reflexivity | lia].
  - reflexivity.
  - vm_compute. lia.
Defined.

Lemma finish_run_returned env execution_id rs s w r s' w' :
  finish_run env execution_id rs s w = (Returned r, s', w') →
  TestExecution.id (execution s) = execution_id →
  r = completion_report (execution s')
  ∧ cache w' !! CacheKeys.execution_status (str execution_id)
    = Some (completed_snapshot (execution s'))
  ∧ executions (db w') !! execution_id = Some (execution s')
  ∧ TestExecution.status (execution s') = ExecutionStatus.COMPLETED
  ∧ TestExecution.started_at (execution s') = TestExecution.started_at (execution s)
  ∧ TestExecution.completed_at (execution s') = Some (clock w)
  ∧ TestExecution.duration_seconds (execution s')
    = (λ t0, clock w - t0) <$> TestExecution.started_at (execution s).
Proof.
  intros Hfin Hid. destruct s as [e0 ad]. simpl in Hid.
  unfold finish_run, RedisCache.set_json, _store_execution_logs,
    _update_execution_summary, select_results in Hfin.
  destruct (redis_error env AtCompleted); [done |]. simpl in Hfin.
  assert (s' = mkSession (execution s') []
          ∧ db w' = commit_store (mkSession (execution s') ad) (db w)
          ∧ cache w' = <[CacheKeys.execution_status (str execution_id)
                         := completed_snapshot (execution s')]> (cache w)
          ∧ r = completion_report (execution s')
          ∧ execution s'
            = completed_row e0 (rows_for (TestExecution.id e0) (results (db w) ++ ad))
                (clock w)) as (_ & Hdb & Hcache & -> & He).
  { destruct (mongo_error env); by simplify_eq. }
  rewrite Hdb, Hcache, lookup_insert_eq. simpl.
  rewrite He. unfold completed_row. simpl. rewrite Hid, lookup_insert_eq.
  by repeat split.
Qed.

(** X12.  What a run reports.  Whenever a run of a non-empty target set
    returns, its report carries the id, the total, the passed and failed
    counters and the duration of the committed row, which is COMPLETED; the
    cache entry of the execution is the completion snapshot of that same
    row, pass rate included; and the row's timing is consistent:
    [started_at] is the time the task began, [completed_at] is not before
    it, and [duration_seconds] is their difference. *)
Theorem returned_report_mirrors_the_row env task_id w e r w' :
  executions (db w) !! TestExecution.id e = Some e →
  _get_test_cases_for_execution (db w) e ≠ [] →
  _execute_test_suite_async env (TestExecution.id e) task_id w = (Returned r, w') →
  ∃ e' t,
    executions (db w') !! TestExecution.id e = Some e'
    ∧ TestExecution.status e' = ExecutionStatus.COMPLETED
    ∧ r = completion_report e'
    ∧ cache w' !! CacheKeys.execution_status (str (TestExecution.id e))
      = Some (completed_snapshot e')
    ∧ TestExecution.started_at e' = Some (clock w)
    ∧ TestExecution.completed_at e' = Some t
    ∧ TestExecution.duration_seconds e' = Some (t - clock w)
    ∧ clock w <= t.
Proof.
  intros Hlook Hne Hrun.
  rewrite (execute_unfold env _ task_id w e Hlook) in Hrun.
  destruct (redis_error env AtStart); [done |].
  destruct (entered_elsewhere (TestExecution.id e) e task_id w eq_refl)
    as ((_ & Htc & Hsuite & _ & Hclock) & Hentered & _).
  set (w0 := with_cache _ (entered e task_id w)) in Hrun.
  set (s0 := mkSession (running_row e task_id (clock w)) []) in Hrun.
  assert (_get_test_cases_for_execution (db w0) (execution s0)
          = _get_test_cases_for_execution (db w) e) as Htarget.
  { by apply get_test_cases_ext. }
  destruct (try_body env (TestExecution.id e) s0 w0) as [[o s1] w1] eqn:Htry.
  destruct o as [r1 | msg].
  2: { by destruct (except_handler_spec env (TestExecution.id e) msg s1 w1)
         as (msg' & w2 & Hexc & _); rewrite Hexc in Hrun. }
  simplify_eq. unfold try_body in Htry. rewrite Htarget in Htry.
  destruct (_get_test_cases_for_execution (db w) e) as [| tc target] eqn:Htgt; [done |].
  rewrite <- Htgt in Htry.
  set (s2 := update _ s0) in Htry.
  destruct (commit s2 w0) as [s3 w3] eqn:Hcommit.
  destruct (commit_elsewhere (TestExecution.id e) s2 w0 eq_refl)
    as ((_ & _ & _ & _ & Hclock3) & Hplace & _).
  rewrite Hcommit in Hclock3, Hplace. simpl in Hclock3, Hplace.
  assert (execution s3 = execution s2) as Hs3.
  { unfold commit in Hcommit. by simplify_eq. }
  destruct (run_loop env (TestExecution.id e) _ 0 _ [] s3 w3) as [[o s4] w4] eqn:Hloop.
  destruct o as [rs | msg]; [| done].
  destruct (run_loop_frame _ _ _ _ _ _ _ _ _ _ _ Hloop) as (Hs4 & _).
  destruct (run_loop_footprint _ _ _ _ _ _ _ _ _ _ _ Hloop Hplace)
    as ((_ & _ & _ & _ & Hclock4) & _).
  apply finish_run_returned in Htry as (-> & Hcache & Hrow & Hstatus & Hstart & Hdone & Hdur);
    [| by rewrite Hs4, Hs3].
  rewrite Hs4, Hs3 in Hstart, Hdur. simpl in Hstart, Hdur.
  exists (execution s1), (clock w4).
  repeat split; try done. simpl in Hclock. lia.
Qed.

Lemma returned_report_mirrors_the_row_witness :
  ∃ e' t,
    executions (db completed_world) !! TestExecution.id queued_execution = Some e'
    ∧ TestExecution.status e' = ExecutionStatus.COMPLETED
    ∧ completion_report completed_execution = completion_report e'
    ∧ cache completed_world !! CacheKeys.execution_status (str (TestExecution.id queued_execution))
      = Some (completed_snapshot e')
    ∧ TestExecution.started_at e' = Some (clock sample_world)
    ∧ TestExecution.completed_at e' = Some t
    ∧ TestExecution.duration_seconds e' = Some (t - clock sample_world)
    ∧ clock sample_world <= t.
Proof.
  apply (returned_report_mirrors_the_row (calm two_pass_one_fail) "job-1" sample_world
           queued_execution (completion_report completed_execution) completed_world).
  - reflexivity.
  - vm_compute. discriminate.
  - vm_compute. reflexivity.
Defined.

Lemma rows_of_test_case_ids env execution_id todo :
  ∀ idx rows,
    rows_of env execution_id idx todo rows →
    TestCaseResult.test_case_id <$> rows = TestCase.id <$> todo.
Proof.
  induction todo as [| tc todo IH]; intros idx [| r rows] Hrows; try done.
  destruct Hrows as [(_ & Hid & _) Hrest]. simpl. rewrite Hid. f_equal. by eapply IH.
Qed.

(** X13.  The log document of a run.  When a run of a non-empty target set
    returns and the log store is available, exactly one document has been
    appended to the execution logs: it carries the execution id, counts
    and lists the result rows this run has written, one per test case of
    the target set and in its order, and no row of an earlier run. *)
Theorem log_document_lists_the_run env task_id w e :
  cache_available env →
  mongo_error env = None →
  executions (db w) !! TestExecution.id e = Some e →
  _get_test_cases_for_execution (db w) e ≠ [] →
  ∃ r w' rows t,
    _execute_test_suite_async env (TestExecution.id e) task_id w = (Returned r, w')
    ∧ results (db w') = results (db w) ++ rows
    ∧ TestCaseResult.test_case_id <$> rows
      = TestCase.id <$> _get_test_cases_for_execution (db w) e
    ∧ execution_logs w'
      = execution_logs w
        ++ [JDict [("execution_id", JInt (TestExecution.id e));
                   ("timestamp", JTime t);
                   ("results_count",
                    JInt (Z.of_nat (length (_get_test_cases_for_execution (db w) e))));
                   ("results", JList (log_result <$> rows))]].
Proof.
  intros Hredis Hmongo Hlook Hne.
  destruct (execute_completes env _ task_id w e Hredis Hlook eq_refl Hne)
    as (rows & now & r & w' & Hrun & Hrows & Hres & _ & _ & _ & _ & _ & Hlogs & _).
  exists r, w', rows, (now + 1). rewrite Hmongo in Hlogs.
  split; [done |]. split; [done |]. split; [by eapply rows_of_test_case_ids |].
  rewrite Hlogs. unfold log_document. by erewrite rows_of_length.
Qed.

Lemma log_document_lists_the_run_witness :
  ∃ r w' rows t,
    _execute_test_suite_async (calm two_pass_one_fail) (TestExecution.id completed_execution)
      "job-2" completed_world = (Returned r, w')
    ∧ results (db w') = results (db completed_world) ++ rows
    ∧ TestCaseResult.test_case_id <$> rows
      = TestCase.id <$> _get_test_cases_for_execution (db completed_world)
                          completed_execution
    ∧ execution_logs w'
      = execution_logs completed_world
        ++ [JDict [("execution_id", JInt (TestExecution.id completed_execution));
                   ("timestamp", JTime t);
                   ("results_count",
                    JInt (Z.of_nat (length (_get_test_cases_for_execution
                                              (db completed_world) completed_execution))));
                   ("results", JList (log_result <$> rows))]].
Proof.
  apply (log_document_lists_the_run (calm two_pass_one_fail) "job-2" completed_world
           completed_execution).
  - intros site. reflexivity.
  - reflexivity.
  - reflexivity.
  - vm_compute. discriminate.
Defined.

End Outcomes.

(** ** The retention sweep *)

Section Retention.

Implicit Types (w : World) (e : TestExecution.t) (created_at : Z → Z).

Lemma filter_ext_elem {A} (P Q : A → Prop) `{!∀ x, Decision (P x)} `{!∀ x, Decision (Q x)}
    (l : list A) :
  (∀ x, x ∈ l → P x ↔ Q x) → filter P l = filter Q l.
Proof.
  induction l as [| a l IH]; intros Hext; [done |].
  rewrite !filter_cons. rewrite IH by (intros x Hx; apply Hext; by right).
  destruct (Hext a) as [H1 H2]; [by left |].
  destruct (decide (P a)), (decide (Q a)); tauto.
Qed.

(** X14.  What the sweep removes.  An execution row is gone after the sweep
    exactly if it was created before the cutoff, 90 days before the time
    of the sweep, and its status is COMPLETED, FAILED or CANCELLED; every
    other row is kept as it was, so a TIMEOUT execution is never removed
    although [is_complete] holds of it.  The number reported as [cleaned] is
    the number of rows removed.  Test cases, suites, the cache and the log
    store are not touched: snapshots and log documents of removed
    executions stay. *)
Theorem sweep_removes_the_old_finished created_at w :
  let cutoff_date := clock w - retention_window in
  let w' := snd (cleanup_old_results created_at w) in
  (∀ k e, executions (db w') !! k = Some e
          ↔ executions (db w) !! k = Some e ∧ ¬ old_and_finished created_at cutoff_date e)
  ∧ (∀ k e, executions (db w) !! k = Some e →
            TestExecution.status e = ExecutionStatus.TIMEOUT
            ∨ TestExecution.is_running e = true
            ∨ cutoff_date <= created_at (TestExecution.id e) →
            executions (db w') !! k = Some e)
  ∧ fst (cleanup_old_results created_at w)
    = JDict [("cleaned", JInt (Z.of_nat (size (executions (db w)))
                               - Z.of_nat (size (executions (db w')))))]
  ∧ test_cases (db w') = test_cases (db w)
  ∧ suite_test_cases (db w') = suite_test_cases (db w)
  ∧ cache w' = cache w
  ∧ execution_logs w' = execution_logs w.
Proof.
  intros cutoff_date w'. subst w'.
  unfold cleanup_old_results, _cleanup_old_results_async. simpl. fold cutoff_date.
  assert (∀ k e, filter (λ kv, ¬ old_and_finished created_at cutoff_date kv.2)
                   (executions (db w)) !! k = Some e
                 ↔ executions (db w) !! k = Some e
                   ∧ ¬ old_and_finished created_at cutoff_date e) as Hkept.
  { intros k e. by rewrite map_lookup_filter_Some. }
  split; [exact Hkept |]. split.
  { intros k e Hlook Hwhy. apply Hkept. split; [done |]. intros [Hold Hst].
    destruct Hwhy as [Ht | [Hrun | Hyoung]]; [| | lia].
    - rewrite Ht in Hst.
      by repeat (apply elem_of_cons in Hst as [? | Hst]; [done |]); apply elem_of_nil in Hst.
    - unfold TestExecution.is_running in Hrun.
      destruct (TestExecution.status e); try done;
        by repeat (apply elem_of_cons in Hst as [? | Hst]; [done |]); apply elem_of_nil in Hst. }
  split; [| done].
  do 4 f_equal.
  pose proof (map_filter_union_complement
                (λ kv : Z * TestExecution.t, old_and_finished created_at cutoff_date kv.2)
                (executions (db w))) as Hunion.
  pose proof (map_disjoint_filter_complement
                (λ kv : Z * TestExecution.t, old_and_finished created_at cutoff_date kv.2)
                (executions (db w))) as Hdisj.
  apply map_size_disj_union in Hdisj. rewrite Hunion in Hdisj. lia.
Qed.

(** X15.  The sweep and the result rows.  In a store where rows sit under
    their primary key and every result row has its execution, the sweep
    keeps exactly the result rows whose execution survives, in their
    order, and the store is again of that kind: no result row is left
    without its execution. *)
Theorem sweep_cascades_to_result_rows created_at w :
  store_keyed (db w) →
  results_attached (db w) →
  let w' := snd (cleanup_old_results created_at w) in
  results (db w')
  = filter (λ r, is_Some (executions (db w') !! TestCaseResult.execution_id r))
      (results (db w))
  ∧ store_keyed (db w')
  ∧ results_attached (db w').
Proof.
  intros Hkeyed Hatt w'. subst w'.
  unfold cleanup_old_results, _cleanup_old_results_async. simpl.
  set (cutoff_date := clock w - retention_window).
  set (old := λ kv : Z * TestExecution.t, old_and_finished created_at cutoff_date kv.2).
  assert (∀ r, r ∈ results (db w) →
               TestCaseResult.execution_id r
                 ∉ (λ kv : Z * TestExecution.t, TestExecution.id kv.2)
                     <$> map_to_list (filter old (executions (db w)))
               ↔ is_Some (filter (λ kv, ¬ old kv) (executions (db w))
                            !! TestCaseResult.execution_id r)) as Hiff.
  { intros r Hr. destruct (Hatt r Hr) as [e He]. split.
    - intros Hnot. exists e. apply map_lookup_filter_Some. split; [done |].
      intros Hold. apply Hnot. apply list_elem_of_fmap.
      exists (TestCaseResult.execution_id r, e). split; [simpl; by rewrite (Hkeyed _ _ He) |].
      apply elem_of_map_to_list, map_lookup_filter_Some. done.
    - intros [e' [He' Hyoung]%map_lookup_filter_Some] Hin.
      apply list_elem_of_fmap in Hin as ([k e0] & Hk & [Hk0 Hold]%elem_of_map_to_list%map_lookup_filter_Some).
      simpl in *. rewrite (Hkeyed _ _ Hk0) in Hk. subst k. simplify_eq. done. }
  split; [by apply filter_ext_elem |]. split.
  - intros k e [He _]%map_lookup_filter_Some. by eapply Hkeyed.
  - intros r [Hkeep Hr]%list_elem_of_filter. by apply Hiff.
Qed.

Lemma sweep_cascades_to_result_rows_witness :
  results (db (snd (cleanup_old_results sweep_created_at sweep_world)))
  = filter (λ r, is_Some (executions (db (snd (cleanup_old_results sweep_created_at
                                                 sweep_world)))
                            !! TestCaseResult.execution_id r))
      (results (db sweep_world))
  ∧ store_keyed (db (snd (cleanup_old_results sweep_created_at sweep_world)))
  ∧ results_attached (db (snd (cleanup_old_results sweep_created_at sweep_world))).
Proof.
  apply (sweep_cascades_to_result_rows sweep_created_at sweep_world).
  - change (map_Forall (λ k e, TestExecution.id e = k) (executions (db sweep_world))).
    apply (bool_decide_unpack _). vm_compute. reflexivity.
  - intros r Hr. revert r Hr. apply Forall_forall.
    apply (bool_decide_unpack _). vm_compute. reflexivity.
Defined.

End Retention.

(** ** The routes: pagination, listing, progress, creation *)

Section Routes.

Implicit Types (w : World) (e : TestExecution.t) (created_at : Z → Z).

#[local] Instance newer_first_transitive created_at : Transitive (newer_first created_at).
Proof. unfold newer_first. intros x y z ??. lia. Qed.

#[local] Instance newer_first_total created_at : Total (newer_first created_at).
Proof. unfold newer_first. intros x y. lia. Qed.

(** X16.  [get_pagination_params] always yields parameters that satisfy the
    bounds declared on [PaginationParams] (page at least 1, size between 1
    and 100), so the offset is never negative; parameters within the bounds
    are passed on unchanged, a page below 1 becomes 1, a size below 1
    becomes the default 20 and a size above 100 becomes 100. *)
Theorem pagination_params_are_clamped page size :
  let p := get_pagination_params page size in
  1 <= PaginationParams.page p
  ∧ 1 <= PaginationParams.size p <= 100
  ∧ 0 <= PaginationParams.offset p
  ∧ PaginationParams.page p = Z.max 1 page
  ∧ PaginationParams.size p = (if size <? 1 then 20 else Z.min 100 size)
  ∧ get_pagination_params (PaginationParams.page p) (PaginationParams.size p) = p.
Proof.
  unfold get_pagination_params, PaginationParams.offset. simpl.
  repeat (match goal with
          | |- context [?a <? ?b] => destruct (Z.ltb_spec a b)
          end; simpl);
    repeat split; try lia; try nia; f_equal;
    repeat match goal with
           | H : context [?a <? ?b] |- _ => destruct (Z.ltb_spec a b)
           end; lia.
Qed.

Lemma pagination_params_are_clamped_aux page size :
  1 <= PaginationParams.page (get_pagination_params page size)
  ∧ 1 <= PaginationParams.size (get_pagination_params page size) <= 100.
Proof.
  unfold get_pagination_params. simpl.
  destruct (Z.ltb_spec page 1), (Z.ltb_spec size 1); simpl;
    try destruct (Z.ltb_spec 100 size); simpl; lia.
Qed.

Lemma matching_length (P : TestExecution.t → Prop) `{!∀ x, Decision (P x)}
    (m : gmap Z TestExecution.t) :
  length (filter P (snd <$> map_to_list m)) = size (filter (λ kv, P kv.2) m).
Proof.
  induction m as [| i x m Hi Hfirst IH] using map_first_key_ind.
  - by rewrite map_to_list_empty, map_filter_empty, map_size_empty.
  - rewrite map_to_list_insert_first_key by done. rewrite fmap_cons, filter_cons. simpl.
    rewrite map_filter_insert. simpl. destruct (decide (P x)).
    + rewrite map_size_insert_None by (by apply map_lookup_filter_None; left).
      simpl. by rewrite IH.
    + by rewrite delete_id.
Qed.

(** X17.  One page of [list_executions], for any query parameters: it holds
    at most [size] rows, each of them a row of the store that passes the
    filters (a project id of 0 filters nothing), the newest first; [total]
    counts all rows that pass the filters, whatever the page. *)
Theorem listed_page_is_filtered_and_ordered created_at page size project_id status_filter w :
  let pagination := get_pagination_params page size in
  let answer := list_executions created_at pagination project_id status_filter w in
  Z.of_nat (length (ExecutionList.items answer)) <= PaginationParams.size pagination
  ∧ (∀ e, e ∈ ExecutionList.items answer →
          (∃ k, executions (db w) !! k = Some e) ∧ listed project_id status_filter e)
  ∧ StronglySorted (newer_first created_at) (ExecutionList.items answer)
  ∧ ExecutionList.total answer
    = Z.of_nat (base.size (filter (λ kv, listed project_id status_filter kv.2)
                        (executions (db w))))
  ∧ ExecutionList.page answer = PaginationParams.page pagination
  ∧ ExecutionList.size answer = PaginationParams.size pagination.
Proof.
  intros pagination answer.
  destruct (pagination_params_are_clamped_aux page size) as (Hpage & Hsize).
  fold pagination in Hpage, Hsize. clearbody pagination.
  subst answer. unfold list_executions. simpl.
  set (matching := filter (listed project_id status_filter)
                     (snd <$> map_to_list (executions (db w)))).
  set (ordered := merge_sort (newer_first created_at) matching).
  assert (StronglySorted (newer_first created_at) ordered) as Hsorted
    by apply (StronglySorted_merge_sort _).
  assert (ordered ≡ₚ matching) as Hperm by apply merge_sort_Permutation.
  split; [| split; [| split; [| split]]].
  - rewrite length_take. lia.
  - intros e He.
    assert (e ∈ matching) as [Hlisted Hin]%list_elem_of_filter.
    { rewrite <- Hperm. eapply elem_of_sublist; [exact He |].
      etrans; [apply sublist_take | apply sublist_drop]. }
    split; [| done].
    apply list_elem_of_fmap in Hin as ([k e'] & -> & Hin%elem_of_map_to_list). by exists k.
  - set (m := Z.to_nat (PaginationParams.offset pagination)).
    set (n := Z.to_nat (PaginationParams.size pagination)).
    rewrite <- (take_drop m ordered) in Hsorted.
    apply StronglySorted_app_1_r in Hsorted.
    rewrite <- (take_drop n (drop m ordered)) in Hsorted.
    by apply StronglySorted_app_1_l in Hsorted.
  - f_equal. apply matching_length.
  - done.
Qed.

(** X18.  The page count of [list_executions] and the pages.  [pages] is
    the least number of pages of [size] rows that hold [total] rows; a page
    holds [size] rows as long as that many are left after its offset, the
    rest otherwise; so a page is non-empty exactly if its number is at most
    [pages]. *)
Theorem listed_pages_hold_the_total created_at page size project_id status_filter w :
  let pagination := get_pagination_params page size in
  let answer := list_executions created_at pagination project_id status_filter w in
  let n := PaginationParams.size pagination in
  n * (ExecutionList.pages answer - 1) < ExecutionList.total answer
                                       <= n * ExecutionList.pages answer
  ∧ Z.of_nat (length (ExecutionList.items answer))
    = Z.max 0 (Z.min n (ExecutionList.total answer - PaginationParams.offset pagination))
  ∧ (ExecutionList.items answer ≠ []
     ↔ PaginationParams.page pagination <= ExecutionList.pages answer).
Proof.
  intros pagination answer n.
  destruct (pagination_params_are_clamped_aux page size) as (Hpage & Hsize).
  fold pagination in Hpage, Hsize. clearbody pagination. fold n in Hsize.
  subst answer. unfold list_executions. simpl. fold n.
  set (matching := filter (listed project_id status_filter)
                     (snd <$> map_to_list (executions (db w)))).
  set (total := Z.of_nat (length matching)).
  assert (0 <= total) as Htotal by lia.
  assert (n * ((total + n - 1) `div` n - 1) < total <= n * ((total + n - 1) `div` n))
    as Hpages.
  { pose proof (Z.div_mod (total + n - 1) n ltac:(lia)) as Hdm.
    pose proof (Z.mod_pos_bound (total + n - 1) n ltac:(lia)) as Hmod. lia. }
  assert (length (merge_sort (newer_first created_at) matching) = length matching) as Hlen.
  { apply Permutation_length, merge_sort_Permutation. }
  assert (Z.of_nat (length (take (Z.to_nat n)
                              (drop (Z.to_nat (PaginationParams.offset pagination))
                                 (merge_sort (newer_first created_at) matching))))
          = Z.max 0 (Z.min n (total - PaginationParams.offset pagination))) as Hitems.
  { rewrite length_take, length_drop, Hlen.
    unfold PaginationParams.offset. fold n. subst total. nia. }
  split; [exact Hpages |]. split; [exact Hitems |].
  rewrite <- length_zero_iff_nil.
  unfold PaginationParams.offset in *. fold n in Hitems |- *.
  set (L := length _) in *.
  set (D := (total + n - 1) `div` n) in *.
  set (p := PaginationParams.page pagination) in *.
  clearbody L D p total n.
  assert ((p - 1) * n < total ↔ p <= D) as <- by (split; intros ?; nia).
  lia.
Qed.

End Routes.

(** ** Progress, creation, and the derived properties of the models *)

Section Progress.

Implicit Types (w : World) (e : TestExecution.t).

#[local] Arguments CacheKeys.execution_status : simpl never.
#[local] Arguments str : simpl never.

Lemma percent_between (c t : Z) :
  (0 <= c <= t)%Z → (0 < t)%Z →
  (0 <= inject_Z c / inject_Z t * 100 ∧ inject_Z c / inject_Z t * 100 <= 100
   ∧ (inject_Z c / inject_Z t * 100 == 100 ↔ c = t))%Q.
Proof.
  intros Hc Ht. destruct t as [| t | t]; try lia.
  unfold Qdiv, Qinv, Qmult, Qle, Qeq, inject_Z. simpl.
  rewrite ?Z.mul_1_r, ?Pos.mul_1_r. repeat split; try lia.
Qed.

(** X19.  The progress route reads the row, not the cache.  The cache is
    asked first, so with Redis unreachable the request fails whatever the
    store holds; otherwise the answer does not depend on what the cache
    holds, an id without a row is answered with 404 and "Execution not
    found", and the store, the cache and the log store are left as they
    were. *)
Theorem progress_is_read_from_the_row execution_id w :
  (∀ msg, fst (get_execution_progress (Some msg) execution_id w) = Unhandled msg)
  ∧ (∀ c, fst (get_execution_progress None execution_id (with_cache c w))
          = fst (get_execution_progress None execution_id w))
  ∧ (executions (db w) !! execution_id = None
     ↔ fst (get_execution_progress None execution_id w)
       = HTTPException 404 "Execution not found")
  ∧ (∀ unreachable,
       let w' := snd (get_execution_progress unreachable execution_id w) in
       db w' = db w ∧ cache w' = cache w ∧ execution_logs w' = execution_logs w
       ∧ trace w' = trace w).
Proof.
  unfold get_execution_progress, get_json.
  split; [done |]. split; [| split].
  - intros c. simpl.
    destruct (executions (db w) !! execution_id) as [e |]; [| done].
    by destruct (TestExecution.started_at e), (TestExecution.completed_at e).
  - destruct (executions (db w) !! execution_id) as [e |]; [| done].
    by destruct (TestExecution.started_at e), (TestExecution.completed_at e).
  - intros [msg |]; simpl; [done |].
    destruct (executions (db w) !! execution_id) as [e |]; [| done].
    by destruct (TestExecution.started_at e), (TestExecution.completed_at e).
Qed.

(** X20.  What the progress route shows.  [completed_tests] adds up the
    passed, failed and skipped counters and leaves out the blocked and
    error counters.  For a row whose five counters add up to its total, as
    after a first run that completed, the percentage lies between 0 and
    100 and is 100 exactly if no test was blocked or ended in error: a
    COMPLETED execution with a test in error never shows 100 percent. *)
Theorem progress_leaves_out_errors w e :
  executions (db w) !! TestExecution.id e = Some e →
  counters_nonneg e →
  0 < TestExecution.total_tests e →
  counter_sum e = TestExecution.total_tests e →
  ∃ p w',
    get_execution_progress None (TestExecution.id e) w = (Ok p, w')
    ∧ ExecutionProgress.status p = TestExecution.status e
    ∧ ExecutionProgress.total_tests p = TestExecution.total_tests e
    ∧ ExecutionProgress.completed_tests p
      = TestExecution.total_tests e - TestExecution.blocked_tests e
        - TestExecution.error_tests e
    ∧ (0 <= ExecutionProgress.progress_percent p)%Q
    ∧ (ExecutionProgress.progress_percent p <= 100)%Q
    ∧ ((ExecutionProgress.progress_percent p == 100)%Q
       ↔ TestExecution.blocked_tests e = 0 ∧ TestExecution.error_tests e = 0)
    ∧ (∀ t0 t1, TestExecution.started_at e = Some t0 →
                TestExecution.completed_at e = Some t1 →
                ExecutionProgress.elapsed_seconds p = t1 - t0 ∧ w' = w).
Proof.
  intros Hlook (Ht & Hp & Hf & Hs & Hb & Hx) Hpos Hsum.
  unfold counter_sum in Hsum.
  unfold get_execution_progress, get_json. rewrite Hlook.
  destruct (Z.ltb_spec 0 (TestExecution.total_tests e)) as [_ | ?]; [| lia].
  destruct (percent_between
              (TestExecution.passed_tests e + TestExecution.failed_tests e
               + TestExecution.skipped_tests e) (TestExecution.total_tests e))
    as (Hlo & Hhi & Hfull); [lia | lia |].
  destruct (TestExecution.started_at e) as [t0 |] eqn:Hstart;
    [destruct (TestExecution.completed_at e) as [t1 |] eqn:Hdone |];
    eexists _, _; (split; [reflexivity |]); simpl;
    (split; [done |]); (split; [done |]); (split; [lia |]);
    (split; [exact Hlo |]); (split; [exact Hhi |]);
    (split; [rewrite Hfull; lia |]);
    intros ?? ; intros; by simplify_eq.
Qed.

Lemma progress_leaves_out_errors_witness :
  ∃ p w',
    get_execution_progress None (TestExecution.id errored_execution) errored_world
    = (Ok p, w')
    ∧ ExecutionProgress.status p = TestExecution.status errored_execution
    ∧ ExecutionProgress.total_tests p = TestExecution.total_tests errored_execution
    ∧ ExecutionProgress.completed_tests p
      = TestExecution.total_tests errored_execution
        - TestExecution.blocked_tests errored_execution
        - TestExecution.error_tests errored_execution
    ∧ (0 <= ExecutionProgress.progress_percent p)%Q
    ∧ (ExecutionProgress.progress_percent p <= 100)%Q
    ∧ ((ExecutionProgress.progress_percent p == 100)%Q
       ↔ TestExecution.blocked_tests errored_execution = 0
         ∧ TestExecution.error_tests errored_execution = 0)
    ∧ (∀ t0 t1, TestExecution.started_at errored_execution = Some t0 →
                TestExecution.completed_at errored_execution = Some t1 →
                ExecutionProgress.elapsed_seconds p = t1 - t0 ∧ w' = errored_world).
Proof.
  apply (progress_leaves_out_errors errored_world errored_execution).
  - reflexivity.
  - unfold counters_nonneg. simpl. lia.
  - simpl. lia.
  - reflexivity.
Defined.

End Progress.

Section Creation.

Implicit Types (env : Env) (w : World) (e : TestExecution.t).

#[local] Arguments count_status : simpl never.
#[local] Arguments rows_for : simpl never.
#[local] Arguments TestExecution.pass_rate : simpl never.

Lemma rows_for_unattached (st : Store) (k : Z) :
  results_attached st → executions st !! k = None → rows_for k (results st) = [].
Proof.
  intros Hatt Hnone. apply elem_of_nil_inv. intros r [Hk Hr]%list_elem_of_filter.
  destruct (Hatt r Hr) as [e He]. congruence.
Qed.

Lemma filter_app_rows_for (k : Z) (l1 l2 : list TestCaseResult.t) :
  rows_for k (l1 ++ l2) = rows_for k l1 ++ rows_for k l2.
Proof. unfold rows_for. apply filter_app. Qed.

Lemma created_execution_facts new_id task_id execution_data w :
  executions (db w) !! new_id = None →
  results_attached (db w) →
  ∃ row w',
    create_execution new_id task_id execution_data w = (row, w')
    ∧ executions (db w') !! new_id = Some row
    ∧ TestExecution.id row = new_id
    ∧ results_of (TestExecution.id row) (db w') = []
    ∧ (TestExecution.passed_tests row = 0 ∧ TestExecution.failed_tests row = 0
       ∧ TestExecution.skipped_tests row = 0 ∧ TestExecution.blocked_tests row = 0
       ∧ TestExecution.error_tests row = 0)
    ∧ test_cases (db w') = test_cases (db w)
    ∧ suite_test_cases (db w') = suite_test_cases (db w).
Proof.
  intros Hfresh Hatt. unfold create_execution. simpl.
  eexists _, _. split; [reflexivity |]. simpl.
  rewrite lookup_insert_eq. repeat split; try done.
  unfold results_of. simpl. rewrite app_nil_r. by apply rows_for_unattached.
Qed.

(** X21.  [create_execution] with a fresh primary key adds one row and
    touches nothing else: the row is QUEUED, so [is_running] holds of it,
    it carries the project, suite and environment of the request and the
    id of the enqueued job, it has no start time, no result rows and zero
    counters, hence a pass rate of 0. *)
Theorem created_execution_is_queued new_id task_id execution_data w :
  executions (db w) !! new_id = None →
  results_attached (db w) →
  ∃ row w',
    create_execution new_id task_id execution_data w = (row, w')
    ∧ executions (db w') !! new_id = Some row
    ∧ TestExecution.id row = new_id
    ∧ TestExecution.project_id row = ExecutionCreate.project_id execution_data
    ∧ TestExecution.test_suite_id row = ExecutionCreate.test_suite_id execution_data
    ∧ TestExecution.environment row = ExecutionCreate.environment execution_data
    ∧ TestExecution.status row = ExecutionStatus.QUEUED
    ∧ TestExecution.is_running row = true
    ∧ TestExecution.celery_task_id row = Some task_id
    ∧ TestExecution.started_at row = None
    ∧ TestExecution.total_tests row = 0
    ∧ never_run row w'
    ∧ TestExecution.pass_rate row = 0%Q
    ∧ (∀ k, k ≠ new_id → executions (db w') !! k = executions (db w) !! k)
    ∧ results (db w') = results (db w)
    ∧ test_cases (db w') = test_cases (db w)
    ∧ suite_test_cases (db w') = suite_test_cases (db w)
    ∧ cache w' = cache w
    ∧ execution_logs w' = execution_logs w.
Proof.
  intros Hfresh Hatt. unfold create_execution. simpl.
  eexists _, _. split; [reflexivity |]. simpl.
  rewrite lookup_insert_eq, app_nil_r.
  repeat split; try done.
  - unfold results_of. simpl. rewrite app_nil_r. by apply rows_for_unattached.
  - intros k Hk. by rewrite lookup_insert_ne.
Qed.

Lemma created_execution_is_queued_witness :
  ∃ row w',
    create_execution 2 "job-2" sample_request completed_world = (row, w')
    ∧ executions (db w') !! 2 = Some row
    ∧ TestExecution.id row = 2
    ∧ TestExecution.project_id row = ExecutionCreate.project_id sample_request
    ∧ TestExecution.test_suite_id row = ExecutionCreate.test_suite_id sample_request
    ∧ TestExecution.environment row = ExecutionCreate.environment sample_request
    ∧ TestExecution.status row = ExecutionStatus.QUEUED
    ∧ TestExecution.is_running row = true
    ∧ TestExecution.celery_task_id row = Some "job-2"
    ∧ TestExecution.started_at row = None
    ∧ TestExecution.total_tests row = 0
    ∧ never_run row w'
    ∧ TestExecution.pass_rate row = 0%Q
    ∧ (∀ k, k ≠ 2 → executions (db w') !! k = executions (db completed_world) !! k)
    ∧ results (db w') = results (db completed_world)
    ∧ test_cases (db w') = test_cases (db completed_world)
    ∧ suite_test_cases (db w') = suite_test_cases (db completed_world)
    ∧ cache w' = cache completed_world
    ∧ execution_logs w' = execution_logs completed_world.
Proof.
  apply (created_execution_is_queued 2 "job-2" sample_request completed_world).
  - reflexivity.
  - intros r Hr. revert r Hr. apply Forall_forall.
    apply (bool_decide_unpack _). vm_compute. reflexivity.
Defined.

(** X22.  From the request to the first run.  An execution created with a
    fresh primary key and then run once by the task, with the cache
    available, ends COMPLETED under the job id of the run; its total is the
    number of test cases the target set had when it was created, it has
    that many result rows, passed, failed and error counters add up to the
    total, and the skipped and blocked counters are 0: the engine writes
    no such result. *)
Theorem first_run_of_a_created_execution env callback_db new_id task_id request_id
    execution_data w :
  cache_available env →
  executions (db w) !! new_id = None →
  results_attached (db w) →
  ∃ row w1 r w' e',
    create_execution new_id task_id execution_data w = (row, w1)
    ∧ execute_test_suite env callback_db request_id new_id w1 = (Returned r, w')
    ∧ executions (db w') !! new_id = Some e'
    ∧ same_identity row e'
    ∧ TestExecution.status e' = ExecutionStatus.COMPLETED
    ∧ TestExecution.celery_task_id e' = Some request_id
    ∧ TestExecution.total_tests e'
      = Z.of_nat (length (_get_test_cases_for_execution (db w) row))
    ∧ length (results_of new_id (db w'))
      = length (_get_test_cases_for_execution (db w) row)
    ∧ TestExecution.passed_tests e' + TestExecution.failed_tests e'
      + TestExecution.error_tests e' = TestExecution.total_tests e'
    ∧ TestExecution.skipped_tests e' = 0
    ∧ TestExecution.blocked_tests e' = 0.
Proof.
  intros Hredis Hfresh Hatt.
  destruct (created_execution_facts new_id task_id execution_data w Hfresh Hatt)
    as (row & w1 & Hcreate & Hlook & Hid & Hnever & Hzero & Htc & Hsuite).
  exists row, w1. rewrite Hcreate.
  destruct (execute_returns env new_id request_id w1 row Hredis Hlook Hid)
    as (rows & r & w' & e' & Hrun & Hrows & Hres & _ & _ & Hex & _ & Hst & Htotal
        & _ & Htask & _ & Hne & Hempty & _).
  destruct (execute_footprint env new_id request_id w1 row Hlook Hid)
    as (o & w2 & e2 & rows2 & Hrun2 & _ & Hex2 & Hsame & _).
  rewrite Hrun in Hrun2. injection Hrun2 as <- <-.
  rewrite Hex in Hex2. injection Hex2 as <-.
  assert (_get_test_cases_for_execution (db w1) row
          = _get_test_cases_for_execution (db w) row) as Htarget.
  { by apply get_test_cases_ext. }
  rewrite Htarget in *.
  assert (length rows = length (_get_test_cases_for_execution (db w) row)) as Hlen
    by (by eapply rows_of_length).
  assert (results_of (TestExecution.id row) (db w') = rows) as Hall.
  { rewrite Hid in Hnever |- *. unfold results_of in Hnever |- *.
    rewrite Hres, filter_app_rows_for, Hnever. simpl.
    by eapply rows_of_rows_for. }
  assert (counters_from rows e') as Hcount.
  { destruct (decide (_get_test_cases_for_execution (db w) row = [])) as [E | NE].
    - destruct (Hempty E) as [(H1 & H2 & H3 & H4 & H5) _].
      destruct Hzero as (Z1 & Z2 & Z3 & Z4 & Z5).
      assert (rows = []) as ->.
      { apply nil_length_inv. by rewrite Hlen, E. }
      unfold counters_from, count_status. simpl. repeat split; lia.
    - rewrite <- Hall, Hid. by apply Hne. }
  rewrite Hid in Hall. exists r, w', e'. unfold execute_test_suite. rewrite Hrun.
  split; [done |]. split; [done |]. split; [done |]. split; [done |]. split; [done |].
  split; [done |]. split; [done |]. split; [by rewrite Hall |].
  destruct Hcount as (Hp & Hf & Hs & Hb & Hx).
  pose proof (count_status_total rows) as Hsum.
  pose proof (rows_of_statuses _ _ _ _ _ Hrows) as Hsts.
  assert (∀ st, st ∉ [TestResultStatus.PASSED; TestResultStatus.FAILED;
                       TestResultStatus.ERROR] → count_status st rows = 0) as Hnone.
  { intros st Hst'. apply count_status_absent.
    eapply Forall_impl; [exact Hsts |]. intros x Hx' Heq. apply Hst'. by rewrite <- Heq. }
  rewrite (Hnone TestResultStatus.PENDING) in Hsum
    by (apply (bool_decide_eq_false_1 _); reflexivity).
  rewrite (Hnone TestResultStatus.SKIPPED) in Hsum, Hs
    by (apply (bool_decide_eq_false_1 _); reflexivity).
  rewrite (Hnone TestResultStatus.BLOCKED) in Hsum, Hb
    by (apply (bool_decide_eq_false_1 _); reflexivity).
  rewrite Hp, Hf, Hx, Htotal, <- Hlen. repeat split; try done. lia.
Qed.

Lemma first_run_of_a_created_execution_witness :
  ∃ row w1 r w' e',
    create_execution 2 "job-2" sample_request completed_world = (row, w1)
    ∧ execute_test_suite (calm two_pass_one_fail) None "job-2" 2 w1 = (Returned r, w')
    ∧ executions (db w') !! 2 = Some e'
    ∧ same_identity row e'
    ∧ TestExecution.status e' = ExecutionStatus.COMPLETED
    ∧ TestExecution.celery_task_id e' = Some "job-2"
    ∧ TestExecution.total_tests e'
      = Z.of_nat (length (_get_test_cases_for_execution (db completed_world) row))
    ∧ length (results_of 2 (db w'))
      = length (_get_test_cases_for_execution (db completed_world) row)
    ∧ TestExecution.passed_tests e' + TestExecution.failed_tests e'
      + TestExecution.error_tests e' = TestExecution.total_tests e'
    ∧ TestExecution.skipped_tests e' = 0
    ∧ TestExecution.blocked_tests e' = 0.
Proof.
  apply (first_run_of_a_created_execution (calm two_pass_one_fail) None 2 "job-2" "job-2"
           sample_request completed_world).
  - intros site. reflexivity.
  - reflexivity.
  - intros r Hr. revert r Hr. apply Forall_forall.
    apply (bool_decide_unpack _). vm_compute. reflexivity.
Defined.

End Creation.

Section Derived.

Implicit Types (w : World) (s : Session) (e : TestExecution.t).

#[local] Arguments TestExecution.round_half_even : simpl never.

(** X23.  The ends of the pass rate.  With no test passed the pass rate is
    0; with at least one test passed and none failed it is 100; and it is
    a function of the passed and failed counters alone: skipped, blocked
    and error tests do not lower it. *)
Theorem pass_rate_extremes e :
  counters_nonneg e →
  (TestExecution.passed_tests e = 0 → (TestExecution.pass_rate e == 0)%Q)
  ∧ (TestExecution.failed_tests e = 0 → 0 < TestExecution.passed_tests e →
     (TestExecution.pass_rate e == 100)%Q)
  ∧ ∀ e2, TestExecution.passed_tests e2 = TestExecution.passed_tests e →
          TestExecution.failed_tests e2 = TestExecution.failed_tests e →
          TestExecution.pass_rate e2 = TestExecution.pass_rate e.
Proof.
  intros (_ & Hp & Hf & _). split; [| split].
  - intros Hzero. unfold TestExecution.pass_rate. rewrite Hzero, Z.add_0_l.
    destruct (TestExecution.failed_tests e =? 0); [reflexivity |].
    rewrite (to_double_zero (inject_Z 0 / inject_Z (TestExecution.failed_tests e)))
      by (unfold Qdiv; change (inject_Z 0) with 0%Q; ring).
    vm_compute. reflexivity.
  - intros Hzero Hpos. unfold TestExecution.pass_rate. rewrite Hzero, Z.add_0_r.
    destruct (Z.eqb_spec (TestExecution.passed_tests e) 0) as [? | _]; [lia |].
    assert (inject_Z (TestExecution.passed_tests e)
            / inject_Z (TestExecution.passed_tests e) == 1)%Q as Hone.
    { apply Qmult_inv_r. intros Heq.
      unfold Qeq, inject_Z in Heq. simpl in Heq. lia. }
    rewrite (to_double_proper _ _ Hone). vm_compute. reflexivity.
  - intros e2 H1 H2. unfold TestExecution.pass_rate. by rewrite H1, H2.
Qed.

Lemma pass_rate_extremes_witness :
  (TestExecution.pass_rate (TestExecution.with_counts 3 0 1 0 2 queued_execution) == 100)%Q.
Proof.
  apply (pass_rate_extremes (TestExecution.with_counts 3 0 1 0 2 queued_execution)).
  - unfold counters_nonneg. simpl. lia.
  - reflexivity.
  - simpl. lia.
Defined.

Lemma is_failed_spec (r : TestCaseResult.t) :
  TestCaseResult.is_failed r = true
  ↔ TestCaseResult.status r = TestResultStatus.FAILED
    ∨ TestCaseResult.status r = TestResultStatus.ERROR.
Proof.
  unfold TestCaseResult.is_failed.
  rewrite bool_decide_eq_true, !elem_of_cons, elem_of_nil. tauto.
Qed.

Lemma failed_or_error_length (rows : list TestCaseResult.t) :
  Z.of_nat (length (filter (λ r, TestCaseResult.is_failed r = true) rows))
  = count_status TestResultStatus.FAILED rows + count_status TestResultStatus.ERROR rows.
Proof.
  unfold count_status. induction rows as [| r rows IH]; [done |].
  rewrite !filter_cons.
  destruct (decide (TestCaseResult.is_failed r = true)) as [Hyes | Hno];
    rewrite is_failed_spec in *;
    destruct (decide (TestCaseResult.status r = TestResultStatus.FAILED)) as [H1 | H1];
    destruct (decide (TestCaseResult.status r = TestResultStatus.ERROR)) as [H2 | H2];
    simpl; try lia; exfalso; try tauto; congruence.
Qed.

(** X24.  The recount and the result properties.  After
    [_update_execution_summary] the passed counter is the number of result
    rows of the execution of which [is_passed] holds, while the rows of
    which [is_failed] holds are split between the failed and the error
    counters; the rows the session has added itself are counted with the
    stored ones, and nothing but the five counters changes. *)
Theorem recount_matches_result_properties s w :
  let rows := rows_for (TestExecution.id (execution s)) (results (db w) ++ added s) in
  let e' := execution (_update_execution_summary s w) in
  TestExecution.passed_tests e'
  = Z.of_nat (length (filter (λ r, TestCaseResult.is_passed r = true) rows))
  ∧ TestExecution.failed_tests e' + TestExecution.error_tests e'
    = Z.of_nat (length (filter (λ r, TestCaseResult.is_failed r = true) rows))
  ∧ counters_from rows e'
  ∧ same_identity (execution s) e'
  ∧ TestExecution.status e' = TestExecution.status (execution s)
  ∧ TestExecution.total_tests e' = TestExecution.total_tests (execution s)
  ∧ added (_update_execution_summary s w) = added s.
Proof.
  intros rows e'. subst e'.
  unfold _update_execution_summary, select_results. fold (rows_for (TestExecution.id (execution s)) (results (db w) ++ added s)).
  fold rows. simpl. rewrite failed_or_error_length.
  repeat split; try done.
  unfold count_status. f_equal. f_equal. apply filter_ext_elem.
  intros r _. unfold TestCaseResult.is_passed. by rewrite bool_decide_eq_true.
Qed.

End Derived.
